(** * langchain-mcp: the ingestion-and-retrieval core, embedded in Rocq

    The development follows the Python sources
    [langchain_mcp/vector_store/vector.py] (class [DocumentVectorizer]),
    [langchain_mcp/context/web_context.py] (class [WebContext]),
    [langchain_mcp/context/pdf_context.py] (class [PdfContext]) and
    [langchain_mcp/readers/scraper.py] (class [WebScraper]).

    Python code that touches the outside (the Chroma vector store, the file
    system, sqlite, the browser, the language model) is written in a small
    state-and-exception monad over an abstract [World]; every call that
    leaves the program is recorded in a trace of [Event]s, so that "no call
    is made" and "exactly these calls are made" are statements about the
    trace.  Text is a [string] of bytes (a Python [str] in its UTF-8
    encoding). *)

From Stdlib Require Import ZArith Lia String Ascii List.
From stdpp Require Import gmap strings list.

Open Scope Z_scope.

(** ** Part I: definitions *)

(** *** Python values, documents, exceptions *)

(** Scalars that occur as metadata values and sqlite cells (REAL cells are
    left out of the model). *)
Inductive PyVal : Type :=
| PyNone
| PyBool (b : bool)
| PyInt (z : Z)
| PyStr (s : string)
| PyBytes (s : string).

(** [langchain_core.documents.Document]. *)
Record Document : Type := mkDocument {
  page_content : string;
  metadata : gmap string PyVal
}.

(** A raised exception: its class name and its message. *)
Inductive PyExn : Type := Exn (cls : string) (msg : string).

Definition ValueError (msg : string) : PyExn := Exn "ValueError" msg.
Definition NameError (name : string) : PyExn :=
  Exn "NameError" ("name '" +:+ name +:+ "' is not defined").
Definition ZeroDivisionError : PyExn :=
  Exn "ZeroDivisionError" "integer division or modulo by zero".

Inductive result (A : Type) : Type :=
| Ok (a : A)
| Raise (e : PyExn).
Arguments Ok {A} a.
Arguments Raise {A} e.

(** Truth value testing of the Python objects that the code tests. *)
Definition truthy_str (s : string) : bool :=
  match s with EmptyString => false | _ => true end.
Definition truthy_list {A} (l : list A) : bool :=
  match l with [] => false | _ => true end.
Definition truthy_opt {A} (t : A → bool) (o : option A) : bool :=
  match o with None => false | Some a => t a end.

(** *** Collaborators

    Everything the program reaches outside itself.  Each operation takes the
    current world and returns a result or an exception together with the
    world it leaves behind (an exception does not undo what the operation
    did before raising). *)

(** What [WebScraper.fetch_html] hands back: the page source, if any. *)
Definition Html : Type := string.

Class Env : Type := {
  World : Type;
  Score : Type;
  (* langchain_text_splitters.RecursiveCharacterTextSplitter(chunk_size,
     chunk_overlap).split_documents *)
  splitter_split_documents : Z → Z → list Document → list Document;
  (* os.makedirs(path, exist_ok=True), os.path.exists, os.listdir *)
  os_makedirs : string → World → result unit * World;
  os_path_exists : string → World → result bool * World;
  os_listdir : string → World → result (list string) * World;
  (* Chroma(persist_directory, embedding_function, collection_name) and the
     methods of the handle, addressed by the persist directory *)
  chroma_open : string → string → World → result unit * World;
  chroma_add_documents : string → list Document → World → result (list string) * World;
  chroma_persist : string → World → result unit * World;
  chroma_similarity_search : string → string → Z → World → result (list Document) * World;
  chroma_similarity_search_with_score :
    string → string → Z → World → result (list (Document * Score)) * World;
  (* sqlite3: connect, execute + fetchall, close.  A fetched row is its
     first cell (the content column, TEXT or NULL) and the remaining cells. *)
  sqlite_connect : string → World → result unit * World;
  sqlite_fetchall : string → string → World → result (list (option string * list PyVal)) * World;
  sqlite_close : string → World → result unit * World;
  (* the browser behind WebScraper.fetch_html and the BeautifulSoup
     extraction behind WebScraper.extract_text_from_html *)
  browser_fetch : string → Z → World → result (Html * gmap string PyVal) * World;
  soup_extract : Html → list string → Z → World → result (string * string) * World;
  (* urllib.parse.urlparse(url): the scheme and the netloc *)
  urlparse : string → result (string * string);
  (* PDFTextExtractor(source).extract_text() *)
  pdf_extract_text : string → World → result string * World;
  (* (prompt | model).invoke({"document": ..., "question": ...}), for the
     fixed prompt template of the two context classes *)
  llm_invoke : string → string → string → World → result string * World
}.

(** The calls that leave the program, in the order they are issued. *)
Inductive Event : Type :=
| EvSplit (docs : list Document)
| EvMakedirs (path : string)
| EvPathExists (path : string)
| EvListdir (path : string)
| EvChromaOpen (path collection : string)
| EvAddDocuments (db : string) (batch : list Document)
| EvPersist (db : string)
| EvSearch (db query : string) (k : Z)
| EvSearchWithScore (db query : string) (k : Z)
| EvSqliteConnect (path : string)
| EvSqliteFetchall (path sql : string)
| EvSqliteClose (path : string)
| EvFetch (url : string)
| EvSoup (html : Html)
| EvPdfExtract (source : string)
| EvLLM (document question : string).

(** *** The state-and-exception monad *)

Section Monad.
Context `{Env}.

Definition St : Type := World * list Event.
Definition M (A : Type) : Type := St → result A * St.

Definition ret {A} (a : A) : M A := λ s, (Ok a, s).
Definition raise {A} (e : PyExn) : M A := λ s, (Raise e, s).
Definition bind {A B} (m : M A) (f : A → M B) : M B :=
  λ s, match m s with
       | (Ok a, s') => f a s'
       | (Raise e, s') => (Raise e, s')
       end.

(** [try: body  except Exception as e: handler e]. *)
Definition try_except {A} (body : M A) (handler : PyExn → M A) : M A :=
  λ s, match body s with
       | (Ok a, s') => (Ok a, s')
       | (Raise e, s') => handler e s'
       end.

(** A call to a collaborator: logged, then performed. *)
Definition call {A} (ev : Event) (op : World → result A * World) : M A :=
  λ s, let (r, w') := op (fst s) in (r, (w', snd s ++ [ev])).

(** A pure library call that is logged only. *)
Definition note (ev : Event) : M unit :=
  λ s, (Ok tt, (fst s, snd s ++ [ev])).

(** [for x in xs: acc = body x acc], leaving at the first exception. *)
Fixpoint for_each {A B} (xs : list A) (acc : B) (body : A → B → M B) : M B :=
  match xs with
  | [] => ret acc
  | x :: xs' => bind (body x acc) (λ acc', for_each xs' acc' body)
  end.
End Monad.

Notation "'let*' x ':=' m 'in' k" := (bind m (λ x, k))
  (at level 10, x pattern, m at level 100, k at level 200, only parsing).

(** *** Python integer and sequence operations *)

(** [a // b]. Rocq's [Z.div] rounds towards minus infinity like Python's. *)
Definition py_floordiv `{Env} (a b : Z) : M Z :=
  if b =? 0 then raise ZeroDivisionError else ret (a / b).

(** [len(range(start, stop, step))] for a non-zero step. *)
Definition py_range_len (start stop step : Z) : Z :=
  if 0 <? step then
    (if start <? stop then (stop - start - 1) / step + 1 else 0)
  else
    (if stop <? start then (start - stop - 1) / (- step) + 1 else 0).

(** [list(range(start, stop, step))]. *)
Definition py_range `{Env} (start stop step : Z) : M (list Z) :=
  if step =? 0 then raise (ValueError "range() arg 3 must not be zero")
  else ret (map (λ k : nat, start + Z.of_nat k * step)
                (seq 0 (Z.to_nat (py_range_len start stop step)))).

(** One bound of a slice, clamped as [slice.indices] does for step 1. *)
Definition py_slice_bound (n i : Z) : Z :=
  if i <? 0 then Z.max (i + n) 0 else Z.min i n.

(** [l[lo:hi]]. *)
Definition py_slice {A} (l : list A) (lo hi : Z) : list A :=
  let n := Z.of_nat (length l) in
  let lo' := py_slice_bound n lo in
  let hi' := py_slice_bound n hi in
  take (Z.to_nat (hi' - lo')) (drop (Z.to_nat lo') l).

(** [sep.join(parts)]. *)
Fixpoint py_join (sep : string) (parts : list string) : string :=
  match parts with
  | [] => ""
  | [p] => p
  | p :: ps => p +:+ sep +:+ py_join sep ps
  end.

(** [dict(zip(keys, values))]: a later pair overwrites an earlier one. *)
Fixpoint dict_of_zip (keys : list string) (values : list PyVal)
    (acc : gmap string PyVal) : gmap string PyVal :=
  match keys, values with
  | k :: ks, v :: vs => dict_of_zip ks vs (<[k := v]> acc)
  | _, _ => acc
  end.

(** *** vector_store/vector.py: DocumentVectorizer *)

Record DocumentVectorizer : Type := mkVectorizer {
  embedding_model_name : string;
  db_path : string;
  collection_name : string;
  chunk_size : Z;
  chunk_overlap : Z;
  batch_size : Z;
  db : string;                      (* the Chroma handle: its persist directory *)
  sqlite_path : option string;
  content_column : option string;
  metadata_columns : list string
}.

Section Vectorizer.
Context `{Env}.

(** [self.text_splitter.split_documents(docs)] *)
Definition text_splitter_split (self : DocumentVectorizer) (docs : list Document)
    : M (list Document) :=
  let* _ := note (EvSplit docs) in
  ret (splitter_split_documents (chunk_size self) (chunk_overlap self) docs).

Definition db_add_documents (self : DocumentVectorizer) (docs : list Document)
    : M (list string) :=
  call (EvAddDocuments (db self) docs) (chroma_add_documents (db self) docs).

Definition db_persist (self : DocumentVectorizer) : M unit :=
  call (EvPersist (db self)) (chroma_persist (db self)).

(** [_init_vector_db] *)
Definition _init_vector_db (path collection : string) : M string :=
  let* _ := call (EvMakedirs path) (os_makedirs path) in
  let* _ := call (EvChromaOpen path collection) (chroma_open path collection) in
  ret path.

(** [__init__]; [db_arg] is the optional pre-initialised store. *)
Definition DocumentVectorizer_init
    (db_path_arg : string) (embedding : string) (db_arg : option string)
    (collection : string) (chunk_size_arg chunk_overlap_arg batch_size_arg : Z)
    (sqlite_path_arg content_column_arg : option string)
    (metadata_columns_arg : option (list string)) : M DocumentVectorizer :=
  let* d := match db_arg with
            | Some h => ret h
            | None => _init_vector_db db_path_arg collection
            end in
  ret {| embedding_model_name := embedding;
         db_path := db_path_arg;
         collection_name := collection;
         chunk_size := chunk_size_arg;
         chunk_overlap := chunk_overlap_arg;
         batch_size := batch_size_arg;
         db := d;
         sqlite_path := sqlite_path_arg;
         content_column := content_column_arg;
         metadata_columns := default [] metadata_columns_arg |}.

(** The constructor with every default of the signature. *)
Definition DocumentVectorizer_default (db_path_arg : string) : M DocumentVectorizer :=
  DocumentVectorizer_init db_path_arg "mxbai-embed-large:latest" None
    "document_collection" 500 200 5000 None None None.

(** [_add_documents_in_batches] (the progress prints are left out). *)
Definition _add_documents_in_batches (self : DocumentVectorizer)
    (documents : list Document) : M (list string) :=
  let all_ids : list string := [] in
  let total_docs := Z.of_nat (length documents) in
  if total_docs <=? batch_size self then
    let* ids := db_add_documents self documents in
    ret (all_ids ++ ids)
  else
    let* total_batches :=
      py_floordiv (total_docs + batch_size self - 1) (batch_size self) in
    let* indices := py_range 0 total_docs (batch_size self) in
    for_each indices all_ids (λ i all_ids,
      let batch := py_slice documents i (i + batch_size self) in
      let* batch_num := py_floordiv i (batch_size self) in
      try_except
        (let* batch_ids := db_add_documents self batch in
         ret (all_ids ++ batch_ids))
        (λ e, raise e)).

(** [process_text]; [metadata or {}]. *)
Definition process_text (self : DocumentVectorizer) (text : string)
    (meta : option (gmap string PyVal)) : M (list Document) :=
  let doc := mkDocument text (default ∅ meta) in
  text_splitter_split self [doc].

(** [add_text] *)
Definition add_text (self : DocumentVectorizer) (text : string)
    (meta : option (gmap string PyVal)) : M (list string) :=
  let* chunks := process_text self text meta in
  let* ids := _add_documents_in_batches self chunks in
  let* _ := db_persist self in
  ret ids.

(** [add_documents] *)
Definition add_documents (self : DocumentVectorizer) (documents : list Document)
    : M (list string) :=
  let* chunks := text_splitter_split self documents in
  let* ids := _add_documents_in_batches self chunks in
  let* _ := db_persist self in
  ret ids.

(** The loop of [add_texts]: [metadatas[i] if metadatas else {}] for the
    i-th text.  Indexing past the end of [metadatas] is an [IndexError]. *)
Fixpoint add_texts_loop (texts : list string) (i : nat)
    (metadatas : option (list (gmap string PyVal)))
    (documents : list Document) : M (list Document) :=
  match texts with
  | [] => ret documents
  | text :: rest =>
      let* meta :=
        (if truthy_opt truthy_list metadatas then
           match default [] metadatas !! i with
           | Some m => ret m
           | None => raise (Exn "IndexError" "list index out of range")
           end
         else ret ∅) in
      add_texts_loop rest (S i) metadatas (documents ++ [mkDocument text meta])
  end.

(** [add_texts] *)
Definition add_texts (self : DocumentVectorizer) (texts : list string)
    (metadatas : option (list (gmap string PyVal))) : M (list string) :=
  if truthy_opt truthy_list metadatas
     && negb (length (default [] metadatas) =? length texts)%nat
  then raise (ValueError "Length of metadatas must match length of texts")
  else
    let* documents := add_texts_loop texts 0 metadatas [] in
    add_documents self documents.

(** [similarity_search] and [similarity_search_with_score] *)
Definition similarity_search (self : DocumentVectorizer) (query : string) (k : Z)
    : M (list Document) :=
  call (EvSearch (db self) query k) (chroma_similarity_search (db self) query k).

Definition similarity_search_with_score (self : DocumentVectorizer)
    (query : string) (k : Z) : M (list (Document * Score)) :=
  call (EvSearchWithScore (db self) query k)
       (chroma_similarity_search_with_score (db self) query k).

(** [get_batch_size], [set_batch_size] *)
Definition get_batch_size (self : DocumentVectorizer) : Z := batch_size self.

Definition set_batch_size (self : DocumentVectorizer) (b : Z) : M DocumentVectorizer :=
  if b <=? 0 then raise (ValueError "Batch size must be positive")
  else ret {| embedding_model_name := embedding_model_name self;
              db_path := db_path self;
              collection_name := collection_name self;
              chunk_size := chunk_size self;
              chunk_overlap := chunk_overlap self;
              batch_size := b;
              db := db self;
              sqlite_path := sqlite_path self;
              content_column := content_column self;
              metadata_columns := metadata_columns self |}.

(** The row loop of [ingest_from_sqlite]: rows with a falsy content cell
    (NULL or the empty text) are skipped. *)
Fixpoint sqlite_rows_loop (columns : list string)
    (rows : list (option string * list PyVal))
    (texts : list string) (metadatas : list (gmap string PyVal))
    : list string * list (gmap string PyVal) :=
  match rows with
  | [] => (texts, metadatas)
  | (content, cells) :: rest =>
      let meta := dict_of_zip columns cells ∅ in
      if truthy_opt truthy_str content
      then sqlite_rows_loop columns rest
             (texts ++ [default "" content]) (metadatas ++ [meta])
      else sqlite_rows_loop columns rest texts metadatas
  end.

(** [ingest_from_sqlite] *)
Definition ingest_from_sqlite (self : DocumentVectorizer) (table_name : string)
    : M (list string) :=
  if negb (truthy_opt truthy_str (sqlite_path self))
  then raise (ValueError "SQLite path is not set.")
  else if negb (truthy_opt truthy_str (content_column self))
  then raise (ValueError "Content column must be specified.")
  else
    let path := default "" (sqlite_path self) in
    let* _ := call (EvSqliteConnect path) (sqlite_connect path) in
    let selected_columns := default "" (content_column self) :: metadata_columns self in
    let sql := "SELECT " +:+ py_join ", " selected_columns +:+ " FROM " +:+ table_name in
    let* rows := call (EvSqliteFetchall path sql) (sqlite_fetchall path sql) in
    let '(texts, metadatas) := sqlite_rows_loop (metadata_columns self) rows [] [] in
    let* _ := call (EvSqliteClose path) (sqlite_close path) in
    if negb (truthy_list texts) then ret []
    else add_texts self texts (Some metadatas).
End Vectorizer.

(** *** The batch plan of the specification

    "Partition chunks into consecutive batches of exactly [batch_size] (last
    batch may be smaller)": written from the spec's sentence, to be compared
    with what [_add_documents_in_batches] hands to the store. *)
Fixpoint consecutive_batches_fuel {A} (fuel b : nat) (l : list A) : list (list A) :=
  match fuel with
  | O => []
  | S fuel' =>
      match l with
      | [] => []
      | _ => take b l :: consecutive_batches_fuel fuel' b (drop b l)
      end
  end.

Definition consecutive_batches {A} (b : nat) (l : list A) : list (list A) :=
  consecutive_batches_fuel (length l) b l.

(** The number of batches, [ceil(length l / b)]. *)
Definition batch_count {A} (b : nat) (l : list A) : nat := (length l + b - 1) / b.

(** The calls the spec describes, whatever the size of the input: one call
    with everything when it fits into a batch, the consecutive batches
    otherwise. *)
Definition batch_plan (self : DocumentVectorizer) (documents : list Document)
    : list (list Document) :=
  if Z.of_nat (length documents) <=? batch_size self then [documents]
  else consecutive_batches (Z.to_nat (batch_size self)) documents.

Section StoreRuns.
Context `{Env}.

(** The store takes the batches one after the other, answering with the id
    lists [idss], and is left in [w']. *)
Inductive store_accepts (dbh : string)
    : World → list (list Document) → list (list string) → World → Prop :=
| accepts_nil w : store_accepts dbh w [] [] w
| accepts_cons w w1 w2 batch batches ids idss :
    chroma_add_documents dbh batch w = (Ok ids, w1) →
    store_accepts dbh w1 batches idss w2 →
    store_accepts dbh w (batch :: batches) (ids :: idss) w2.

(** The store takes the batches before index [j], then raises [e] on batch
    [j], which leaves it in [w']; [wj] is the world in which batch [j] is
    submitted. *)
Definition store_rejects_at (dbh : string) (w : World)
    (batches : list (list Document)) (j : nat) (e : PyExn)
    (idss : list (list string)) (wj w' : World) : Prop :=
  ∃ batch, batches !! j = Some batch
    ∧ store_accepts dbh w (take j batches) idss wj
    ∧ chroma_add_documents dbh batch wj = (Raise e, w').
End StoreRuns.

(** The batch that the [for] loop of [_add_documents_in_batches] cuts out at
    index [i], and the body of that loop, named for the proofs. *)
Definition window (self : DocumentVectorizer) (documents : list Document) (i : Z)
    : list Document :=
  py_slice documents i (i + batch_size self).

Definition loop_body `{Env} (self : DocumentVectorizer) (documents : list Document)
    (i : Z) (all_ids : list string) : M (list string) :=
  let batch := py_slice documents i (i + batch_size self) in
  let* batch_num := py_floordiv i (batch_size self) in
  try_except
    (let* batch_ids := db_add_documents self batch in
     ret (all_ids ++ batch_ids))
    (λ e, raise e).

(** *** Text helpers *)

Definition newline : string := String (ascii_of_nat 10) "".

Definition strlen (s : string) : Z := Z.of_nat (String.length s).

(** [s.lstrip()], [s.rstrip()], [s.strip()] over ASCII white space. *)
Fixpoint py_lstrip (s : string) : string :=
  match s with
  | String c s' => if Ascii.is_space c then py_lstrip s' else s
  | EmptyString => EmptyString
  end.
Definition py_rstrip (s : string) : string :=
  String.rev (py_lstrip (String.rev s)).
Definition py_strip (s : string) : string := py_rstrip (py_lstrip s).

(** Empty or white space only. *)
Definition is_blank (s : string) : bool := negb (truthy_str (py_lstrip s)).


(** *** The Chunker (langchain's RecursiveCharacterTextSplitter)

    The splitter is a third-party class; the repository only constructs it
    and calls [split_documents].  Its behaviour is taken from section 4.1 and
    the data model of the specification. *)
Module Chunker.

(** Modelled from the spec: the separators "in a descending preference
    order (paragraph break, line break, sentence/clause punctuation, word
    boundary, character)"; the class itself is missing from the sources. *)
Definition separators : list string :=
  [newline +:+ newline; newline; ". "; ", "; " "; ""].

(** [sep] occurs somewhere in [text]. *)
Fixpoint contains (sep text : string) : bool :=
  String.prefix sep text
  || match text with
     | EmptyString => false
     | String _ rest => contains sep rest
     end.

(** Cut [text] at every occurrence of [sep], left to right; the separator
    stays at the head of the piece that follows it, so that the pieces put
    together give [text] back.  [skip] counts the characters of a separator
    just found that are still to be passed over; [cur] is the piece being
    read. *)
Fixpoint split_keep_go (sep text : string) (skip : nat) (cur : string)
    : list string :=
  match text with
  | EmptyString => [cur]
  | String c rest =>
      match skip with
      | S k => split_keep_go sep rest k (cur +:+ String c "")
      | O =>
          if String.prefix sep text
          then cur :: split_keep_go sep rest (String.length sep - 1) (String c "")
          else split_keep_go sep rest 0 (cur +:+ String c "")
      end
  end.

Definition split_keep (sep text : string) : list string :=
  List.filter truthy_str (split_keep_go sep text 0 "").

Definition total_len (l : list string) : Z :=
  fold_right (λ s acc, strlen s + acc) 0 l.

(** Pieces joined into one chunk: trimmed, and dropped when nothing is
    left ("modulo whitespace normalization"). *)
Definition join_docs (docs : list string) : list string :=
  let text := py_strip (py_join "" docs) in
  if truthy_str text then [text] else [].

(** After a chunk is closed, pieces are dropped from its front until what
    is kept as overlap is within [chunk_overlap] and leaves room for the
    next piece of length [len]. *)
Fixpoint shrink (cs co len : Z) (cur : list string) : list string :=
  match cur with
  | [] => []
  | _ :: rest =>
      if (co <? total_len cur) || ((cs <? total_len cur + len) && (0 <? total_len cur))
      then shrink cs co len rest
      else cur
  end.

(** Modelled from the spec: pieces are packed greedily into chunks under
    the [chunk_size] budget and "each output chunk's content overlaps the
    previous chunk's tail by up to [chunk_overlap] characters". *)
Definition merge_step (cs co : Z) (st : list string * list string) (d : string)
    : list string * list string :=
  let '(docs, cur) := st in
  if (cs <? total_len cur + strlen d) && truthy_list cur
  then (docs ++ join_docs cur, shrink cs co (strlen d) cur ++ [d])
  else (docs, cur ++ [d]).

Definition merge_splits (cs co : Z) (splits : list string) : list string :=
  let '(docs, cur) := fold_left (merge_step cs co) splits ([], []) in
  docs ++ join_docs cur.

(** Pieces below the budget are collected and merged; a piece that reaches
    the budget closes the collected ones and is handed to [hard]. *)
Definition pieces_step (cs co : Z) (hard : string → list string)
    (st : list string * list string) (s : string) : list string * list string :=
  let '(out, good) := st in
  if strlen s <? cs then (out, good ++ [s])
  else (out ++ merge_splits cs co good ++ hard s, []).

Definition split_pieces (cs co : Z) (hard : string → list string)
    (pieces : list string) : list string :=
  let '(out, good) := fold_left (pieces_step cs co hard) pieces ([], []) in
  out ++ merge_splits cs co good.

(** Modelled from the spec: the splitter "is recursive-boundary-aware, can
    exceed the budget if no split point exists below it": the text is cut
    at the first separator of the list that occurs in it, and a piece still
    over the budget is cut again with the separators that follow; with no
    separator left it is emitted as it is. *)
Fixpoint split_rec (cs co : Z) (seps : list string) (text : string)
    : list string :=
  match seps with
  | [] => split_pieces cs co (λ s, [s]) [text]
  | sep :: rest =>
      if contains sep text
      then split_pieces cs co
             (match rest with
              | [] => λ s, [s]
              | _ => split_rec cs co rest
              end)
             (split_keep sep text)
      else split_rec cs co rest text
  end.

(** Modelled from the spec: "empty or whitespace-only text yields zero
    chunks". *)
Definition split_text (cs co : Z) (text : string) : list string :=
  if is_blank text then [] else split_rec cs co separators text.

(** Modelled from the spec: "metadata is copied unchanged onto every chunk
    derived from a document"; the chunks come in document order. *)
Definition split_documents (cs co : Z) (docs : list Document) : list Document :=
  flat_map (λ d, map (λ c, mkDocument c (metadata d))
                     (split_text cs co (page_content d))) docs.
End Chunker.

(** *** hashlib.sha256 and os.path.join

    Both come from the Python standard library.  SHA-256 is written out
    after FIPS 180-4 on 32-bit words held in [Z]; a text is hashed as its
    bytes. *)
Module Sha256.

Definition w32 (x : Z) : Z := x mod 2 ^ 32.
Definition add32 (x y : Z) : Z := w32 (x + y).
Definition rotr (n x : Z) : Z :=
  Z.lor (Z.shiftr x n) (w32 (Z.shiftl x (32 - n))).
Definition not32 (x : Z) : Z := Z.lxor x 0xffffffff.

Definition Ch (x y z : Z) : Z := Z.lxor (Z.land x y) (Z.land (not32 x) z).
Definition Maj (x y z : Z) : Z :=
  Z.lxor (Z.lxor (Z.land x y) (Z.land x z)) (Z.land y z).
Definition Sigma0 (x : Z) : Z := Z.lxor (Z.lxor (rotr 2 x) (rotr 13 x)) (rotr 22 x).
Definition Sigma1 (x : Z) : Z := Z.lxor (Z.lxor (rotr 6 x) (rotr 11 x)) (rotr 25 x).
Definition sigma0 (x : Z) : Z := Z.lxor (Z.lxor (rotr 7 x) (rotr 18 x)) (Z.shiftr x 3).
Definition sigma1 (x : Z) : Z := Z.lxor (Z.lxor (rotr 17 x) (rotr 19 x)) (Z.shiftr x 10).

(** The first 64 primes.  The round constants are the first 32 bits of the
    fractional parts of their cube roots, the initial hash value those of the
    square roots of the first eight. *)
Definition primes : list Z :=
  [2; 3; 5; 7; 11; 13; 17; 19; 23; 29; 31; 37; 41; 43; 47; 53; 59; 61; 67; 71;
   73; 79; 83; 89; 97; 101; 103; 107; 109; 113; 127; 131; 137; 139; 149; 151;
   157; 163; 167; 173; 179; 181; 191; 193; 197; 199; 211; 223; 227; 229; 233;
   239; 241; 251; 257; 263; 269; 271; 277; 281; 283; 293; 307; 311].

(** The integer cube root, bit by bit from the top. *)
Fixpoint cube_root_bits (bits : nat) (acc x : Z) : Z :=
  match bits with
  | O => acc
  | S k =>
      let c := acc + 2 ^ Z.of_nat k in
      if c * c * c <=? x then cube_root_bits k c x else cube_root_bits k acc x
  end.

Definition frac_cube_root (p : Z) : Z := w32 (cube_root_bits 40 0 (p * 2 ^ 96)).
Definition frac_square_root (p : Z) : Z := w32 (Z.sqrt (p * 2 ^ 64)).

Definition K : list Z := Eval vm_compute in map frac_cube_root primes.

(** The eight working words. *)
Record state : Type := mkState {
  ha : Z; hb : Z; hc : Z; hd : Z; he : Z; hf : Z; hg : Z; hh : Z
}.

Definition initial : state :=
  Eval vm_compute in
  mkState (frac_square_root 2) (frac_square_root 3) (frac_square_root 5)
          (frac_square_root 7) (frac_square_root 11) (frac_square_root 13)
          (frac_square_root 17) (frac_square_root 19).

Definition bytes_of (s : string) : list Z :=
  map (λ c, Z.of_nat (nat_of_ascii c)) (list_ascii_of_string s).

(** Big-endian bytes of [x], [n] of them. *)
Fixpoint be_bytes (n : nat) (x : Z) : list Z :=
  match n with
  | O => []
  | S k => be_bytes k (Z.shiftr x 8) ++ [x mod 256]
  end.

(** The message, a 1 bit, zero bits up to 56 mod 64 bytes, the bit length. *)
Definition pad (msg : list Z) : list Z :=
  let len := Z.of_nat (length msg) in
  let zeros := Z.to_nat ((55 - len) mod 64) in
  msg ++ [0x80] ++ repeat 0 zeros ++ be_bytes 8 (8 * len).

Fixpoint words_of (fuel : nat) (bytes : list Z) : list Z :=
  match fuel, bytes with
  | S k, b0 :: b1 :: b2 :: b3 :: rest =>
      (((b0 * 256 + b1) * 256 + b2) * 256 + b3) :: words_of k rest
  | _, _ => []
  end.

(** The message schedule, newest word first. *)
Fixpoint extend (n : nat) (w : list Z) : list Z :=
  match n with
  | O => w
  | S k =>
      let x := add32 (add32 (sigma1 (nth 1 w 0)) (nth 6 w 0))
                     (add32 (sigma0 (nth 14 w 0)) (nth 15 w 0)) in
      extend k (x :: w)
  end.

Definition schedule (block : list Z) : list Z := List.rev (extend 48 (List.rev block)).

Definition round (s : state) (kw : Z * Z) : state :=
  let t1 := add32 (add32 (add32 (hh s) (Sigma1 (he s)))
                         (add32 (Ch (he s) (hf s) (hg s)) (fst kw))) (snd kw) in
  let t2 := add32 (Sigma0 (ha s)) (Maj (ha s) (hb s) (hc s)) in
  mkState (add32 t1 t2) (ha s) (hb s) (hc s) (add32 (hd s) t1) (he s) (hf s) (hg s).

Definition compress (s : state) (block : list Z) : state :=
  let r := fold_left round (combine K (schedule block)) s in
  mkState (add32 (ha s) (ha r)) (add32 (hb s) (hb r)) (add32 (hc s) (hc r))
          (add32 (hd s) (hd r)) (add32 (he s) (he r)) (add32 (hf s) (hf r))
          (add32 (hg s) (hg r)) (add32 (hh s) (hh r)).

Fixpoint blocks (fuel : nat) (s : state) (ws : list Z) : state :=
  match fuel, ws with
  | S k, _ :: _ => blocks k (compress s (take 16 ws)) (drop 16 ws)
  | _, _ => s
  end.

Definition digest (msg : string) : state :=
  let bytes := pad (bytes_of msg) in
  let ws := words_of (length bytes) bytes in
  blocks (length ws) initial ws.

Definition hex_chars : list ascii :=
  ["0"; "1"; "2"; "3"; "4"; "5"; "6"; "7"; "8"; "9";
   "a"; "b"; "c"; "d"; "e"; "f"]%char.

Definition hex_digit (x : Z) : ascii :=
  nth (Z.to_nat (x mod 16)) hex_chars "0"%char.

Definition hex_word (x : Z) : string :=
  String (hex_digit (Z.shiftr x 28)) (String (hex_digit (Z.shiftr x 24))
 (String (hex_digit (Z.shiftr x 20)) (String (hex_digit (Z.shiftr x 16))
 (String (hex_digit (Z.shiftr x 12)) (String (hex_digit (Z.shiftr x 8))
 (String (hex_digit (Z.shiftr x 4)) (String (hex_digit x) ""))))))).

(** [hashlib.sha256(msg).hexdigest()] *)
Definition hexdigest (msg : string) : string :=
  let s := digest msg in
  hex_word (ha s) +:+ hex_word (hb s) +:+ hex_word (hc s) +:+ hex_word (hd s)
  +:+ hex_word (he s) +:+ hex_word (hf s) +:+ hex_word (hg s) +:+ hex_word (hh s).
End Sha256.

(** [posixpath.join(a, b)] *)
Definition os_path_join (a b : string) : string :=
  if String.prefix "/" b then b
  else if negb (truthy_str a) || String.prefix "/" (String.rev a) then a +:+ b
  else a +:+ "/" +:+ b.

(** *** readers/scraper.py: WebScraper *)

Record WebScraper : Type := mkWebScraper {
  timeout : Z;
  skip_tags : list string;
  min_text_length : Z
}.

(** What [scrape] returns: the dict with keys success, text, metadata. *)
Record ScrapeContent : Type := mkScrapeContent {
  success : bool;
  text : string;
  scrape_metadata : gmap string PyVal
}.

Section Scraper.
Context `{Env}.

(** [WebScraper()] with the defaults of its signature. *)
Definition WebScraper_default : WebScraper :=
  {| timeout := 30 * 1000;
     skip_tags := ["script"; "style"; "noscript"; "iframe"; "head"; "meta"; "link"];
     min_text_length := 20 |}.

(** [validate_url]: any exception of the parser counts as invalid. *)
Definition validate_url (url : string) : bool :=
  match urlparse url with
  | Ok (scheme, netloc) =>
      truthy_str scheme && truthy_str netloc
      && bool_decide (scheme ∈ ["http"; "https"])
  | Raise _ => false
  end.

(** [fetch_html]: no exception leaves it. *)
Definition fetch_html (self : WebScraper) (url : string)
    : M (option Html * gmap string PyVal) :=
  if negb (validate_url url)
  then ret (None, {[ "error" := PyStr "Invalid URL format" ]})
  else
    try_except
      (let* r := call (EvFetch url) (browser_fetch url (timeout self)) in
       ret (Some (fst r), snd r))
      (λ e, let 'Exn _ msg := e in ret (None, {[ "error" := PyStr msg ]})).

(** [extract_text_from_html] *)
Definition extract_text_from_html (self : WebScraper) (html : Html)
    : M (string * string) :=
  call (EvSoup html) (soup_extract html (skip_tags self) (min_text_length self)).

(** [scrape] *)
Definition scrape (self : WebScraper) (url : string) : M ScrapeContent :=
  let* fetched := fetch_html self url in
  match fst fetched with
  | None => ret (mkScrapeContent false "" (snd fetched))
  | Some html =>
      let* extracted := extract_text_from_html self html in
      let meta := <[ "title" := PyStr (snd extracted) ]> (snd fetched) in
      ret (mkScrapeContent true (fst extracted) meta)
  end.
End Scraper.

(** *** context/web_context.py and context/pdf_context.py *)

(** The names bound at module level when the body of a method runs: the
    imports of the file and the class it defines. *)
Definition web_context_globals : list string :=
  ["hashlib"; "os"; "Optional"; "WebScraper"; "SummaryGenerator";
   "DocumentVectorizer"; "OllamaLLM"; "ChatPromptTemplate"; "WebContext"].

Definition pdf_context_globals : list string :=
  ["Optional"; "hashlib"; "OllamaLLM"; "PDFTextExtractor"; "SummaryGenerator";
   "DocumentVectorizer"; "ChatPromptTemplate"; "PdfContext"].

(** [hashlib.sha256(source.encode()).hexdigest()[:16]] *)
Definition db_hash_of (source : string) : string :=
  String.substring 0 16 (Sha256.hexdigest source).

(** [os.path.join(base_db_dir, db_hash)] *)
Definition cache_dir (base_db_dir source : string) : string :=
  os_path_join base_db_dir (db_hash_of source).

Definition no_documents_message : string :=
  "No relevant documents found. Try force_rescrape=True to refresh.".

Record WebContext : Type := mkWebContext {
  wc_url : string;
  wc_model : string;
  wc_scraper : WebScraper;
  wc_db_hash : string;
  wc_db_path : string;
  wc_vectorstore : DocumentVectorizer;
  wc_content : option ScrapeContent
}.

Record PdfContext : Type := mkPdfContext {
  pc_model : string;
  pc_db_hash : string;
  pc_db_path : string;
  pc_vectorstore : DocumentVectorizer
}.

Section Contexts.
Context `{Env}.

(** Evaluating a global name in a module. *)
Definition lookup_global (globals : list string) (name : string) : M unit :=
  if bool_decide (name ∈ globals) then ret tt else raise (NameError name).

(** [os.path.exists(path) and os.listdir(path)], as a truth value. *)
Definition db_exists_check (path : string) : M bool :=
  let* present := call (EvPathExists path) (os_path_exists path) in
  if present then
    let* entries := call (EvListdir path) (os_listdir path) in
    ret (truthy_list entries)
  else ret false.

(** [WebContext.vectorize_and_store] *)
Definition vectorize_and_store (vectorstore : DocumentVectorizer)
    (content : option ScrapeContent) : M unit :=
  if negb (truthy_opt (λ _, true) content)
     || negb (truthy_str (default "" (text <$> content)))
  then raise (ValueError "No content available to vectorize.")
  else
    let* chunks := process_text vectorstore (default "" (text <$> content)) None in
    let* _ := add_documents vectorstore chunks in
    ret tt.

(** [WebContext.__init__] *)
Definition WebContext_init (url model : string) (base_db_dir : string)
    (force_rescrape : bool) : M WebContext :=
  let scraper := WebScraper_default in
  let* _ := lookup_global web_context_globals "hashlib" in
  let db_hash := db_hash_of url in
  let* _ := lookup_global web_context_globals "os" in
  let db_path := os_path_join base_db_dir db_hash in
  let* _ := lookup_global web_context_globals "os" in
  let* db_exists := db_exists_check db_path in
  let* vectorstore := DocumentVectorizer_default db_path in
  if force_rescrape || negb db_exists then
    let* content := scrape scraper url in
    let* _ := vectorize_and_store vectorstore (Some content) in
    ret (mkWebContext url model scraper db_hash db_path vectorstore (Some content))
  else
    ret (mkWebContext url model scraper db_hash db_path vectorstore None).

(** [WebContext.ask] *)
Definition WebContext_ask (self : WebContext) (question : string) (k : Z)
    : M string :=
  let* similar_docs := similarity_search (wc_vectorstore self) question k in
  if negb (truthy_list similar_docs) then ret no_documents_message
  else
    let combined_docs :=
      py_join (newline +:+ newline) (map page_content similar_docs) in
    let* similarity := similarity_search_with_score (wc_vectorstore self) question 5 in
    let* result := call (EvLLM combined_docs question)
                        (llm_invoke (wc_model self) combined_docs question) in
    ret (py_strip result).

(** [PdfContext.__init__].  The file imports neither [os] nor anything that
    binds that name. *)
Definition PdfContext_init (source model : string) (base_db_dir : string)
    : M PdfContext :=
  let* _ := lookup_global pdf_context_globals "hashlib" in
  let db_hash := db_hash_of source in
  let* _ := lookup_global pdf_context_globals "os" in
  let db_path := os_path_join base_db_dir db_hash in
  let* _ := lookup_global pdf_context_globals "os" in
  let* db_exists := db_exists_check db_path in
  let* vectorstore := DocumentVectorizer_default db_path in
  if negb db_exists then
    let* content := call (EvPdfExtract source) (pdf_extract_text source) in
    if negb (truthy_str content)
    then raise (ValueError "No content available to vectorize.")
    else
      let* chunks := process_text vectorstore content None in
      let* _ := add_documents vectorstore chunks in
      ret (mkPdfContext model db_hash db_path vectorstore)
  else
    ret (mkPdfContext model db_hash db_path vectorstore).

(** [PdfContext.ask] *)
Definition PdfContext_ask (self : PdfContext) (question : string) (k : Z)
    : M string :=
  let* similar_docs := similarity_search (pc_vectorstore self) question k in
  if negb (truthy_list similar_docs) then ret no_documents_message
  else
    let combined_docs := py_join " " (map page_content similar_docs) in
    let* similarity := similarity_search_with_score (pc_vectorstore self) question 5 in
    let* result := call (EvLLM combined_docs question)
                        (llm_invoke (pc_model self) combined_docs question) in
    ret (py_strip result).
End Contexts.

(** *** An in-memory instance of the collaborators

    A small world in which everything can be run: directories with their
    entries, one list of stored documents per Chroma directory, a store that
    refuses a batch once its capacity is used up, and tables of pages, PDF
    texts and sqlite rows. *)
Module Mem.

Record world : Type := mkWorld {
  dirs : gmap string (list string);
  collections : gmap string (list Document);
  capacity : nat;
  pages : gmap string Html;
  pdfs : gmap string string;
  tables : gmap string (list (option string * list PyVal))
}.

Definition set_dirs (w : world) (d : gmap string (list string)) : world :=
  mkWorld d (collections w) (capacity w) (pages w) (pdfs w) (tables w).

Definition stored (w : world) (path : string) : list Document :=
  default [] (collections w !! path).

Fixpoint digits (fuel n : nat) (acc : string) : string :=
  match fuel with
  | O => acc
  | S fuel' =>
      let acc' :=
        String (ascii_of_nat (48 + n mod 10)) acc in
      if (n <? 10)%nat then acc' else digits fuel' (n / 10) acc'
  end.
Definition decimal (n : nat) : string := digits (S n) n "".

Definition makedirs (path : string) (w : world) : result unit * world :=
  match dirs w !! path with
  | Some _ => (Ok tt, w)
  | None => (Ok tt, set_dirs w (<[path := []]> (dirs w)))
  end.

Definition path_exists (path : string) (w : world) : result bool * world :=
  (Ok (bool_decide (is_Some (dirs w !! path))), w).

Definition listdir (path : string) (w : world) : result (list string) * world :=
  match dirs w !! path with
  | Some entries => (Ok entries, w)
  | None => (Raise (Exn "FileNotFoundError" path), w)
  end.

Definition open_store (path collection : string) (w : world) : result unit * world :=
  (Ok tt, w).

Definition fresh_ids (start count : nat) : list string :=
  map (λ i, "doc-" +:+ decimal i) (seq start count).

Definition add (path : string) (docs : list Document) (w : world)
    : result (list string) * world :=
  if (length docs <=? capacity w)%nat then
    (Ok (fresh_ids (length (stored w path)) (length docs)),
     mkWorld (dirs w) (<[path := stored w path ++ docs]> (collections w))
             (capacity w - length docs) (pages w) (pdfs w) (tables w))
  else (Raise (Exn "InternalError" "the collection is full"), w).

(** Flushing writes the index file into the store's directory. *)
Definition persist (path : string) (w : world) : result unit * world :=
  let entries := default [] (dirs w !! path) in
  if bool_decide ("chroma.sqlite3" ∈ entries) then (Ok tt, w)
  else (Ok tt, set_dirs w (<[path := "chroma.sqlite3" :: entries]> (dirs w))).

Definition search (path query : string) (k : Z) (w : world)
    : result (list Document) * world :=
  (Ok (take (Z.to_nat k) (stored w path)), w).

Definition search_with_score (path query : string) (k : Z) (w : world)
    : result (list (Document * nat)) * world :=
  (Ok (map (λ d, (d, 0%nat)) (take (Z.to_nat k) (stored w path))), w).

Definition connect (path : string) (w : world) : result unit * world := (Ok tt, w).

Definition fetchall (path sql : string) (w : world)
    : result (list (option string * list PyVal)) * world :=
  match tables w !! sql with
  | Some rows => (Ok rows, w)
  | None => (Raise (Exn "OperationalError" "no such table"), w)
  end.

Definition close (path : string) (w : world) : result unit * world := (Ok tt, w).

Definition fetch (url : string) (t : Z) (w : world)
    : result (Html * gmap string PyVal) * world :=
  match pages w !! url with
  | Some html => (Ok (html, {[ "url" := PyStr url ]}), w)
  | None => (Raise (Exn "TimeoutError" "page did not load"), w)
  end.

Definition extract (html : Html) (skip : list string) (min_len : Z) (w : world)
    : result (string * string) * world :=
  (Ok (html, ""), w).

Definition parse_url (url : string) : result (string * string) :=
  if String.prefix "https://" url
  then Ok ("https", String.substring 8 (String.length url - 8) url)
  else if String.prefix "http://" url
  then Ok ("http", String.substring 7 (String.length url - 7) url)
  else Ok ("", "").

Definition extract_pdf (source : string) (w : world) : result string * world :=
  match pdfs w !! source with
  | Some t => (Ok t, w)
  | None => (Raise (Exn "Exception" "Error extracting text from PDF"), w)
  end.

Definition invoke (model document question : string) (w : world)
    : result string * world :=
  (Ok (" " +:+ document +:+ " "), w).

Definition empty_world (cap : nat) : world :=
  mkWorld ∅ ∅ cap ∅ ∅ ∅.

Definition doc (content : string) : Document := mkDocument content ∅.
End Mem.

#[export] Instance mem_env : Env := {|
  World := Mem.world;
  Score := nat;
  splitter_split_documents := Chunker.split_documents;
  os_makedirs := Mem.makedirs;
  os_path_exists := Mem.path_exists;
  os_listdir := Mem.listdir;
  chroma_open := Mem.open_store;
  chroma_add_documents := Mem.add;
  chroma_persist := Mem.persist;
  chroma_similarity_search := Mem.search;
  chroma_similarity_search_with_score := Mem.search_with_score;
  sqlite_connect := Mem.connect;
  sqlite_fetchall := Mem.fetchall;
  sqlite_close := Mem.close;
  browser_fetch := Mem.fetch;
  soup_extract := Mem.extract;
  urlparse := Mem.parse_url;
  pdf_extract_text := Mem.extract_pdf;
  llm_invoke := Mem.invoke
|}.

(** A vectorizer over the in-memory store at [path]. *)
Definition mem_vectorizer (path : string) (size overlap batch : Z) : DocumentVectorizer :=
  {| embedding_model_name := "mxbai-embed-large:latest";
     db_path := path;
     collection_name := "document_collection";
     chunk_size := size;
     chunk_overlap := overlap;
     batch_size := batch;
     db := path;
     sqlite_path := None;
     content_column := None;
     metadata_columns := [] |}.

(** *** What [ingest_from_sqlite] keeps of a table

    "Rows with empty content are dropped": the rows whose content cell is
    neither NULL nor the empty text, and the document each one becomes. *)
Definition kept_rows (rows : list (option string * list PyVal))
    : list (option string * list PyVal) :=
  List.filter (λ r, truthy_opt truthy_str (fst r)) rows.

Definition row_document (columns : list string) (r : option string * list PyVal)
    : Document :=
  mkDocument (default "" (fst r)) (dict_of_zip columns (snd r) ∅).

(** The query text that [ingest_from_sqlite] builds. *)
Definition select_sql (self : DocumentVectorizer) (table_name : string) : string :=
  "SELECT " +:+ py_join ", " (default "" (content_column self) :: metadata_columns self)
  +:+ " FROM " +:+ table_name.

(** *** The cache directory on disk *)

(** The vectorizer that [DocumentVectorizer(db_path=path)] returns. *)
Definition default_vectorizer (path : string) : DocumentVectorizer :=
  {| embedding_model_name := "mxbai-embed-large:latest";
     db_path := path;
     collection_name := "document_collection";
     chunk_size := 500;
     chunk_overlap := 200;
     batch_size := 5000;
     db := path;
     sqlite_path := None;
     content_column := None;
     metadata_columns := [] |}.

(** Modelled from the spec: the vector store is "addressed by a filesystem
    path" and [persist()] "flushes to durable storage"; each cached source
    "owns a directory" whose layout the store owns.  So after a flush the
    store's directory exists and is not empty, and looking at it changes
    nothing.  The store itself (Chroma) is missing from the sources. *)
Definition persist_populates `{Env} : Prop :=
  ∀ (path : string) (w w' : World),
    chroma_persist path w = (Ok tt, w') →
    ∃ entries, entries ≠ []
      ∧ os_path_exists path w' = (Ok true, w')
      ∧ os_listdir path w' = (Ok entries, w').

(** The calls of a cache hit: look at the directory, open the store. *)
Definition cache_hit_events (path : string) : list Event :=
  [EvPathExists path; EvListdir path; EvMakedirs path;
   EvChromaOpen path "document_collection"].

(** *** Ingestion work in a trace *)

(** The calls that chunk, embed or persist content. *)
Definition ingest_event (ev : Event) : bool :=
  match ev with
  | EvSplit _ | EvAddDocuments _ _ | EvPersist _ => true
  | _ => false
  end.

(** A computation that only ever adds calls other than those to the trace. *)
Definition quiet `{Env} {A} (m : M A) : Prop :=
  ∀ (s s' : St) (r : result A),
    m s = (r, s') →
    ∃ evs, snd s' = snd s ++ evs ∧ Forall (λ ev, ingest_event ev = false) evs.

(** *** Text as code points

    The text functions of the readers depend on which characters count as
    white space and which end a line, so they are written over lists of
    code points: [str.isspace] (which is also [\s] of [re] and what
    [str.strip] removes) and the line boundaries of [str.splitlines]. *)

Definition py_isspace (c : Z) : bool :=
  ((9 <=? c) && (c <=? 13)) || ((28 <=? c) && (c <=? 32))
  || (c =? 0x85) || (c =? 0xA0) || (c =? 0x1680)
  || ((0x2000 <=? c) && (c <=? 0x200A))
  || (c =? 0x2028) || (c =? 0x2029) || (c =? 0x202F) || (c =? 0x205F)
  || (c =? 0x3000).

Definition py_islinebreak (c : Z) : bool :=
  ((10 <=? c) && (c <=? 13)) || ((28 <=? c) && (c <=? 30))
  || (c =? 0x85) || (c =? 0x2028) || (c =? 0x2029).

(** [t.lstrip()], [t.rstrip()], [t.strip()] *)
Fixpoint u_lstrip (t : list Z) : list Z :=
  match t with
  | c :: r => if py_isspace c then u_lstrip r else t
  | [] => []
  end.

Fixpoint u_rstrip (t : list Z) : list Z :=
  match t with
  | c :: r =>
      match u_rstrip r with
      | [] => if py_isspace c then [] else [c]
      | kept => c :: kept
      end
  | [] => []
  end.

Definition u_strip (t : list Z) : list Z := u_rstrip (u_lstrip t).

(** [sep.join(parts)] *)
Fixpoint u_join (sep : list Z) (parts : list (list Z)) : list Z :=
  match parts with
  | [] => []
  | [p] => p
  | p :: ps => p ++ sep ++ u_join sep ps
  end.

Definition u_len (t : list Z) : Z := Z.of_nat (length t).

(** [re.sub(r"\s+", " ", t)]: every maximal run of white space becomes one
    space; [in_run] tells that the character before was white space. *)
Fixpoint collapse_spaces (t : list Z) (in_run : bool) : list Z :=
  match t with
  | [] => []
  | c :: r =>
      if py_isspace c
      then (if in_run then collapse_spaces r true else 32 :: collapse_spaces r true)
      else c :: collapse_spaces r false
  end.

(** [WebScraper.clean_text] *)
Definition clean_text (t : list Z) : list Z := u_strip (collapse_spaces t false).

(** The position of the last line feed in [run], if any. *)
Fixpoint last_line_feed (run : list Z) : option nat :=
  match run with
  | [] => None
  | c :: r =>
      match last_line_feed r with
      | Some k => Some (S k)
      | None => if c =? 10 then Some 0%nat else None
      end
  end.

Fixpoint take_spaces (t : list Z) : list Z :=
  match t with
  | c :: r => if py_isspace c then c :: take_spaces r else []
  | [] => []
  end.

(** The length of the match of [\n\s*\n] at the head of [t], if there is
    one: a line feed, then the white space that follows up to its last line
    feed. *)
Definition blank_line_match (t : list Z) : option nat :=
  match t with
  | c :: r =>
      if c =? 10
      then match last_line_feed (take_spaces r) with
           | Some k => Some (k + 2)%nat
           | None => None
           end
      else None
  | [] => None
  end.

(** [re.split(r"\n\s*\n", t)]: [skip] counts the characters of a match that
    are still to be dropped, [cur] is the piece being read. *)
Fixpoint re_split_go (t : list Z) (skip : nat) (cur : list Z) : list (list Z) :=
  match t with
  | [] => [cur]
  | c :: r =>
      match skip with
      | S k => re_split_go r k cur
      | O =>
          match blank_line_match t with
          | Some n => cur :: re_split_go r (n - 1) []
          | None => re_split_go r 0 (cur ++ [c])
          end
      end
  end.

Definition re_split_blank_lines (t : list Z) : list (list Z) := re_split_go t 0 [].

(** What [extract_text_from_html] reads off the parsed page: the text of
    each [p], [h1] to [h6] and [li] element in document order (after the
    skipped tags were removed), the text of the whole page, and the title
    tag: absent, without a string, or with one. *)
Inductive TitleTag : Type :=
| NoTitle
| TitleWithoutString
| TitleString (s : list Z).

Record Soup : Type := mkSoup {
  soup_elements : list (list Z);
  soup_text : list Z;
  soup_title : TitleTag
}.

Definition line_feeds : list Z := [10; 10].

(** [WebScraper.extract_text_from_html], from the parsed page on. *)
Definition extract_text_from_soup (min_length : Z) (soup : Soup)
    : result (list Z * list Z) :=
  let text_blocks :=
    List.filter (λ t, min_length <=? u_len t) (map clean_text (soup_elements soup)) in
  let text_blocks :=
    if negb (truthy_list text_blocks) then
      let full_text := clean_text (soup_text soup) in
      map u_strip
          (List.filter (λ block, min_length <=? u_len (u_strip block))
                       (re_split_blank_lines full_text))
    else text_blocks in
  match soup_title soup with
  | NoTitle => Ok (u_join line_feeds text_blocks, [])
  | TitleString s => Ok (u_join line_feeds text_blocks, u_strip s)
  | TitleWithoutString =>
      Raise (Exn "AttributeError" "'NoneType' object has no attribute 'strip'")
  end.

(** *** readers/pdfextractor.py: the text of a PDF *)

(** [t.splitlines()]: a carriage return and a line feed together end one
    line; a text that ends with a line boundary has no empty last line. *)
Fixpoint splitlines_go (t : list Z) (cur : list Z) : list (list Z) :=
  match t with
  | [] => match cur with [] => [] | _ => [cur] end
  | c :: r =>
      if py_islinebreak c
      then cur :: match r with
                  | d :: r' =>
                      if (c =? 13) && (d =? 10) then splitlines_go r' []
                      else splitlines_go r []
                  | [] => splitlines_go r []
                  end
      else splitlines_go r (cur ++ [c])
  end.

Definition u_splitlines (t : list Z) : list (list Z) := splitlines_go t [].

(** One line of [_normalize_text]: a blank line closes the paragraph being
    collected, any other line joins it, trimmed. *)
Definition normalize_line (st : list (list Z) * list (list Z)) (line : list Z)
    : list (list Z) * list (list Z) :=
  let '(paragraphs, current_paragraph) := st in
  let stripped := u_strip line in
  match stripped with
  | [] =>
      match current_paragraph with
      | [] => (paragraphs, current_paragraph)
      | _ => (paragraphs ++ [u_join [32] current_paragraph], [])
      end
  | _ => (paragraphs, current_paragraph ++ [stripped])
  end.

(** [PDFTextExtractor._normalize_text] *)
Definition _normalize_text (raw_text : list Z) : list Z :=
  let '(paragraphs, current_paragraph) :=
    fold_left normalize_line (u_splitlines raw_text) ([], []) in
  let paragraphs :=
    match current_paragraph with
    | [] => paragraphs
    | _ => paragraphs ++ [u_join [32] current_paragraph]
    end in
  u_join line_feeds paragraphs.

(** The loop of [PDFTextExtractor.extract_text] over the pages; a page is
    what [page.extract_text()] gave, [None] included. *)
Definition extract_text_pages (pages : list (option (list Z))) : list Z :=
  u_strip (fold_left (λ text page,
                        text ++ _normalize_text (default [] page) ++ line_feeds)
                     pages []).

(** [PDFTextExtractor.extract_text]: [loaded] is what [_load_pdf] and the
    page extraction end in, the page texts or an exception. *)
Definition PDFTextExtractor_extract_text (loaded : result (list (option (list Z))))
    : result (list Z) :=
  match loaded with
  | Ok pages => Ok (extract_text_pages pages)
  | Raise (Exn _ msg) =>
      Raise (Exn "Exception" ("Error extracting text from PDF: " +:+ msg))
  end.

(** Shapes of a text: every white space character is a single space with
    no white space after it; the text does not begin, or does not end, with
    white space. *)
Fixpoint single_spaced (t : list Z) : Prop :=
  match t with
  | [] => True
  | c :: r =>
      (py_isspace c = true →
         c = 32 ∧ match r with [] => True | d :: _ => py_isspace d = false end)
      ∧ single_spaced r
  end.

Definition starts_solid (t : list Z) : Prop :=
  match t with [] => True | c :: _ => py_isspace c = false end.

Fixpoint ends_solid (t : list Z) : Prop :=
  match t with
  | [] => True
  | c :: r => match r with [] => py_isspace c = false | _ => ends_solid r end
  end.

(** The characters of a text that are not white space, in order. *)
Definition solid_chars (t : list Z) : list Z :=
  List.filter (λ c, negb (py_isspace c)) t.

(** A line or paragraph as [_normalize_text] builds them: not empty, white
    space neither first nor last, no line boundary inside. *)
Definition solid (t : list Z) : Prop :=
  t ≠ [] ∧ starts_solid t ∧ ends_solid t
  ∧ Forall (λ c, py_islinebreak c = false) t.

(** The lines of paragraphs put together by blank lines: each paragraph a
    line, an empty line between two. *)
Fixpoint with_blank_lines (paragraphs : list (list Z)) : list (list Z) :=
  match paragraphs with
  | [] => []
  | p :: rest =>
      match rest with
      | [] => [p]
      | _ => p :: [] :: with_blank_lines rest
      end
  end.

(** The paragraphs of [_normalize_text] once the last one is closed. *)
Definition closed_paragraphs (st : list (list Z) * list (list Z)) : list (list Z) :=
  match snd st with
  | [] => fst st
  | _ => fst st ++ [u_join [32] (snd st)]
  end.

(** *** context/web_context_builder.py, context/pdf_context_builder.py and
    context/context_builder.py *)

(** The code points of a [str] held as its UTF-8 bytes, which are taken to
    be well formed, as the encoding of a [str] is; a sequence cut short
    gives U+FFFD. *)
Fixpoint utf8_decode (bytes : list Z) : list Z :=
  match bytes with
  | [] => []
  | b0 :: r0 =>
      if b0 <? 0x80 then b0 :: utf8_decode r0
      else
        match r0 with
        | [] => [0xFFFD]
        | b1 :: r1 =>
            if b0 <? 0xE0
            then ((b0 - 0xC0) * 64 + (b1 - 0x80)) :: utf8_decode r1
            else
              match r1 with
              | [] => [0xFFFD]
              | b2 :: r2 =>
                  if b0 <? 0xF0
                  then ((b0 - 0xE0) * 4096 + (b1 - 0x80) * 64 + (b2 - 0x80))
                       :: utf8_decode r2
                  else
                    match r2 with
                    | [] => [0xFFFD]
                    | b3 :: r3 =>
                        ((b0 - 0xF0) * 262144 + (b1 - 0x80) * 4096
                         + (b2 - 0x80) * 64 + (b3 - 0x80)) :: utf8_decode r3
                    end
              end
        end
  end.

Definition code_points (s : string) : list Z := utf8_decode (Sha256.bytes_of s).

(** [not s.strip()]: the text is empty or white space only. *)
Definition str_blank (s : string) : bool :=
  match u_strip (code_points s) with [] => true | _ => false end.

(** [extract_text(self)] of readers/pdfextractor.py called on an extractor
    for [source] with the positional arguments [args]: the method takes
    none, and Python checks that before the body runs. *)
Definition PDFTextExtractor_extract_text_call `{Env} (source : string)
    (args : list PyVal) : M string :=
  match args with
  | [] => call (EvPdfExtract source) (pdf_extract_text source)
  | _ =>
      raise (Exn "TypeError"
               ("PDFTextExtractor.extract_text() takes 1 positional argument but "
                +:+ Mem.decimal (S (length args)) +:+ " were given"))
  end.

Section Builders.
Context `{Env}.

(** [WebContextBuilder.build_context]; [None] is the bare [return]. *)
Definition WebContextBuilder_build_context (web_scraper : WebScraper)
    (vectorizer : DocumentVectorizer) (url : string) : M (option (list string)) :=
  let* content := scrape web_scraper url in
  let documents : list Document := [] in
  if str_blank (text content) then ret None
  else
    let metadata : gmap string PyVal := {[ "url" := PyStr url ]} in
    let doc := mkDocument (text content) metadata in
    let documents := documents ++ [doc] in
    let* ids := add_documents vectorizer documents in
    ret (Some ids).

(** [PDFContextBuilder.build_context], for a builder whose [pdf_extractor]
    is a [PDFTextExtractor] for [source]. *)
Definition PDFContextBuilder_build_context (source : string)
    (vectorizer : DocumentVectorizer) (pdf_path : string) : M (option (list string)) :=
  let* content := PDFTextExtractor_extract_text_call source [PyStr pdf_path] in
  let documents : list Document := [] in
  if str_blank content then ret None
  else
    let metadata : gmap string PyVal := {[ "file_path" := PyStr pdf_path ]} in
    let doc := mkDocument content metadata in
    let documents := documents ++ [doc] in
    let* ids := add_documents vectorizer documents in
    ret (Some ids).

(** A callable handed in from outside, run on the world; it is no call of
    the program's own collaborators and leaves no event. *)
Definition run_callable {A} (f : World → result A * World) : M A :=
  λ s, let (r, w') := f (fst s) in (r, (w', snd s)).

(** The body of the loop of [ContextBuilder.ingest] for one item of the
    file map (the print of the handler is left out). *)
Definition ingest_step (llm : string → World → result string * World)
    (item : string * string) (documents : list Document) : M (list Document) :=
  let '(path, content) := item in
  if str_blank content then ret documents
  else
    try_except
      (let* summary := run_callable (llm content) in
       let metadata : gmap string PyVal :=
         <[ "summary" := PyStr summary ]> {[ "file_path" := PyStr path ]} in
       let doc := mkDocument content metadata in
       ret (documents ++ [doc]))
      (λ e, ret documents).

(** [ContextBuilder.ingest]; [file_map] is what [collect_files] returned,
    in the order of the dict. *)
Definition ContextBuilder_ingest (file_map : list (string * string))
    (llm : string → World → result string * World)
    (vectorizer : DocumentVectorizer) : M (list string) :=
  let* documents := for_each file_map [] (ingest_step llm) in
  add_documents vectorizer documents.
End Builders.

(** What the loop of [ContextBuilder.ingest] makes of a file that it keeps. *)
Definition summarized (file_map : list (string * string)) (d : Document) : Prop :=
  ∃ path summary,
    In (path, page_content d) file_map
    ∧ str_blank (page_content d) = false
    ∧ metadata d = <[ "summary" := PyStr summary ]> {[ "file_path" := PyStr path ]}.

(** The loop of [PDFTextExtractor.extract_text_by_page] over the pages. *)
Definition extract_text_by_page_pages (pages : list (option (list Z)))
    : list (list Z) :=
  fold_left (λ pages_text page, pages_text ++ [_normalize_text (default [] page)])
            pages [].

(** [PDFTextExtractor.extract_text_by_page], with [loaded] as for
    [extract_text]. *)
Definition PDFTextExtractor_extract_text_by_page
    (loaded : result (list (option (list Z)))) : result (list (list Z)) :=
  match loaded with
  | Ok pages => Ok (extract_text_by_page_pages pages)
  | Raise (Exn _ msg) =>
      Raise (Exn "Exception" ("Error extracting text from PDF: " +:+ msg))
  end.

(** ** Part II: theorems *)

(** *** Arithmetic and list facts behind the batch loop *)

Lemma consecutive_batches_fuel_index {A} (b : nat) (fuel : nat) :
  ∀ (l : list A) (c : nat),
    (0 < b)%nat → (length l ≤ fuel)%nat →
    (length l ≤ c * b)%nat → (c * b < length l + b)%nat →
    consecutive_batches_fuel fuel b l
    = map (λ k : nat, take b (drop (k * b) l)) (seq 0 c).
Proof.
  induction fuel as [|fuel IH]; intros l c Hb Hfuel Hup Hlow.
  - destruct l; [|simpl in Hfuel; lia].
    simpl in *. assert (c = 0)%nat as -> by nia. reflexivity.
  - destruct l as [|x l'].
    + simpl in *. assert (c = 0)%nat as -> by nia. reflexivity.
    + destruct c as [|c']; [simpl in Hup; lia|].
      cbn [consecutive_batches_fuel].
      rewrite <- cons_seq. cbn [map]. f_equal.
      rewrite <- fmap_S_seq.
      rewrite (IH (drop b (x :: l')) c'); try assumption.
      * rewrite <- list_fmap_compose. apply map_ext. intros k. simpl.
        now rewrite drop_drop.
      * rewrite length_drop. simpl in *. lia.
      * rewrite length_drop. simpl in *. nia.
      * rewrite length_drop. simpl in *.
        destruct (le_lt_dec b (S (length l'))); [nia|].
        assert (c' = 0)%nat by nia. subst. lia.
Qed.

Lemma py_slice_window {A} (l : list A) (k b : nat) :
  (k * b ≤ length l)%nat →
  py_slice l (Z.of_nat k * Z.of_nat b) (Z.of_nat k * Z.of_nat b + Z.of_nat b)
  = take b (drop (k * b) l).
Proof.
  intros Hk. unfold py_slice, py_slice_bound.
  destruct (Z.ltb_spec (Z.of_nat k * Z.of_nat b) 0) as [?|_]; [lia|].
  destruct (Z.ltb_spec (Z.of_nat k * Z.of_nat b + Z.of_nat b) 0) as [?|_]; [lia|].
  replace (Z.to_nat (Z.min (Z.of_nat k * Z.of_nat b) (Z.of_nat (length l))))
    with (k * b)%nat by lia.
  destruct (le_lt_dec (k * b + b) (length l)) as [Hle|Hgt].
  - f_equal. lia.
  - rewrite !take_ge; [reflexivity| |]; rewrite length_drop; lia.
Qed.

(** The indices of [range(0, n, b)] are [0, b, 2b, ...], as many as there are
    batches. *)
Lemma py_range_len_batches (n b : Z) :
  0 < b → 0 < n →
  let c := py_range_len 0 n b in
  0 < c ∧ n ≤ c * b ∧ c * b < n + b ∧ c = (n + b - 1) / b.
Proof.
  intros Hb Hn. unfold py_range_len.
  destruct (Z.ltb_spec 0 b) as [_|?]; [|lia].
  destruct (Z.ltb_spec 0 n) as [_|?]; [|lia].
  cbv zeta. rewrite Z.sub_0_r.
  pose proof (Z.div_mod (n - 1) b ltac:(lia)) as Hdm.
  pose proof (Z.mod_pos_bound (n - 1) b Hb) as Hmod.
  assert (0 ≤ (n - 1) / b) by (apply Z.div_pos; lia).
  repeat split; try nia.
  replace (n + b - 1) with ((n - 1) + 1 * b) by lia.
  rewrite Z.div_add by lia. reflexivity.
Qed.

(** *** The batch loop against the store *)

Section BatchLoop.
Context `{Env}.
Variable self : DocumentVectorizer.
Variable documents : list Document.

Local Abbreviation window := (window self documents).
Local Abbreviation loop_body := (loop_body self documents).

Lemma loop_body_ok i acc w tr ids w1 :
  batch_size self ≠ 0 →
  chroma_add_documents (db self) (window i) w = (Ok ids, w1) →
  loop_body i acc (w, tr)
  = (Ok (acc ++ ids), (w1, tr ++ [EvAddDocuments (db self) (window i)])).
Proof.
  intros Hb Hadd. unfold loop_body, bind, py_floordiv, try_except.
  destruct (Z.eqb_spec (batch_size self) 0) as [?|_]; [contradiction|].
  unfold ret, db_add_documents, call. cbn [fst snd].
  fold (window i). rewrite Hadd. reflexivity.
Qed.

Lemma loop_body_raise i acc w tr e w1 :
  batch_size self ≠ 0 →
  chroma_add_documents (db self) (window i) w = (Raise e, w1) →
  loop_body i acc (w, tr)
  = (Raise e, (w1, tr ++ [EvAddDocuments (db self) (window i)])).
Proof.
  intros Hb Hadd. unfold loop_body, bind, py_floordiv, try_except.
  destruct (Z.eqb_spec (batch_size self) 0) as [?|_]; [contradiction|].
  unfold ret, db_add_documents, call. cbn [fst snd].
  fold (window i). rewrite Hadd. reflexivity.
Qed.

Lemma batch_loop_accepts (idxs : list Z) :
  ∀ acc w tr idss w',
    batch_size self ≠ 0 →
    store_accepts (db self) w (map window idxs) idss w' →
    for_each idxs acc loop_body (w, tr)
    = (Ok (acc ++ concat idss),
       (w', tr ++ map (EvAddDocuments (db self)) (map window idxs))).
Proof.
  induction idxs as [|i idxs IH]; intros acc w tr idss w' Hb Hacc.
  - inversion Hacc; subst. simpl. unfold ret. now rewrite !app_nil_r.
  - inversion Hacc as [|? w1 ? ? ? ids idss' Hadd Hrest]; subst.
    cbn [for_each]. unfold bind at 1.
    rewrite (loop_body_ok _ _ _ _ _ _ Hb Hadd).
    rewrite (IH _ _ _ _ _ Hb Hrest).
    cbn [concat map]. now rewrite <- !app_assoc.
Qed.

Lemma batch_loop_rejects (idxs : list Z) :
  ∀ acc w tr j e idss wj w',
    batch_size self ≠ 0 →
    store_rejects_at (db self) w (map window idxs) j e idss wj w' →
    for_each idxs acc loop_body (w, tr)
    = (Raise e,
       (w', tr ++ map (EvAddDocuments (db self)) (take (S j) (map window idxs)))).
Proof.
  induction idxs as [|i idxs IH]; intros acc w tr j e idss wj w' Hb Hrej.
  - destruct Hrej as (batch & Hj & _). discriminate Hj.
  - destruct Hrej as (batch & Hj & Hacc & Hfail).
    destruct j as [|j].
    + cbn in Hj. injection Hj as <-.
      cbn [take] in Hacc. inversion Hacc; subst.
      cbn [for_each]. unfold bind at 1.
      rewrite (loop_body_raise _ _ _ _ _ _ Hb Hfail).
      cbn [map take]. now rewrite take_0.
    + cbn [map take] in Hacc.
      inversion Hacc as [|? w1 ? ? ? ids idss' Hadd Hrest]; subst.
      cbn [for_each]. unfold bind at 1.
      rewrite (loop_body_ok _ _ _ _ _ _ Hb Hadd).
      rewrite (IH _ w1 _ j e idss' wj w' Hb).
      * cbn [map take]. now rewrite <- !app_assoc.
      * exists batch. cbn in Hj. auto.
Qed.
End BatchLoop.

(** *** Shape of the batch plan *)

Section BatchShape.
Context {A : Type}.
Variables (b : nat) (l : list A).
Hypothesis b_pos : (0 < b)%nat.

Lemma batch_count_bounds :
  (length l ≤ batch_count b l * b)%nat ∧ (batch_count b l * b < length l + b)%nat.
Proof.
  unfold batch_count.
  pose proof (Nat.div_mod_eq (length l + b - 1) b) as Hdm.
  pose proof (Nat.mod_upper_bound (length l + b - 1) b ltac:(lia)) as Hmod.
  split; nia.
Qed.

Lemma consecutive_batches_index :
  consecutive_batches b l
  = map (λ k : nat, take b (drop (k * b) l)) (seq 0 (batch_count b l)).
Proof.
  destruct batch_count_bounds.
  unfold consecutive_batches.
  now apply consecutive_batches_fuel_index.
Qed.

Lemma consecutive_batches_length :
  length (consecutive_batches b l) = batch_count b l.
Proof.
  now rewrite consecutive_batches_index, length_map, length_seq.
Qed.

Lemma concat_windows (c : nat) :
  concat (map (λ k : nat, take b (drop (k * b) l)) (seq 0 c)) = take (c * b) l.
Proof.
  induction c as [|c IH].
  - now rewrite take_0.
  - rewrite seq_S, map_app, concat_app, IH. cbn [map concat plus].
    rewrite app_nil_r, take_take_drop. f_equal. lia.
Qed.

Lemma consecutive_batches_concat : concat (consecutive_batches b l) = l.
Proof.
  rewrite consecutive_batches_index, concat_windows.
  apply take_ge. destruct batch_count_bounds. lia.
Qed.

Lemma consecutive_batches_lookup (k : nat) (batch : list A) :
  consecutive_batches b l !! k = Some batch →
  (k < batch_count b l)%nat ∧ batch = take b (drop (k * b) l).
Proof.
  rewrite consecutive_batches_index. intros Hk.
  apply list_lookup_fmap_Some in Hk as (k' & -> & Hk').
  apply lookup_seq in Hk' as [-> ?]. auto.
Qed.

Lemma consecutive_batches_full (k : nat) (batch : list A) :
  consecutive_batches b l !! k = Some batch →
  (S k < batch_count b l)%nat → length batch = b.
Proof.
  intros Hk Hlt. apply consecutive_batches_lookup in Hk as [_ ->].
  destruct batch_count_bounds.
  rewrite length_take, length_drop. nia.
Qed.

Lemma consecutive_batches_last (batch : list A) :
  last (consecutive_batches b l) = Some batch →
  (0 < length batch ≤ b)%nat.
Proof.
  rewrite last_lookup, consecutive_batches_length. intros Hk.
  destruct batch_count_bounds.
  assert (0 < batch_count b l)%nat.
  { apply lookup_lt_Some in Hk. rewrite consecutive_batches_length in Hk. lia. }
  apply consecutive_batches_lookup in Hk as [_ ->].
  rewrite length_take, length_drop. nia.
Qed.
End BatchShape.

(** *** [_add_documents_in_batches] *)

Section AddInBatches.
Context `{Env}.
Variable self : DocumentVectorizer.
Variable documents : list Document.

Local Abbreviation n := (Z.of_nat (length documents)).
Local Abbreviation b := (batch_size self).

(** What the loop hands to the store is the batch plan. *)
Lemma range_windows :
  0 < b → b < n →
  map (window self documents)
      (map (λ k : nat, 0 + Z.of_nat k * b) (seq 0 (Z.to_nat (py_range_len 0 n b))))
  = consecutive_batches (Z.to_nat b) documents.
Proof.
  intros Hb Hn.
  destruct (py_range_len_batches n b Hb ltac:(lia)) as (Hc & Hup & Hlow & _).
  set (c := py_range_len 0 n b) in *.
  unfold consecutive_batches.
  rewrite (consecutive_batches_fuel_index (Z.to_nat b) _ documents (Z.to_nat c));
    [|lia|lia|nia|nia].
  rewrite map_map. apply map_ext_in. intros k Hk.
  apply in_seq in Hk. unfold window.
  rewrite <- (py_slice_window documents k (Z.to_nat b)) by nia.
  f_equal; lia.
Qed.

(** Beyond one batch, the method is the loop over [range(0, n, b)]. *)
Lemma add_in_batches_loop s :
  0 < b → b < n →
  _add_documents_in_batches self documents s
  = for_each (map (λ k : nat, 0 + Z.of_nat k * b)
                  (seq 0 (Z.to_nat (py_range_len 0 n b))))
             [] (loop_body self documents) s.
Proof.
  intros Hb Hn. unfold _add_documents_in_batches.
  destruct (Z.leb_spec n b) as [?|_]; [lia|].
  unfold bind at 1, py_floordiv at 1, py_range.
  destruct (Z.eqb_spec b 0) as [?|_]; [lia|].
  reflexivity.
Qed.

(** C1. Beyond one batch ([0 < batch_size < N]) and against a store that
    takes every batch, [_add_documents_in_batches] returns, having issued
    one [add_documents] call per consecutive batch of the input and no
    other call: there are [ceil(N / batch_size)] of them, each of exactly
    [batch_size] documents except possibly the last (which holds between 1
    and [batch_size]), they concatenate to the input in order, and the
    returned list is the concatenation of the per-batch id lists in batch
    order, of length [N] when the store returns one id per document. *)
Theorem add_documents_in_batches_partition (w w' : World) (tr : list Event)
    (idss : list (list string)) :
  let batches := consecutive_batches (Z.to_nat b) documents in
  0 < b → b < n →
  store_accepts (db self) w batches idss w' →
  _add_documents_in_batches self documents (w, tr)
    = (Ok (concat idss), (w', tr ++ map (EvAddDocuments (db self)) batches))
  ∧ Z.of_nat (length batches) = (n + b - 1) / b
  ∧ b * (Z.of_nat (length batches) - 1) < n ≤ b * Z.of_nat (length batches)
  ∧ concat batches = documents
  ∧ (∀ k batch, batches !! k = Some batch →
       (S k < length batches)%nat → Z.of_nat (length batch) = b)
  ∧ (∀ batch, last batches = Some batch → 0 < Z.of_nat (length batch) ≤ b)
  ∧ (Forall2 (λ ids batch, length ids = length batch) idss batches →
       length (concat idss) = length documents).
Proof.
  intros batches Hb Hn Hacc.
  assert (0 < Z.to_nat b)%nat as Hb' by lia.
  pose proof (consecutive_batches_length (Z.to_nat b) documents Hb') as Hlen.
  pose proof (batch_count_bounds (Z.to_nat b) documents Hb') as [Hup Hlow].
  fold batches in Hlen. split; [|split; [|split; [|split; [|split; [|split]]]]].
  - rewrite add_in_batches_loop by assumption.
    pose proof (range_windows Hb Hn) as Hw. fold batches in Hw.
    rewrite (batch_loop_accepts self documents _ [] w tr idss w');
      [|lia|now rewrite Hw].
    now rewrite Hw.
  - rewrite Hlen. apply Z.div_unique with
      (r := n + b - 1 - b * Z.of_nat (batch_count (Z.to_nat b) documents)); nia.
  - rewrite Hlen. nia.
  - now apply consecutive_batches_concat.
  - intros k batch Hk Hlt. rewrite Hlen in Hlt.
    rewrite (consecutive_batches_full (Z.to_nat b) documents Hb' k batch Hk Hlt). lia.
  - intros batch Hlast.
    pose proof (consecutive_batches_last (Z.to_nat b) documents Hb' batch Hlast). lia.
  - intros Hids.
    transitivity (length (concat batches));
      [|unfold batches; now rewrite consecutive_batches_concat].
    clear -Hids.
    induction Hids as [|ids batch idss' batches' Heq _ IH]; [reflexivity|].
    cbn [concat]. rewrite !length_app. lia.
Qed.

(** C2. When the store takes the batches before index [j] of the plan and
    raises [e] on batch [j], [_add_documents_in_batches] raises that same
    [e]; the calls it has issued are the batches up to and including [j],
    nothing after; and the world it leaves is the one the failing call left,
    reached from the world [wj] in which the earlier batches had been
    taken: no call undoes them. *)
Theorem add_documents_in_batches_failure (w wj w' : World) (tr : list Event)
    (j : nat) (e : PyExn) (idss : list (list string)) :
  0 < b →
  store_rejects_at (db self) w (batch_plan self documents) j e idss wj w' →
  _add_documents_in_batches self documents (w, tr)
    = (Raise e,
       (w', tr ++ map (EvAddDocuments (db self))
                      (take (S j) (batch_plan self documents))))
  ∧ store_accepts (db self) w (take j (batch_plan self documents)) idss wj
  ∧ (∃ batch, batch_plan self documents !! j = Some batch
       ∧ chroma_add_documents (db self) batch wj = (Raise e, w')).
Proof.
  intros Hb Hrej. split.
  - unfold batch_plan in *.
    destruct (Z.leb_spec n b) as [Hle|Hgt].
    + destruct Hrej as (batch & Hj & Hacc & Hfail).
      destruct j as [|j]; [|now destruct j].
      cbn in Hj. injection Hj as <-. inversion Hacc; subst.
      unfold _add_documents_in_batches.
      destruct (Z.leb_spec n b) as [_|?]; [|lia].
      unfold bind, db_add_documents, call. cbn [fst snd].
      rewrite Hfail. reflexivity.
    + rewrite add_in_batches_loop by assumption.
      pose proof (range_windows Hb Hgt) as Hw.
      rewrite (batch_loop_rejects self documents _ [] w tr j e idss wj w');
        [|lia|now rewrite Hw].
      now rewrite Hw.
  - destruct Hrej as (batch & Hj & Hacc & Hfail). eauto.
Qed.
End AddInBatches.

(** Five documents, batches of two, a store with room for ten: three calls. *)
Lemma add_documents_in_batches_partition_witness :
  let self := mem_vectorizer "db" 500 200 2 in
  let documents := map Mem.doc ["a"; "b"; "c"; "d"; "e"] in
  let w := Mem.empty_world 10 in
  let w' := Mem.mkWorld ∅ {[ "db" := documents ]} 5 ∅ ∅ ∅ in
  let idss := [["doc-0"; "doc-1"]; ["doc-2"; "doc-3"]; ["doc-4"]] in
  _add_documents_in_batches self documents (w, [])
  = (Ok ["doc-0"; "doc-1"; "doc-2"; "doc-3"; "doc-4"],
     (w', [EvAddDocuments "db" (map Mem.doc ["a"; "b"]);
           EvAddDocuments "db" (map Mem.doc ["c"; "d"]);
           EvAddDocuments "db" (map Mem.doc ["e"])])).
Proof.
  intros self documents w w' idss.
  assert (store_accepts (db self) w
            (consecutive_batches (Z.to_nat (batch_size self)) documents) idss w')
    as Hacc.
  { repeat (eapply accepts_cons; [reflexivity|]).
    vm_compute. apply accepts_nil. }
  exact (proj1 (add_documents_in_batches_partition self documents w w' [] idss
                  ltac:(reflexivity) ltac:(reflexivity) Hacc)).
Defined.

(** The same five documents against a store with room for three: the first
    batch is taken, the second is refused, the third is never submitted, and
    the first batch is still in the store. *)
Lemma add_documents_in_batches_failure_witness :
  let self := mem_vectorizer "db" 500 200 2 in
  let documents := map Mem.doc ["a"; "b"; "c"; "d"; "e"] in
  let w := Mem.empty_world 3 in
  let wj := Mem.mkWorld ∅ {[ "db" := map Mem.doc ["a"; "b"] ]} 1 ∅ ∅ ∅ in
  let e := Exn "InternalError" "the collection is full" in
  _add_documents_in_batches self documents (w, [])
  = (Raise e,
     (wj, [EvAddDocuments "db" (map Mem.doc ["a"; "b"]);
           EvAddDocuments "db" (map Mem.doc ["c"; "d"])]))
  ∧ Mem.stored wj "db" = map Mem.doc ["a"; "b"].
Proof.
  intros self documents w wj e.
  assert (store_rejects_at (db self) w (batch_plan self documents) 1 e
            [["doc-0"; "doc-1"]] wj wj) as Hrej.
  { exists (map Mem.doc ["c"; "d"]). split; [reflexivity|]. split.
    - eapply accepts_cons; [reflexivity|]. vm_compute. apply accepts_nil.
    - reflexivity. }
  split; [|reflexivity].
  exact (proj1 (add_documents_in_batches_failure self documents w wj wj [] 1 e
                  [["doc-0"; "doc-1"]] ltac:(reflexivity) Hrej)).
Defined.

(** *** [add_texts] *)

Section AddTexts.
Context `{Env}.
Variable self : DocumentVectorizer.

(** C3 (as the code has it). A non-empty [metadatas] whose length differs
    from that of [texts] makes [add_texts] raise its [ValueError] at once:
    the state is the one it was called in, so no document has been built
    and nothing has been sent to the splitter, the embedding function or
    the store.  An empty [metadatas] is taken as an absent one and raises
    nothing of the kind. *)
Theorem add_texts_length_mismatch (texts : list string)
    (metadatas : list (gmap string PyVal)) (s : St) :
  metadatas ≠ [] →
  length metadatas ≠ length texts →
  add_texts self texts (Some metadatas) s
    = (Raise (ValueError "Length of metadatas must match length of texts"), s)
  ∧ add_texts self texts (Some []) s = add_texts self texts None s.
Proof.
  intros Hne Hlen. split.
  - unfold add_texts. destruct metadatas as [|m ms]; [contradiction|].
    cbn [truthy_opt truthy_list from_option id andb].
    destruct (Nat.eqb_spec (length (m :: ms)) (length texts)) as [?|_];
      [contradiction|].
    reflexivity.
  - unfold add_texts. cbn [truthy_opt truthy_list andb].
    unfold bind. f_equal.
    enough (∀ ts i docs s0,
               add_texts_loop ts i (Some []) docs s0
               = add_texts_loop ts i None docs s0) as -> by reflexivity.
    clear. induction ts as [|t ts IH]; intros i docs s0; [reflexivity|].
    cbn [add_texts_loop truthy_opt truthy_list]. unfold bind, ret.
    apply IH.
Qed.

(** With as many metadata dictionaries as texts, the loop pairs them up. *)
Lemma add_texts_loop_zip (texts : list string) :
  ∀ (i : nat) (pre metadatas : list (gmap string PyVal)) (docs : list Document) s,
    length pre = i → length metadatas = length texts → metadatas ≠ [] ∨ pre ≠ [] →
    add_texts_loop texts i (Some (pre ++ metadatas)) docs s
    = (Ok (docs ++ zip_with mkDocument texts metadatas), s).
Proof.
  induction texts as [|t ts IH]; intros i pre metadatas docs s Hi Hlen Hne.
  - destruct metadatas; [|discriminate]. cbn. unfold ret. now rewrite app_nil_r.
  - destruct metadatas as [|m ms]; [discriminate|].
    cbn [add_texts_loop]. unfold bind at 1.
    assert (truthy_opt truthy_list (Some (pre ++ m :: ms)) = true) as ->
      by (now destruct pre).
    cbn [from_option id]. rewrite lookup_app_r by lia.
    replace (i - length pre)%nat with 0%nat by lia. cbn [lookup list_lookup].
    unfold ret at 1.
    replace (pre ++ m :: ms) with ((pre ++ [m]) ++ ms) by now rewrite <- app_assoc.
    rewrite (IH (S i) (pre ++ [m]) ms).
    + cbn [zip_with]. now rewrite <- app_assoc.
    + rewrite length_app. cbn. lia.
    + cbn in Hlen. lia.
    + right. now destruct pre.
Qed.

Lemma add_texts_matching (texts : list string)
    (metadatas : list (gmap string PyVal)) (s : St) :
  texts ≠ [] → length metadatas = length texts →
  add_texts self texts (Some metadatas) s
  = add_documents self (zip_with mkDocument texts metadatas) s.
Proof.
  intros Hne Hlen. unfold add_texts. cbn [from_option id].
  rewrite Hlen, Nat.eqb_refl, andb_false_r. unfold bind at 1.
  pose proof (add_texts_loop_zip texts 0 [] metadatas [] s eq_refl Hlen) as Hloop.
  cbn [app] in Hloop. rewrite Hloop; [reflexivity|].
  left. destruct metadatas; [|discriminate]. now destruct texts.
Qed.
End AddTexts.

(** One text, an empty list of metadata: the lengths differ, nothing is
    raised, and the text goes through the splitter into the store. *)
Lemma add_texts_empty_metadatas_counterexample :
  let self := mem_vectorizer "db" 500 200 5000 in
  let texts := ["hello"] in
  let metadatas : list (gmap string PyVal) := [] in
  length texts ≠ length metadatas
  ∧ add_texts self texts (Some metadatas) (Mem.empty_world 10, [])
    = (Ok ["doc-0"],
       (Mem.mkWorld {[ "db" := ["chroma.sqlite3"] ]} {[ "db" := [Mem.doc "hello"] ]}
                    9 ∅ ∅ ∅,
        [EvSplit [Mem.doc "hello"];
         EvAddDocuments "db" [Mem.doc "hello"];
         EvPersist "db"])).
Proof.
  split; [discriminate|]. vm_compute. reflexivity.
Qed.

Lemma add_texts_length_mismatch_witness :
  let self := mem_vectorizer "db" 500 200 5000 in
  let s : St := (Mem.empty_world 10, []) in
  add_texts self ["a"; "b"] (Some [∅]) s
  = (Raise (ValueError "Length of metadatas must match length of texts"), s).
Proof.
  intros self s.
  exact (proj1 (add_texts_length_mismatch self ["a"; "b"] [∅] s
                  ltac:(discriminate) ltac:(discriminate))).
Defined.

(** *** [ingest_from_sqlite] *)

Section IngestFromSqlite.
Context `{Env}.
Variable self : DocumentVectorizer.

Lemma sqlite_rows_loop_kept (columns : list string)
    (rows : list (option string * list PyVal)) :
  ∀ texts metadatas,
    sqlite_rows_loop columns rows texts metadatas
    = (texts ++ map (λ r, default "" (fst r)) (kept_rows rows),
       metadatas ++ map (λ r, dict_of_zip columns (snd r) ∅) (kept_rows rows)).
Proof.
  induction rows as [|[content cells] rows IH]; intros texts metadatas.
  - cbn. now rewrite !app_nil_r.
  - cbn [sqlite_rows_loop kept_rows List.filter fst snd].
    destruct (truthy_opt truthy_str content).
    + rewrite IH. cbn [map fst snd]. fold (kept_rows rows).
      now rewrite <- !app_assoc.
    + apply IH.
Qed.

Lemma zip_with_row_document (columns : list string)
    (rows : list (option string * list PyVal)) :
  zip_with mkDocument (map (λ r, default "" (fst r)) rows)
                      (map (λ r, dict_of_zip columns (snd r) ∅) rows)
  = map (row_document columns) rows.
Proof.
  induction rows as [|r rows IH]; [reflexivity|].
  cbn [map zip_with]. now rewrite IH.
Qed.

(** C9. Without a sqlite path, or without a content column (absent or
    empty), [ingest_from_sqlite] raises its [ValueError] in the state it was
    called in: nothing has been connected to or read.  With both set and a
    table that can be read, the rows with a NULL or empty content cell are
    dropped; if none is left nothing is sent on, otherwise the documents
    that go to [add_documents] (and from there to the splitter and the
    store) are those of the kept rows, in order, none with empty content. *)
Theorem ingest_from_sqlite_contract (table_name : string) :
  (∀ s, truthy_opt truthy_str (sqlite_path self) = false →
        ingest_from_sqlite self table_name s
        = (Raise (ValueError "SQLite path is not set."), s))
  ∧ (∀ s, truthy_opt truthy_str (content_column self) = false →
          ∃ msg, ingest_from_sqlite self table_name s = (Raise (ValueError msg), s))
  ∧ (∀ path w tr w1 w2 w3 rows,
       sqlite_path self = Some path →
       truthy_str path = true →
       truthy_opt truthy_str (content_column self) = true →
       let sql := select_sql self table_name in
       sqlite_connect path w = (Ok tt, w1) →
       sqlite_fetchall path sql w1 = (Ok rows, w2) →
       sqlite_close path w2 = (Ok tt, w3) →
       let kept := kept_rows rows in
       let documents := map (row_document (metadata_columns self)) kept in
       let s3 : St := (w3, tr ++ [EvSqliteConnect path; EvSqliteFetchall path sql;
                                  EvSqliteClose path]) in
       Forall (λ d, page_content d ≠ "") documents
       ∧ ingest_from_sqlite self table_name (w, tr)
         = match kept with
           | [] => (Ok [], s3)
           | _ => add_documents self documents s3
           end).
Proof.
  split; [|split].
  - intros s Hp. unfold ingest_from_sqlite. now rewrite Hp.
  - intros s Hc. unfold ingest_from_sqlite. rewrite Hc.
    destruct (truthy_opt truthy_str (sqlite_path self)); cbn [negb]; eauto.
  - intros path w tr w1 w2 w3 rows Hpath Hp Hc sql Hconn Hfetch Hclose kept documents s3.
    split.
    + unfold documents, kept, kept_rows.
      apply Stdlib.Lists.List.Forall_map, Stdlib.Lists.List.Forall_forall.
      intros [content cells] Hin. apply filter_In in Hin as [_ Hin].
      cbn in *. destruct content as [[|]|]; cbn in *; congruence.
    + unfold ingest_from_sqlite. rewrite Hpath. cbn [truthy_opt].
      rewrite Hp, Hc. cbn [negb from_option id].
      unfold bind at 1, call at 1. cbn [fst snd]. rewrite Hconn.
      unfold bind at 1, call at 1. cbn [fst snd].
      fold (select_sql self table_name). fold sql. rewrite Hfetch.
      rewrite sqlite_rows_loop_kept. cbn [app].
      unfold bind at 1, call at 1. cbn [fst snd]. rewrite Hclose.
      fold kept. rewrite <- !app_assoc. cbn [app]. fold s3.
      destruct kept as [|r kept'] eqn:Hkept; [reflexivity|].
      cbn [map truthy_list negb].
      change (default "" r.1 :: map (λ r0, default "" r0.1) kept')
        with (map (λ r0 : option string * list PyVal, default "" r0.1) (r :: kept')).
      change (dict_of_zip (metadata_columns self) r.2 ∅
              :: map (λ r0, dict_of_zip (metadata_columns self) r0.2 ∅) kept')
        with (map (λ r0 : option string * list PyVal,
                     dict_of_zip (metadata_columns self) r0.2 ∅) (r :: kept')).
      rewrite add_texts_matching; [|discriminate|now rewrite !length_map].
      now rewrite zip_with_row_document.
Qed.
End IngestFromSqlite.

(** A table of four rows, two of them without content. *)
Lemma ingest_from_sqlite_contract_witness :
  let self :=
    {| embedding_model_name := "mxbai-embed-large:latest";
       db_path := "./xoibit_chroma";
       collection_name := "document_collection";
       chunk_size := 1000; chunk_overlap := 200; batch_size := 5000;
       db := "./xoibit_chroma";
       sqlite_path := Some "xoibit.db";
       content_column := Some "content";
       metadata_columns := ["directory"] |} in
  let rows := [(Some "alpha", [PyStr "src/a"]); (None, [PyStr "src/b"]);
               (Some "", [PyStr "src/c"]); (Some "beta", [PyStr "src/d"])] in
  let sql := "SELECT content, directory FROM files" in
  let w := Mem.mkWorld ∅ ∅ 10 ∅ ∅ {[ sql := rows ]} in
  ingest_from_sqlite self "files" (w, [])
  = add_documents self
      [mkDocument "alpha" {[ "directory" := PyStr "src/a" ]};
       mkDocument "beta" {[ "directory" := PyStr "src/d" ]}]
      (w, [EvSqliteConnect "xoibit.db"; EvSqliteFetchall "xoibit.db" sql;
           EvSqliteClose "xoibit.db"]).
Proof.
  intros self rows sql w.
  exact (proj2 (proj2 (proj2 (ingest_from_sqlite_contract self "files"))
                  "xoibit.db" w [] w w w rows
                  eq_refl eq_refl eq_refl eq_refl eq_refl eq_refl)).
Defined.

(** *** The query path *)

Section Ask.
Context `{Env}.

(** C6. When the similarity search comes back empty, [ask] of either
    context class returns the fixed message, and the search is the only
    call it has made: the language model is not invoked. *)
Theorem ask_without_matches (question : string) (k : Z) (w w1 : World)
    (tr : list Event) :
  (∀ self : WebContext,
      chroma_similarity_search (db (wc_vectorstore self)) question k w = (Ok [], w1) →
      WebContext_ask self question k (w, tr)
      = (Ok "No relevant documents found. Try force_rescrape=True to refresh.",
         (w1, tr ++ [EvSearch (db (wc_vectorstore self)) question k])))
  ∧ (∀ self : PdfContext,
      chroma_similarity_search (db (pc_vectorstore self)) question k w = (Ok [], w1) →
      PdfContext_ask self question k (w, tr)
      = (Ok "No relevant documents found. Try force_rescrape=True to refresh.",
         (w1, tr ++ [EvSearch (db (pc_vectorstore self)) question k]))).
Proof.
  split; intros self Hsearch.
  - unfold WebContext_ask, bind, similarity_search, call. cbn [fst snd].
    rewrite Hsearch. reflexivity.
  - unfold PdfContext_ask, bind, similarity_search, call. cbn [fst snd].
    rewrite Hsearch. reflexivity.
Qed.
End Ask.

(** Asking over an empty store. *)
Lemma ask_without_matches_witness :
  let vs := mem_vectorizer "web_chroma_dbs/0f115db062b7c0dd" 500 200 5000 in
  let self := mkWebContext "https://example.com/" "qwen2.5-coder:7b" WebScraper_default
                "0f115db062b7c0dd" "web_chroma_dbs/0f115db062b7c0dd" vs None in
  let w := Mem.empty_world 10 in
  WebContext_ask self "What are the rules?" 5 (w, [])
  = (Ok "No relevant documents found. Try force_rescrape=True to refresh.",
     (w, [EvSearch "web_chroma_dbs/0f115db062b7c0dd" "What are the rules?" 5])).
Proof.
  intros vs self w.
  exact (proj1 (ask_without_matches "What are the rules?" 5 w w []) self eq_refl).
Defined.

(** *** [PdfContext] *)

Section PdfContextFacts.
Context `{Env}.

(** The constructor stops where it evaluates [os]. *)
Lemma PdfContext_init_raises (source model base_db_dir : string) (s : St) :
  PdfContext_init source model base_db_dir s = (Raise (NameError "os"), s).
Proof. reflexivity. Qed.

(** C10. Whatever the source, the model and the base directory, and in
    whatever world, constructing a [PdfContext] raises [NameError] for the
    name [os] and leaves the state as it was: no existence check, no
    extraction, no call to the store has been made.  So no constructor call
    returns an instance, and no method is ever called on one. *)
Theorem PdfContext_never_constructed (source model base_db_dir : string) (s : St) :
  ("os" ∉ pdf_context_globals)
  ∧ PdfContext_init source model base_db_dir s
    = (Raise (Exn "NameError" "name 'os' is not defined"), s)
  ∧ ¬ ∃ (self : PdfContext) (s' : St),
        PdfContext_init source model base_db_dir s = (Ok self, s').
Proof.
  split; [|split].
  - apply (bool_decide_unpack _). vm_compute. exact I.
  - apply PdfContext_init_raises.
  - intros (self & s' & Heq). rewrite PdfContext_init_raises in Heq. discriminate.
Qed.
End PdfContextFacts.

(** *** Running through [bind] *)

Section BindFacts.
Context `{Env}.

Lemma bind_Ok_inv {A B} (m : M A) (f : A → M B) (s s' : St) (b : B) :
  bind m f s = (Ok b, s') →
  ∃ a s1, m s = (Ok a, s1) ∧ f a s1 = (Ok b, s').
Proof.
  unfold bind. destruct (m s) as [[a|e] s1]; [eauto|discriminate].
Qed.

Lemma bind_Ok {A B} (m : M A) (f : A → M B) (s s1 : St) (a : A) :
  m s = (Ok a, s1) → bind m f s = f a s1.
Proof. unfold bind. now intros ->. Qed.

Lemma bind_Raise {A B} (m : M A) (f : A → M B) (s s1 : St) (e : PyExn) :
  m s = (Raise e, s1) → bind m f s = (Raise e, s1).
Proof. unfold bind. now intros ->. Qed.

Lemma call_Ok {A} (ev : Event) (op : World → result A * World)
    (w w1 : World) (tr : list Event) (a : A) :
  op w = (Ok a, w1) → call ev op (w, tr) = (Ok a, (w1, tr ++ [ev])).
Proof. unfold call. cbn [fst snd]. now intros ->. Qed.

Lemma call_Ok_inv {A} (ev : Event) (op : World → result A * World)
    (s s' : St) (a : A) :
  call ev op s = (Ok a, s') →
  op (fst s) = (Ok a, fst s') ∧ snd s' = snd s ++ [ev].
Proof.
  unfold call. destruct (op (fst s)) as [r w1]. intros [= -> <-]. auto.
Qed.
End BindFacts.

(** *** The cache key *)








Section WebContextKey.
Context `{Env}.

(** What a [WebContext] that has been constructed holds. *)
Lemma WebContext_init_fields (url model base : string) (force : bool)
    (s s' : St) (ctx : WebContext) :
  WebContext_init url model base force s = (Ok ctx, s') →
  wc_url ctx = url
  ∧ wc_db_hash ctx = db_hash_of url
  ∧ wc_db_path ctx = cache_dir base url
  ∧ db (wc_vectorstore ctx) = cache_dir base url.
Proof.
  unfold WebContext_init. intros Hrun.
  do 3 (apply bind_Ok_inv in Hrun as (? & ? & _ & Hrun)).
  apply bind_Ok_inv in Hrun as (ex & s1 & _ & Hrun).
  apply bind_Ok_inv in Hrun as (vs & s2 & Hvs & Hrun).
  assert (db vs = cache_dir base url) as Hdb.
  { unfold DocumentVectorizer_default, DocumentVectorizer_init in Hvs.
    apply bind_Ok_inv in Hvs as (d & s3 & Hd & Hvs).
    unfold _init_vector_db in Hd.
    apply bind_Ok_inv in Hd as (? & ? & _ & Hd).
    apply bind_Ok_inv in Hd as (? & ? & _ & Hd).
    unfold ret in *. injection Hd as <- _. injection Hvs as <- _. reflexivity. }
  destruct (force || negb ex).
  - apply bind_Ok_inv in Hrun as (content & s3 & _ & Hrun).
    apply bind_Ok_inv in Hrun as (? & s4 & _ & Hrun).
    unfold ret in Hrun. injection Hrun as <- _. cbn. auto.
  - unfold ret in Hrun. injection Hrun as <- _. cbn. auto.
Qed.
End WebContextKey.


(** The directory of the page that [usecases/web_context_usecase.py] asks
    about. *)
Example cache_dir_apple_guidelines :
  cache_dir "web_chroma_dbs"
    "https://developer.apple.com/app-store/review/guidelines/#introduction"
  = "web_chroma_dbs/9284a56283f9681c".
Proof. vm_compute. reflexivity. Qed.

(** *** The cache-aware constructor of [WebContext] *)

Section WebContextCache.
Context `{Env}.

Lemma add_documents_persisted (vs : DocumentVectorizer) (docs : list Document)
    (s s' : St) (ids : list string) :
  add_documents vs docs s = (Ok ids, s') →
  ∃ w0, chroma_persist (db vs) w0 = (Ok tt, fst s').
Proof.
  unfold add_documents. intros Hrun.
  apply bind_Ok_inv in Hrun as (chunks & s1 & _ & Hrun).
  apply bind_Ok_inv in Hrun as (ids' & s2 & _ & Hrun).
  apply bind_Ok_inv in Hrun as ([] & s3 & Hp & Hrun).
  unfold ret in Hrun. injection Hrun as _ <-.
  apply call_Ok_inv in Hp as [Hp _]. eauto.
Qed.

Lemma vectorize_and_store_persisted (vs : DocumentVectorizer)
    (content : option ScrapeContent) (s s' : St) :
  vectorize_and_store vs content s = (Ok tt, s') →
  ∃ w0, chroma_persist (db vs) w0 = (Ok tt, fst s').
Proof.
  unfold vectorize_and_store.
  destruct (_ || _); [discriminate|]. intros Hrun.
  apply bind_Ok_inv in Hrun as (chunks & s1 & _ & Hrun).
  apply bind_Ok_inv in Hrun as (ids & s2 & Hadd & Hrun).
  unfold ret in Hrun. injection Hrun as <-.
  now apply add_documents_persisted in Hadd.
Qed.

(** A constructor call that ingested ends with a flush of the store at the
    cache directory. *)
Lemma WebContext_init_persisted (url model base : string) (force : bool)
    (s s' : St) (ctx : WebContext) (content : ScrapeContent) :
  WebContext_init url model base force s = (Ok ctx, s') →
  wc_content ctx = Some content →
  ∃ w0, chroma_persist (cache_dir base url) w0 = (Ok tt, fst s').
Proof.
  intros Hrun Hcontent.
  pose proof (WebContext_init_fields _ _ _ _ _ _ _ Hrun) as (_ & _ & _ & Hdb).
  unfold WebContext_init in Hrun.
  do 3 (apply bind_Ok_inv in Hrun as (? & ? & _ & Hrun)).
  apply bind_Ok_inv in Hrun as (ex & s1 & _ & Hrun).
  apply bind_Ok_inv in Hrun as (vs & s2 & Hvs & Hrun).
  destruct (force || negb ex).
  - apply bind_Ok_inv in Hrun as (c & s3 & _ & Hrun).
    apply bind_Ok_inv in Hrun as ([] & s4 & Hstore & Hrun).
    unfold ret in Hrun. injection Hrun as <- <-. cbn in Hdb. rewrite <- Hdb.
    now apply vectorize_and_store_persisted in Hstore.
  - unfold ret in Hrun. injection Hrun as <- _. discriminate.
Qed.

Lemma web_context_names_bound (s : St) :
  lookup_global web_context_globals "hashlib" s = (Ok tt, s)
  ∧ lookup_global web_context_globals "os" s = (Ok tt, s).
Proof. split; reflexivity. Qed.

Lemma db_exists_check_hit (path : string) (w : World) (tr : list Event)
    (entries : list string) :
  entries ≠ [] →
  os_path_exists path w = (Ok true, w) →
  os_listdir path w = (Ok entries, w) →
  db_exists_check path (w, tr)
  = (Ok true, (w, tr ++ [EvPathExists path; EvListdir path])).
Proof.
  intros Hne Hex Hls. unfold db_exists_check.
  rewrite (bind_Ok _ _ _ _ _ (call_Ok _ _ _ _ _ _ Hex)).
  rewrite (bind_Ok _ _ _ _ _ (call_Ok _ _ _ _ _ _ Hls)).
  unfold ret. destruct entries; [contradiction|].
  now rewrite <- app_assoc.
Qed.

Lemma DocumentVectorizer_default_opens (path : string) (w w1 w2 : World)
    (tr : list Event) :
  os_makedirs path w = (Ok tt, w1) →
  chroma_open path "document_collection" w1 = (Ok tt, w2) →
  DocumentVectorizer_default path (w, tr)
  = (Ok (default_vectorizer path),
     (w2, tr ++ [EvMakedirs path; EvChromaOpen path "document_collection"])).
Proof.
  intros Hmk Hopen.
  unfold DocumentVectorizer_default, DocumentVectorizer_init, _init_vector_db.
  unfold bind at 1.
  rewrite (bind_Ok _ _ _ _ _ (call_Ok _ _ _ _ _ _ Hmk)).
  rewrite (bind_Ok _ _ _ _ _ (call_Ok _ _ _ _ _ _ Hopen)).
  unfold ret. now rewrite <- app_assoc.
Qed.

(** C4. After a constructor call for [url] that ingested the page and
    returned, a second call with [force_rescrape=False] in the world the
    first one left looks at the cache directory, finds it populated, opens
    the store there and returns: its calls are those four and no other, so
    nothing is fetched, split, embedded or persisted, and the instance it
    returns asks its questions to the store at the cache directory.  For a
    PDF there is no first call that returns: [PdfContext] has no refresh
    flag and its constructor never gets as far as the cache. *)
Theorem second_call_reuses_store (url model base : string) (force1 : bool)
    (s0 : St) (ctx : WebContext) (content : ScrapeContent)
    (w1 w2 w3 : World) (tr1 : list Event) :
  persist_populates →
  WebContext_init url model base force1 s0 = (Ok ctx, (w1, tr1)) →
  wc_content ctx = Some content →
  os_makedirs (cache_dir base url) w1 = (Ok tt, w2) →
  chroma_open (cache_dir base url) "document_collection" w2 = (Ok tt, w3) →
  WebContext_init url model base false (w1, tr1)
  = (Ok (mkWebContext url model WebScraper_default (db_hash_of url)
           (cache_dir base url) (default_vectorizer (cache_dir base url)) None),
     (w3, tr1 ++ cache_hit_events (cache_dir base url)))
  ∧ (∀ (source : string) (s : St),
        ¬ ∃ (pdf : PdfContext) (s' : St),
            PdfContext_init source model base s = (Ok pdf, s')).
Proof.
  intros Hpop Hfirst Hcontent Hmk Hopen.
  split;
    [|intros source s (pdf & s' & Heq);
      rewrite PdfContext_init_raises in Heq; discriminate].
  destruct (WebContext_init_persisted _ _ _ _ _ _ _ _ Hfirst Hcontent)
    as (w0 & Hpersist).
  destruct (Hpop _ _ _ Hpersist) as (entries & Hne & Hex & Hls).
  cbn [fst] in *.
  unfold WebContext_init.
  rewrite (bind_Ok _ _ _ _ _ (proj1 (web_context_names_bound _))).
  do 2 rewrite (bind_Ok _ _ _ _ _ (proj2 (web_context_names_bound _))).
  fold (cache_dir base url).
  rewrite (bind_Ok _ _ _ _ _ (db_exists_check_hit _ _ _ _ Hne Hex Hls)).
  rewrite (bind_Ok _ _ _ _ _ (DocumentVectorizer_default_opens _ _ _ _ _ Hmk Hopen)).
  cbn [orb negb]. unfold ret, cache_hit_events. now rewrite <- app_assoc.
Qed.
End WebContextCache.

(** The in-memory store keeps its promise: a flush leaves the index file in
    the directory. *)
Lemma mem_persist_populates : @persist_populates mem_env.
Proof.
  intros path w w' Hp. cbn in *. unfold Mem.persist in Hp.
  destruct (bool_decide _) eqn:Hin; injection Hp as <-.
  - apply bool_decide_eq_true in Hin.
    unfold Mem.path_exists, Mem.listdir.
    destruct (Mem.dirs w !! path) as [entries|] eqn:Hdir; cbn in Hin.
    + exists entries. split; [|split].
      * intros ->. now apply elem_of_nil in Hin.
      * f_equal.
      * reflexivity.
    + now apply elem_of_nil in Hin.
  - exists ("chroma.sqlite3" :: default [] (Mem.dirs w !! path)).
    split; [discriminate|].
    unfold Mem.path_exists, Mem.listdir, Mem.set_dirs. cbn [Mem.dirs].
    rewrite lookup_insert_eq. split; [|reflexivity].
    f_equal.
Qed.

(** One page, constructed twice: the first call fetches, splits, stores and
    flushes; the second looks at the directory and opens the store. *)
Lemma second_call_reuses_store_witness :
  let url := "https://example.com/" in
  let page := "Apps must follow the review guidelines." in
  let path := "web_chroma_dbs/0f115db062b7c0dd" in
  let w0 := Mem.mkWorld ∅ ∅ 10 {[ url := page ]} ∅ ∅ in
  let w1 := Mem.mkWorld {[ path := ["chroma.sqlite3"] ]} {[ path := [Mem.doc page] ]}
                        9 {[ url := page ]} ∅ ∅ in
  let content :=
    mkScrapeContent true page {[ "url" := PyStr url; "title" := PyStr "" ]} in
  let tr1 := [EvPathExists path; EvMakedirs path;
              EvChromaOpen path "document_collection";
              EvFetch url; EvSoup page;
              EvSplit [Mem.doc page]; EvSplit [Mem.doc page];
              EvAddDocuments path [Mem.doc page]; EvPersist path] in
  WebContext_init url "qwen2.5-coder:7b" "web_chroma_dbs" false (w0, [])
  = (Ok (mkWebContext url "qwen2.5-coder:7b" WebScraper_default "0f115db062b7c0dd"
           path (default_vectorizer path) (Some content)),
     (w1, tr1))
  ∧ WebContext_init url "qwen2.5-coder:7b" "web_chroma_dbs" false (w1, tr1)
    = (Ok (mkWebContext url "qwen2.5-coder:7b" WebScraper_default "0f115db062b7c0dd"
             path (default_vectorizer path) None),
       (w1, tr1 ++ [EvPathExists path; EvListdir path; EvMakedirs path;
                    EvChromaOpen path "document_collection"])).
Proof.
  intros url page path w0 w1 content tr1.
  assert (WebContext_init url "qwen2.5-coder:7b" "web_chroma_dbs" false (w0, [])
          = (Ok (mkWebContext url "qwen2.5-coder:7b" WebScraper_default
                   "0f115db062b7c0dd" path (default_vectorizer path) (Some content)),
             (w1, tr1))) as Hfirst by (vm_compute; reflexivity).
  split; [exact Hfirst|].
  assert (cache_dir "web_chroma_dbs" url = path) as Hpath by (vm_compute; reflexivity).
  assert (db_hash_of url = "0f115db062b7c0dd") as Hhash by (vm_compute; reflexivity).
  pose proof (second_call_reuses_store url "qwen2.5-coder:7b" "web_chroma_dbs" false
                (w0, []) _ content w1 w1 w1 tr1
                mem_persist_populates Hfirst eq_refl) as Hsecond.
  rewrite Hpath, Hhash in Hsecond.
  exact (proj1 (Hsecond eq_refl eq_refl)).
Defined.

(** *** Empty content *)

Section EmptyContent.
Context `{Env}.

Lemma quiet_ret {A} (a : A) : quiet (ret a).
Proof.
  intros s s' r [= <- <-]. exists []. now rewrite app_nil_r.
Qed.

Lemma quiet_raise {A} (e : PyExn) : quiet (@raise _ A e).
Proof.
  intros s s' r [= <- <-]. exists []. now rewrite app_nil_r.
Qed.

Lemma quiet_call {A} (ev : Event) (op : World → result A * World) :
  ingest_event ev = false → quiet (call ev op).
Proof.
  intros Hev s s' r. unfold call. destruct (op (fst s)) as [r' w'].
  intros [= <- <-]. exists [ev]. split; [reflexivity|]. now constructor.
Qed.

Lemma quiet_bind {A B} (m : M A) (f : A → M B) :
  quiet m → (∀ a, quiet (f a)) → quiet (bind m f).
Proof.
  intros Hm Hf s s' r. unfold bind.
  destruct (m s) as [[a|e] s1] eqn:Hms.
  - intros Hfa. destruct (Hm _ _ _ Hms) as (evs1 & Heq1 & H1).
    destruct (Hf a _ _ _ Hfa) as (evs2 & Heq2 & H2).
    exists (evs1 ++ evs2). split; [now rewrite Heq2, Heq1, app_assoc|].
    now apply Forall_app.
  - intros [= <- <-]. eauto.
Qed.

Lemma quiet_try_except {A} (body : M A) (handler : PyExn → M A) :
  quiet body → (∀ e, quiet (handler e)) → quiet (try_except body handler).
Proof.
  intros Hb Hh s s' r. unfold try_except.
  destruct (body s) as [[a|e] s1] eqn:Hbs.
  - intros [= <- <-]. eauto.
  - intros Hhe. destruct (Hb _ _ _ Hbs) as (evs1 & Heq1 & H1).
    destruct (Hh e _ _ _ Hhe) as (evs2 & Heq2 & H2).
    exists (evs1 ++ evs2). split; [now rewrite Heq2, Heq1, app_assoc|].
    now apply Forall_app.
Qed.

Lemma quiet_db_exists_check (path : string) : quiet (db_exists_check path).
Proof.
  unfold db_exists_check. apply quiet_bind; [now apply quiet_call|].
  intros []; [|apply quiet_ret].
  apply quiet_bind; [now apply quiet_call|]. intros; apply quiet_ret.
Qed.

Lemma quiet_DocumentVectorizer_default (path : string) :
  quiet (DocumentVectorizer_default path).
Proof.
  unfold DocumentVectorizer_default, DocumentVectorizer_init, _init_vector_db.
  apply quiet_bind; [|intros; apply quiet_ret].
  apply quiet_bind; [now apply quiet_call|]. intros _.
  apply quiet_bind; [now apply quiet_call|]. intros; apply quiet_ret.
Qed.

Lemma quiet_scrape (scraper : WebScraper) (url : string) : quiet (scrape scraper url).
Proof.
  unfold scrape, fetch_html, extract_text_from_html.
  apply quiet_bind.
  - destruct (negb (validate_url url)); [apply quiet_ret|].
    apply quiet_try_except.
    + apply quiet_bind; [now apply quiet_call|]. intros; apply quiet_ret.
    + intros [cls msg]. apply quiet_ret.
  - intros [[html|] meta]; cbn [fst snd]; [|apply quiet_ret].
    apply quiet_bind; [now apply quiet_call|]. intros; apply quiet_ret.
Qed.

(** [WebContext]: on a cache miss or a forced refresh, a scrape that comes
    back without text makes the constructor raise its [ValueError], and up
    to there nothing has been split, added to the store or flushed. *)
Lemma WebContext_init_empty_text (url model base : string) (force : bool)
    (s s1 s2 s3 : St) (db_exists : bool) (vs : DocumentVectorizer)
    (content : ScrapeContent) :
  db_exists_check (cache_dir base url) s = (Ok db_exists, s1) →
  DocumentVectorizer_default (cache_dir base url) s1 = (Ok vs, s2) →
  force || negb db_exists = true →
  scrape WebScraper_default url s2 = (Ok content, s3) →
  text content = "" →
  WebContext_init url model base force s
    = (Raise (ValueError "No content available to vectorize."), s3)
  ∧ ∃ evs, snd s3 = snd s ++ evs ∧ Forall (λ ev, ingest_event ev = false) evs.
Proof.
  intros Hex Hvs Hmiss Hscrape Htext. split.
  - unfold WebContext_init.
    rewrite (bind_Ok _ _ _ _ _ (proj1 (web_context_names_bound _))).
    do 2 rewrite (bind_Ok _ _ _ _ _ (proj2 (web_context_names_bound _))).
    fold (cache_dir base url).
    rewrite (bind_Ok _ _ _ _ _ Hex), (bind_Ok _ _ _ _ _ Hvs), Hmiss.
    rewrite (bind_Ok _ _ _ _ _ Hscrape).
    unfold vectorize_and_store. cbn [truthy_opt negb orb fmap option_map option_fmap from_option id].
    rewrite Htext. reflexivity.
  - destruct (quiet_db_exists_check _ _ _ _ Hex) as (e1 & Heq1 & H1).
    destruct (quiet_DocumentVectorizer_default _ _ _ _ Hvs) as (e2 & Heq2 & H2).
    destruct (quiet_scrape _ _ _ _ _ Hscrape) as (e3 & Heq3 & H3).
    exists (e1 ++ e2 ++ e3).
    split; [now rewrite Heq3, Heq2, Heq1, !app_assoc|].
    repeat (apply Forall_app; split); assumption.
Qed.
End EmptyContent.

(** C7, at a PDF.  A source whose extracted text is empty: the constructor
    of [PdfContext] does not get to the [ValueError] of its lines 39 to 41;
    it raises [NameError] before it has looked at the cache or the source. *)
Theorem PdfContext_init_empty_text :
  let w := Mem.mkWorld ∅ ∅ 10 ∅ {[ "scan.pdf" := "" ]} ∅ in
  Mem.extract_pdf "scan.pdf" w = (Ok "", w)
  ∧ Mem.path_exists (cache_dir "directory_chroma_dbs" "scan.pdf") w = (Ok false, w)
  ∧ PdfContext_init "scan.pdf" "qwen2.5-coder:7b" "directory_chroma_dbs" (w, [])
    = (Raise (Exn "NameError" "name 'os' is not defined"), (w, []))
  ∧ Exn "NameError" "name 'os' is not defined"
    ≠ ValueError "No content available to vectorize.".
Proof.
  intros w. split; [reflexivity|]. split; [vm_compute; reflexivity|].
  split; [reflexivity|]. discriminate.
Qed.

(** The same through [WebContext]: a page that cannot be fetched. *)
Example WebContext_init_unreachable_page :
  let w := Mem.empty_world 10 in
  let path := "web_chroma_dbs/0f115db062b7c0dd" in
  WebContext_init "https://example.com/" "qwen2.5-coder:7b" "web_chroma_dbs" false (w, [])
  = (Raise (ValueError "No content available to vectorize."),
     (Mem.mkWorld {[ path := [] ]} ∅ 10 ∅ ∅ ∅,
      [EvPathExists path; EvMakedirs path; EvChromaOpen path "document_collection";
       EvFetch "https://example.com/"])).
Proof. vm_compute. reflexivity. Qed.

(** *** Strings *)








(** *** White space *)







Lemma py_strip_blank (s : string) : is_blank s = true → py_strip s = "".
Proof.
  unfold is_blank, py_strip, py_rstrip. intros Hs.
  destruct (py_lstrip s); [reflexivity|discriminate].
Qed.

(** *** The Chunker on a text within the budget *)

Section ChunkerFacts.
Import Chunker.
Variables cs co : Z.






















End ChunkerFacts.

(** *** [process_text] *)

Section ProcessText.
Context `{Env}.
Hypothesis splitter_is_chunker :
  ∀ cs co docs, splitter_split_documents cs co docs = Chunker.split_documents cs co docs.
Variable self : DocumentVectorizer.

End ProcessText.




(** ** Part III: more of the code *)

(** *** [_add_documents_in_batches] on small inputs and odd batch sizes *)

Section BatchEdges.
Context `{Env}.
Variable self : DocumentVectorizer.

(** The whole plan accepted: the method returns the ids in order. *)
Lemma add_in_batches_accepts (documents : list Document) (w w' : World)
    (tr : list Event) (idss : list (list string)) :
  0 < batch_size self →
  store_accepts (db self) w (batch_plan self documents) idss w' →
  _add_documents_in_batches self documents (w, tr)
  = (Ok (concat idss),
     (w', tr ++ map (EvAddDocuments (db self)) (batch_plan self documents))).
Proof.
  intros Hb Hacc. unfold batch_plan in *.
  destruct (Z.leb_spec (Z.of_nat (length documents)) (batch_size self)) as [Hle|Hgt].
  - inversion Hacc as [|? w1 ? ? ? ids idss' Hadd Hrest]; subst.
    inversion Hrest; subst.
    unfold _add_documents_in_batches.
    destruct (Z.leb_spec (Z.of_nat (length documents)) (batch_size self)) as [_|?]; [|lia].
    unfold db_add_documents.
    rewrite (bind_Ok _ _ _ _ _ (call_Ok _ _ _ _ _ _ Hadd)).
    unfold ret. cbn [concat map app]. now rewrite app_nil_r.
  - rewrite add_in_batches_loop by assumption.
    pose proof (range_windows self documents Hb Hgt) as Hw.
    rewrite (batch_loop_accepts self documents _ [] w tr idss w'); [|lia|now rewrite Hw].
    now rewrite Hw.
Qed.

(** A batch refused: the method raises, having issued the calls up to it. *)
Lemma add_in_batches_rejects (documents : list Document) (w wj w' : World)
    (tr : list Event) (j : nat) (e : PyExn) (idss : list (list string)) :
  0 < batch_size self →
  store_rejects_at (db self) w (batch_plan self documents) j e idss wj w' →
  _add_documents_in_batches self documents (w, tr)
  = (Raise e,
     (w', tr ++ map (EvAddDocuments (db self)) (take (S j) (batch_plan self documents)))).
Proof.
  intros Hb Hrej. unfold batch_plan in *.
  destruct (Z.leb_spec (Z.of_nat (length documents)) (batch_size self)) as [Hle|Hgt].
  - destruct Hrej as (batch & Hj & Hacc & Hfail).
    destruct j as [|j]; [|now destruct j].
    cbn in Hj. injection Hj as <-. inversion Hacc; subst.
    unfold _add_documents_in_batches.
    destruct (Z.leb_spec (Z.of_nat (length documents)) (batch_size self)) as [_|?]; [|lia].
    unfold bind, db_add_documents, call. cbn [fst snd].
    rewrite Hfail. reflexivity.
  - rewrite add_in_batches_loop by assumption.
    pose proof (range_windows self documents Hb Hgt) as Hw.
    rewrite (batch_loop_rejects self documents _ [] w tr j e idss wj w');
      [|lia|now rewrite Hw].
    now rewrite Hw.
Qed.

(** X1. A list that fits into one batch, the empty list included, makes
    exactly one [add_documents] call with the whole list; the method returns
    what the store returned, ids or exception. *)
Theorem add_documents_in_batches_single (documents : list Document) (w : World)
    (tr : list Event) :
  Z.of_nat (length documents) ≤ batch_size self →
  _add_documents_in_batches self documents (w, tr)
  = (fst (chroma_add_documents (db self) documents w),
     (snd (chroma_add_documents (db self) documents w),
      tr ++ [EvAddDocuments (db self) documents])).
Proof.
  intros Hle. unfold _add_documents_in_batches.
  destruct (Z.leb_spec (Z.of_nat (length documents)) (batch_size self)) as [_|?]; [|lia].
  unfold bind, db_add_documents, call, ret. cbn [fst snd].
  now destruct (chroma_add_documents (db self) documents w) as [[ids|e] w'].
Qed.

(** X2. The constructor takes any batch size.  With a batch size of zero a
    non-empty list raises [ZeroDivisionError] before anything is sent to the
    store; with a negative one every list comes back as an empty id list
    and nothing is sent to the store at all, so [add_documents] then
    "succeeds" after the split and the flush without having stored
    anything. *)
Theorem add_documents_in_batches_nonpositive (documents : list Document) (s : St) :
  (batch_size self = 0 → documents ≠ [] →
     _add_documents_in_batches self documents s = (Raise ZeroDivisionError, s))
  ∧ (batch_size self < 0 →
       _add_documents_in_batches self documents s = (Ok [], s))
  ∧ (batch_size self < 0 →
       ∀ w2, chroma_persist (db self) (fst s) = (Ok tt, w2) →
             add_documents self documents s
             = (Ok [], (w2, snd s ++ [EvSplit documents; EvPersist (db self)]))).
Proof.
  assert (batch_size self < 0 →
          ∀ docs s0, _add_documents_in_batches self docs s0 = (Ok [], s0)) as Hneg.
  { intros Hb docs s0. unfold _add_documents_in_batches.
    destruct (Z.leb_spec (Z.of_nat (length docs)) (batch_size self)) as [?|_]; [lia|].
    unfold bind at 1, py_floordiv at 1.
    destruct (Z.eqb_spec (batch_size self) 0) as [?|_]; [lia|].
    unfold ret at 1, bind at 1, py_range, py_range_len.
    destruct (Z.eqb_spec (batch_size self) 0) as [?|_]; [lia|].
    destruct (Z.ltb_spec 0 (batch_size self)) as [?|_]; [lia|].
    destruct (Z.ltb_spec (Z.of_nat (length docs)) 0) as [?|_]; [lia|].
    reflexivity. }
  split; [|split].
  - intros Hb Hne. unfold _add_documents_in_batches.
    destruct (Z.leb_spec (Z.of_nat (length documents)) (batch_size self)) as [Hle|_].
    + destruct documents; [contradiction|]. cbn [length] in Hle. lia.
    + unfold bind, py_floordiv. now rewrite Hb.
  - intros Hb. apply Hneg, Hb.
  - intros Hb w2 Hp. unfold add_documents, text_splitter_split.
    unfold bind at 1. unfold bind at 1, note, ret at 1.
    unfold bind at 1. rewrite (Hneg Hb).
    unfold bind, db_persist, call, ret. cbn [fst snd]. rewrite Hp.
    now rewrite <- app_assoc.
Qed.

(** X3. [set_batch_size] is where the batch size is checked: a size of
    zero or below raises [ValueError] and changes nothing; a positive one is
    what [get_batch_size] returns afterwards, and the store handle and the
    chunking parameters are untouched. *)
Theorem set_batch_size_checks (size : Z) (s : St) :
  (size ≤ 0 →
     set_batch_size self size s = (Raise (ValueError "Batch size must be positive"), s))
  ∧ (0 < size →
       ∃ self', set_batch_size self size s = (Ok self', s)
                ∧ get_batch_size self' = size
                ∧ db self' = db self
                ∧ chunk_size self' = chunk_size self
                ∧ chunk_overlap self' = chunk_overlap self)
  ∧ (∀ self' s', set_batch_size self size s = (Ok self', s') → 0 < batch_size self').
Proof.
  unfold set_batch_size. destruct (Z.leb_spec size 0) as [Hle|Hgt].
  - split; [reflexivity|]. split; [lia|]. intros self' s' [=].
  - split; [lia|]. split.
    + intros _. eexists. split; [reflexivity|]. cbn. auto.
    + intros self' s' [= <- _]. exact Hgt.
Qed.
End BatchEdges.

(** *** [add_documents], [add_text], [add_texts] *)

Section AddDocuments.
Context `{Env}.
Variable self : DocumentVectorizer.

(** X4. [add_documents] splits, sends the chunks batch by batch and then
    flushes the store once.  When every batch is taken and the flush
    succeeds it returns the ids in order.  When a batch is refused it raises
    that exception and the store is not flushed; when the flush itself fails
    the exception is raised although every chunk has been sent, and the ids
    are not returned. *)
Theorem add_documents_flushes_once (documents : list Document) (w : World)
    (tr : list Event) :
  0 < batch_size self →
  let chunks :=
    splitter_split_documents (chunk_size self) (chunk_overlap self) documents in
  let plan := batch_plan self chunks in
  let sent := EvSplit documents :: map (EvAddDocuments (db self)) plan in
  (∀ idss w1 w2,
      store_accepts (db self) w plan idss w1 →
      chroma_persist (db self) w1 = (Ok tt, w2) →
      add_documents self documents (w, tr)
      = (Ok (concat idss), (w2, tr ++ sent ++ [EvPersist (db self)])))
  ∧ (∀ j e idss wj w',
        store_rejects_at (db self) w plan j e idss wj w' →
        add_documents self documents (w, tr)
        = (Raise e,
           (w', tr ++ EvSplit documents
                      :: map (EvAddDocuments (db self)) (take (S j) plan))))
  ∧ (∀ idss w1 w2 e,
        store_accepts (db self) w plan idss w1 →
        chroma_persist (db self) w1 = (Raise e, w2) →
        add_documents self documents (w, tr)
        = (Raise e, (w2, tr ++ sent ++ [EvPersist (db self)]))).
Proof.
  intros Hb chunks plan sent.
  assert (add_documents self documents (w, tr)
          = bind (_add_documents_in_batches self chunks)
                 (λ ids, bind (db_persist self) (λ _, ret ids))
                 (w, tr ++ [EvSplit documents])) as Hsplit by reflexivity.
  split; [|split].
  - intros idss w1 w2 Hacc Hp. rewrite Hsplit.
    rewrite (bind_Ok _ _ _ _ _ (add_in_batches_accepts self chunks _ _ _ _ Hb Hacc)).
    unfold db_persist. rewrite (bind_Ok _ _ _ _ _ (call_Ok _ _ _ _ _ _ Hp)).
    unfold ret, sent. fold plan. now rewrite <- !app_assoc.
  - intros j e idss wj w' Hrej. rewrite Hsplit.
    rewrite (bind_Raise _ _ _ _ _ (add_in_batches_rejects self chunks _ _ _ _ _ _ _ Hb Hrej)).
    fold plan. now rewrite <- !app_assoc.
  - intros idss w1 w2 e Hacc Hp. rewrite Hsplit.
    rewrite (bind_Ok _ _ _ _ _ (add_in_batches_accepts self chunks _ _ _ _ Hb Hacc)).
    unfold db_persist, bind, call. cbn [fst snd]. rewrite Hp.
    unfold sent. fold plan. now rewrite <- !app_assoc.
Qed.

(** X5. [add_text(text, metadata)] does what [add_documents] does on the
    one document made of the text and the metadata (the empty mapping when
    none is given): same calls, same result. *)
Theorem add_text_as_add_documents (t : string) (meta : option (gmap string PyVal))
    (s : St) :
  add_text self t meta s = add_documents self [mkDocument t (default ∅ meta)] s
  ∧ add_text self t None s = add_text self t (Some ∅) s.
Proof. split; reflexivity. Qed.

Lemma add_texts_loop_bare (texts : list string) :
  ∀ (i : nat) (docs : list Document) (s : St),
    add_texts_loop texts i None docs s
    = (Ok (docs ++ map (λ t, mkDocument t ∅) texts), s).
Proof.
  induction texts as [|t ts IH]; intros i docs s.
  - cbn. unfold ret. now rewrite app_nil_r.
  - cbn [add_texts_loop truthy_opt]. unfold bind at 1, ret at 1.
    rewrite IH. cbn [map]. now rewrite <- app_assoc.
Qed.

(** X6. [add_texts] hands [add_documents] one document per text, in order:
    with no metadata (or an empty list of it) each one carries the empty
    mapping; with as many dictionaries as texts the i-th document carries
    the i-th dictionary. *)
Theorem add_texts_builds_documents (texts : list string) (s : St) :
  add_texts self texts None s
  = add_documents self (map (λ t, mkDocument t ∅) texts) s
  ∧ add_texts self texts (Some []) s
    = add_documents self (map (λ t, mkDocument t ∅) texts) s
  ∧ (∀ metadatas, length metadatas = length texts →
        add_texts self texts (Some metadatas) s
        = add_documents self (zip_with mkDocument texts metadatas) s).
Proof.
  assert (add_texts self texts None s
          = add_documents self (map (λ t, mkDocument t ∅) texts) s) as Hbare.
  { unfold add_texts. cbn [truthy_opt andb].
    now rewrite (bind_Ok _ _ _ _ _ (add_texts_loop_bare texts 0 [] s)). }
  split; [exact Hbare|]. split.
  - rewrite <- Hbare. unfold add_texts. cbn [truthy_opt truthy_list andb].
    unfold bind. f_equal.
    enough (∀ ts i docs s0,
               add_texts_loop ts i (Some []) docs s0
               = add_texts_loop ts i None docs s0) as -> by reflexivity.
    clear. induction ts as [|t ts IH]; intros i docs s0; [reflexivity|].
    cbn [add_texts_loop truthy_opt truthy_list]. unfold bind, ret. apply IH.
  - intros metadatas Hlen. destruct texts as [|t ts].
    + destruct metadatas; [|discriminate]. reflexivity.
    + now apply add_texts_matching.
Qed.
End AddDocuments.

(** *** [ingest_from_sqlite]: a failing query, and the metadata of a row *)

Section SqliteEdges.
Context `{Env}.
Variable self : DocumentVectorizer.

(** X7. When the query fails (no such table, say) [ingest_from_sqlite]
    raises that exception right after [connect] and the query: the
    connection is not closed, and nothing has been sent to the splitter or
    the store. *)
Theorem ingest_from_sqlite_query_fails (table_name path : string)
    (w w1 w2 : World) (tr : list Event) (e : PyExn) :
  sqlite_path self = Some path →
  truthy_str path = true →
  truthy_opt truthy_str (content_column self) = true →
  sqlite_connect path w = (Ok tt, w1) →
  sqlite_fetchall path (select_sql self table_name) w1 = (Raise e, w2) →
  ingest_from_sqlite self table_name (w, tr)
  = (Raise e,
     (w2, tr ++ [EvSqliteConnect path;
                 EvSqliteFetchall path (select_sql self table_name)])).
Proof.
  intros Hpath Hp Hc Hconn Hfetch. unfold ingest_from_sqlite.
  rewrite Hpath. cbn [truthy_opt]. rewrite Hp, Hc. cbn [negb from_option id].
  rewrite (bind_Ok _ _ _ _ _ (call_Ok _ _ _ _ _ _ Hconn)).
  fold (select_sql self table_name).
  unfold bind, call. cbn [fst snd]. rewrite Hfetch.
  now rewrite <- app_assoc.
Qed.
End SqliteEdges.

Lemma dict_of_zip_absent (keys : list string) :
  ∀ (values : list PyVal) (acc : gmap string PyVal) (k : string),
    ¬ In k keys → dict_of_zip keys values acc !! k = acc !! k.
Proof.
  induction keys as [|k0 keys IH]; intros values acc k Hk; [reflexivity|].
  destruct values as [|v values]; [reflexivity|].
  cbn [dict_of_zip]. rewrite IH by (intros ?; apply Hk; now right).
  apply lookup_insert_ne. intros ->. apply Hk. now left.
Qed.

Lemma dict_of_zip_lookup_acc (keys : list string) :
  List.NoDup keys →
  ∀ (values : list PyVal) (acc : gmap string PyVal) (i : nat) (k : string),
    keys !! i = Some k →
    dict_of_zip keys values acc !! k
    = match values !! i with Some v => Some v | None => acc !! k end.
Proof.
  induction 1 as [|k0 keys Hk0 Hnd IH]; intros values acc i k Hi; [discriminate|].
  destruct values as [|v values]; [reflexivity|].
  cbn [dict_of_zip]. destruct i as [|i].
  - cbn in Hi. injection Hi as <-. cbn [lookup list_lookup].
    rewrite dict_of_zip_absent by assumption. apply lookup_insert_eq.
  - cbn in Hi. cbn [lookup list_lookup]. rewrite (IH values _ i k Hi).
    destruct (values !! i); [reflexivity|].
    apply lookup_insert_ne. intros ->.
    apply Hk0. apply list_elem_of_In. now apply list_elem_of_lookup_2 in Hi.
Qed.

(** X8. The metadata of a row: with distinct metadata columns, each column
    is mapped to the cell at its position; a column without a cell (a short
    row) is left out, and so is a cell without a column; no other key
    appears. *)
Theorem dict_of_zip_lookup (keys : list string) (values : list PyVal) :
  List.NoDup keys →
  (∀ (i : nat) (k : string),
      keys !! i = Some k → dict_of_zip keys values ∅ !! k = values !! i)
  ∧ (∀ k, ¬ In k keys → dict_of_zip keys values ∅ !! k = None).
Proof.
  intros Hnd. split.
  - intros i k Hi. rewrite (dict_of_zip_lookup_acc keys Hnd values ∅ i k Hi).
    now destruct (values !! i).
  - intros k Hk. now rewrite dict_of_zip_absent.
Qed.

(** *** [WebScraper.fetch_html] and [WebScraper.scrape] *)

Section ScraperFacts.
Context `{Env}.
Variable self : WebScraper.

(** [fetch_html] returns, and a missing page comes with an ["error"] entry. *)
Lemma fetch_html_result (url : string) (s : St) :
  ∃ page meta s',
    fetch_html self url s = (Ok (page, meta), s')
    ∧ (validate_url url = false →
         page = None ∧ meta = {[ "error" := PyStr "Invalid URL format" ]} ∧ s' = s)
    ∧ (page = None → is_Some (meta !! "error")).
Proof.
  unfold fetch_html. destruct (validate_url url) eqn:Hv; cbn [negb].
  - unfold try_except, bind, call, ret. cbn [fst snd].
    destruct (browser_fetch url (timeout self) (fst s)) as [[[html m]|[cls msg]] w'].
    + eexists _, _, _. split; [reflexivity|]. split; discriminate.
    + eexists _, _, _. split; [reflexivity|]. split; [discriminate|].
      intros _. rewrite lookup_singleton_eq. eauto.
  - eexists _, _, _. split; [reflexivity|]. split; [auto|].
    intros _. rewrite lookup_singleton_eq. eauto.
Qed.

(** X9. [fetch_html] never raises.  A URL that does not validate is
    answered without the browser being started; a browser failure is turned
    into a missing page and an ["error"] entry holding the message. *)
Theorem fetch_html_never_raises (url : string) (s : St) :
  ∃ page meta s',
    fetch_html self url s = (Ok (page, meta), s')
    ∧ (validate_url url = false →
         page = None ∧ meta = {[ "error" := PyStr "Invalid URL format" ]} ∧ s' = s)
    ∧ (validate_url url = true →
         snd s' = snd s ++ [EvFetch url]
         ∧ match browser_fetch url (timeout self) (fst s) with
           | (Ok (html, m), w') => page = Some html ∧ meta = m ∧ fst s' = w'
           | (Raise (Exn _ msg), w') =>
               page = None ∧ meta = {[ "error" := PyStr msg ]} ∧ fst s' = w'
           end).
Proof.
  unfold fetch_html. destruct (validate_url url) eqn:Hv; cbn [negb].
  - unfold try_except, bind, call, ret. cbn [fst snd].
    destruct (browser_fetch url (timeout self) (fst s)) as [[[html m]|[cls msg]] w'] eqn:Hf.
    + exists (Some html), m, (w', snd s ++ [EvFetch url]).
      split; [reflexivity|]. split; [discriminate|]. intros _. cbn. auto.
    + exists None, {[ "error" := PyStr msg ]}, (w', snd s ++ [EvFetch url]).
      split; [reflexivity|]. split; [discriminate|]. intros _. cbn. auto.
  - exists None, {[ "error" := PyStr "Invalid URL format" ]}, s.
    split; [reflexivity|]. split; [auto|discriminate].
Qed.

(** X10. What [scrape] returns: for a URL that does not validate, a
    failure record with empty text, without any call; in general a record
    marked as failed has empty text and an ["error"] entry, and a record
    marked as successful carries the title the extraction gave under
    ["title"].  The only exceptions that leave [scrape] are those of the
    text extraction. *)
Theorem scrape_shape (url : string) (s : St) :
  (validate_url url = false →
     scrape self url s
     = (Ok (mkScrapeContent false "" {[ "error" := PyStr "Invalid URL format" ]}), s))
  ∧ (∀ c s', scrape self url s = (Ok c, s') →
       if success c
       then ∃ title, scrape_metadata c !! "title" = Some (PyStr title)
       else text c = "" ∧ is_Some (scrape_metadata c !! "error"))
  ∧ (∀ e s', scrape self url s = (Raise e, s') →
       ∃ html w, soup_extract html (skip_tags self) (min_text_length self) w
                 = (Raise e, fst s')).
Proof.
  destruct (fetch_html_result url s) as (page & meta & s1 & Hf & Hbad & Hnone).
  split; [|split].
  - intros Hv. destruct (Hbad Hv) as (-> & -> & ->).
    unfold scrape. now rewrite (bind_Ok _ _ _ _ _ Hf).
  - intros c s'. unfold scrape. rewrite (bind_Ok _ _ _ _ _ Hf). cbn [fst snd].
    destruct page as [html|].
    + intros Hrun. apply bind_Ok_inv in Hrun as ([t title] & s2 & _ & Hrun).
      unfold ret in Hrun. injection Hrun as <- _. cbn [success scrape_metadata snd].
      exists title. apply lookup_insert_eq.
    + unfold ret. intros [= <- _]. cbn [success text scrape_metadata].
      split; [reflexivity|]. now apply Hnone.
  - intros e s'. unfold scrape. rewrite (bind_Ok _ _ _ _ _ Hf). cbn [fst snd].
    destruct page as [html|]; [|discriminate].
    unfold bind, extract_text_from_html, call. cbn [fst snd].
    destruct (soup_extract html (skip_tags self) (min_text_length self) (fst s1))
      as [[r|e'] w'] eqn:Hs; [discriminate|].
    intros [= <- <-]. cbn [fst]. eauto.
Qed.
End ScraperFacts.

(** *** [WebContext]: ingestion and a query with matches *)

Section WebContextIngest.
Context `{Env}.

Lemma scrape_page (url : string) (w w1 w2 : World) (tr : list Event)
    (html : Html) (meta : gmap string PyVal) (t title : string) :
  validate_url url = true →
  browser_fetch url (timeout WebScraper_default) w = (Ok (html, meta), w1) →
  soup_extract html (skip_tags WebScraper_default)
    (min_text_length WebScraper_default) w1 = (Ok (t, title), w2) →
  scrape WebScraper_default url (w, tr)
  = (Ok (mkScrapeContent true t (<[ "title" := PyStr title ]> meta)),
     (w2, tr ++ [EvFetch url; EvSoup html])).
Proof.
  intros Hv Hf Hs. unfold scrape, fetch_html. rewrite Hv. cbn [negb].
  unfold bind at 1, try_except, bind at 1.
  rewrite (call_Ok _ _ _ _ _ _ Hf). unfold ret at 1. cbn [fst snd].
  unfold extract_text_from_html.
  rewrite (bind_Ok _ _ _ _ _ (call_Ok _ _ _ _ _ _ Hs)).
  unfold ret. cbn [fst snd]. now rewrite <- app_assoc.
Qed.

Lemma add_documents_accepted (vs : DocumentVectorizer) (documents : list Document)
    (w w1 w2 : World) (tr : list Event) (idss : list (list string)) :
  0 < batch_size vs →
  let chunks := splitter_split_documents (chunk_size vs) (chunk_overlap vs) documents in
  store_accepts (db vs) w (batch_plan vs chunks) idss w1 →
  chroma_persist (db vs) w1 = (Ok tt, w2) →
  add_documents vs documents (w, tr)
  = (Ok (concat idss),
     (w2, tr ++ EvSplit documents
             :: map (EvAddDocuments (db vs)) (batch_plan vs chunks)
             ++ [EvPersist (db vs)])).
Proof.
  intros Hb chunks Hacc Hp.
  assert (add_documents vs documents (w, tr)
          = bind (_add_documents_in_batches vs chunks)
                 (λ ids, bind (db_persist vs) (λ _, ret ids))
                 (w, tr ++ [EvSplit documents])) as -> by reflexivity.
  rewrite (bind_Ok _ _ _ _ _ (add_in_batches_accepts vs chunks _ _ _ _ Hb Hacc)).
  unfold db_persist. rewrite (bind_Ok _ _ _ _ _ (call_Ok _ _ _ _ _ _ Hp)).
  unfold ret. now rewrite <- !app_assoc.
Qed.

Lemma vectorize_and_store_accepted (vs : DocumentVectorizer) (content : ScrapeContent)
    (w w1 w2 : World) (tr : list Event) (idss : list (list string)) :
  0 < batch_size vs →
  truthy_str (text content) = true →
  let doc := mkDocument (text content) ∅ in
  let chunks := splitter_split_documents (chunk_size vs) (chunk_overlap vs) [doc] in
  let rechunked := splitter_split_documents (chunk_size vs) (chunk_overlap vs) chunks in
  store_accepts (db vs) w (batch_plan vs rechunked) idss w1 →
  chroma_persist (db vs) w1 = (Ok tt, w2) →
  vectorize_and_store vs (Some content) (w, tr)
  = (Ok tt,
     (w2, tr ++ [EvSplit [doc]; EvSplit chunks]
             ++ map (EvAddDocuments (db vs)) (batch_plan vs rechunked)
             ++ [EvPersist (db vs)])).
Proof.
  intros Hb Ht doc chunks rechunked Hacc Hp. unfold vectorize_and_store.
  cbn [truthy_opt negb orb fmap option_map option_fmap from_option id].
  rewrite Ht. cbn [negb].
  assert (process_text vs (text content) None (w, tr)
          = (Ok chunks, (w, tr ++ [EvSplit [doc]]))) as Hproc by reflexivity.
  rewrite (bind_Ok _ _ _ _ _ Hproc).
  rewrite (bind_Ok _ _ _ _ _ (add_documents_accepted vs chunks _ _ _ _ _ Hb Hacc Hp)).
  unfold ret. now rewrite <- !app_assoc.
Qed.

(** X11. A constructor call that ingests (the cache directory is missing or
    empty, or a refresh is forced): it makes the directory, opens the store
    there, fetches the page and extracts its text, and then the text goes
    through the splitter twice, once in [process_text] and once more, chunk
    by chunk, in [add_documents]; what the second split gives is sent to the
    store at the cache directory in batches, and the store is flushed.  A
    forced refresh adds to whatever the store at that directory holds. *)
Theorem WebContext_init_ingests (url model base : string) (force db_exists : bool)
    (s s1 : St) (w2 w3 w4 w5 w6 w7 : World)
    (html : Html) (meta : gmap string PyVal) (t title : string)
    (idss : list (list string)) :
  let path := cache_dir base url in
  let doc := mkDocument t ∅ in
  let chunks := splitter_split_documents 500 200 [doc] in
  let rechunked := splitter_split_documents 500 200 chunks in
  let plan := batch_plan (default_vectorizer path) rechunked in
  db_exists_check path s = (Ok db_exists, s1) →
  force || negb db_exists = true →
  os_makedirs path (fst s1) = (Ok tt, w2) →
  chroma_open path "document_collection" w2 = (Ok tt, w3) →
  validate_url url = true →
  browser_fetch url 30000 w3 = (Ok (html, meta), w4) →
  soup_extract html (skip_tags WebScraper_default) 20 w4 = (Ok (t, title), w5) →
  truthy_str t = true →
  store_accepts path w5 plan idss w6 →
  chroma_persist path w6 = (Ok tt, w7) →
  WebContext_init url model base force s
  = (Ok (mkWebContext url model WebScraper_default (db_hash_of url) path
           (default_vectorizer path)
           (Some (mkScrapeContent true t (<[ "title" := PyStr title ]> meta)))),
     (w7, snd s1
          ++ [EvMakedirs path; EvChromaOpen path "document_collection";
              EvFetch url; EvSoup html; EvSplit [doc]; EvSplit chunks]
          ++ map (EvAddDocuments path) plan ++ [EvPersist path])).
Proof.
  intros path doc chunks rechunked plan Hex Hmiss Hmk Hopen Hv Hf Hs Ht Hacc Hp.
  unfold WebContext_init.
  rewrite (bind_Ok _ _ _ _ _ (proj1 (web_context_names_bound _))).
  do 2 rewrite (bind_Ok _ _ _ _ _ (proj2 (web_context_names_bound _))).
  fold (cache_dir base url). fold path.
  rewrite (bind_Ok _ _ _ _ _ Hex). destruct s1 as [w1 tr1]. cbn [fst snd] in *.
  rewrite (bind_Ok _ _ _ _ _ (DocumentVectorizer_default_opens _ _ _ _ _ Hmk Hopen)).
  rewrite Hmiss.
  rewrite (bind_Ok _ _ _ _ _ (scrape_page _ _ _ _ _ _ _ _ _ Hv Hf Hs)).
  rewrite (bind_Ok _ _ _ _ _
             (vectorize_and_store_accepted (default_vectorizer path)
                (mkScrapeContent true t (<[ "title" := PyStr title ]> meta))
                _ _ _ _ _ eq_refl Ht Hacc Hp)).
  unfold ret. f_equal. f_equal.
  cbn [db default_vectorizer]. fold doc chunks rechunked plan.
  now rewrite <- !app_assoc.
Qed.

(** X12. A URL that does not validate, on a cache miss or a forced
    refresh: the constructor still makes the cache directory and opens a
    store there, then raises its [ValueError] without the browser having
    been started. *)
Theorem WebContext_init_invalid_url (url model base : string) (force db_exists : bool)
    (s s1 : St) (w2 w3 : World) :
  let path := cache_dir base url in
  db_exists_check path s = (Ok db_exists, s1) →
  force || negb db_exists = true →
  os_makedirs path (fst s1) = (Ok tt, w2) →
  chroma_open path "document_collection" w2 = (Ok tt, w3) →
  validate_url url = false →
  WebContext_init url model base force s
  = (Raise (ValueError "No content available to vectorize."),
     (w3, snd s1 ++ [EvMakedirs path; EvChromaOpen path "document_collection"])).
Proof.
  intros path Hex Hmiss Hmk Hopen Hv. destruct s1 as [w1 tr1]. cbn [fst snd] in *.
  pose proof (DocumentVectorizer_default_opens _ _ _ _ tr1 Hmk Hopen) as Hvs.
  assert (scrape WebScraper_default url
            (w3, tr1 ++ [EvMakedirs path; EvChromaOpen path "document_collection"])
          = (Ok (mkScrapeContent false "" {[ "error" := PyStr "Invalid URL format" ]}),
             (w3, tr1 ++ [EvMakedirs path; EvChromaOpen path "document_collection"])))
    as Hscrape.
  { unfold scrape, fetch_html. now rewrite Hv. }
  exact (proj1 (WebContext_init_empty_text url model base force s _ _ _ db_exists _ _
                  Hex Hvs Hmiss Hscrape eq_refl)).
Qed.
End WebContextIngest.

Section AskFacts.
Context `{Env}.

End AskFacts.

(** *** White space in code-point text *)

Lemma linebreak_is_space (c : Z) : py_islinebreak c = true → py_isspace c = true.
Proof.
  unfold py_islinebreak, py_isspace.
  rewrite !orb_true_iff, !andb_true_iff, !Z.leb_le, !Z.eqb_eq. lia.
Qed.

Lemma space_32 : py_isspace 32 = true.
Proof. reflexivity. Qed.

Lemma line_feed_is_space : py_isspace 10 = true.
Proof. reflexivity. Qed.

(** **** [strip] *)

Lemma u_lstrip_starts_solid (t : list Z) : starts_solid (u_lstrip t).
Proof.
  induction t as [|c r IH]; [exact I|].
  cbn [u_lstrip]. destruct (py_isspace c) eqn:Hc; [exact IH|exact Hc].
Qed.

Lemma u_lstrip_id (t : list Z) : starts_solid t → u_lstrip t = t.
Proof. destruct t as [|c r]; [reflexivity|]. cbn. now intros ->. Qed.

Lemma u_lstrip_single_spaced (t : list Z) : single_spaced t → single_spaced (u_lstrip t).
Proof.
  induction t as [|c r IH]; [auto|]. intros Hs. cbn [u_lstrip].
  destruct (py_isspace c); [apply IH, Hs|exact Hs].
Qed.

Lemma u_rstrip_cons (c : Z) (r : list Z) :
  u_rstrip (c :: r)
  = match u_rstrip r with
    | [] => if py_isspace c then [] else [c]
    | kept => c :: kept
    end.
Proof. reflexivity. Qed.

(** What is kept of a text begins like the text. *)
Lemma u_rstrip_head (t : list Z) (d : Z) (k : list Z) :
  u_rstrip t = d :: k → ∃ r, t = d :: r.
Proof.
  destruct t as [|c r]; [discriminate|]. rewrite u_rstrip_cons.
  destruct (u_rstrip r); [destruct (py_isspace c)|]; intros [= <- _]; eauto.
Qed.

Lemma u_rstrip_ends_solid (t : list Z) : ends_solid (u_rstrip t).
Proof.
  induction t as [|c r IH]; [exact I|]. rewrite u_rstrip_cons.
  destruct (u_rstrip r) as [|d k] eqn:Hk.
  - destruct (py_isspace c) eqn:Hc; [exact I|exact Hc].
  - exact IH.
Qed.

Lemma u_rstrip_starts_solid (t : list Z) : starts_solid t → starts_solid (u_rstrip t).
Proof.
  destruct t as [|c r]; [auto|]. rewrite u_rstrip_cons. cbn [starts_solid]. intros Hc.
  destruct (u_rstrip r); [now rewrite Hc|exact Hc].
Qed.

Lemma u_rstrip_id (t : list Z) : ends_solid t → u_rstrip t = t.
Proof.
  induction t as [|c r IH]; [reflexivity|]. intros He. rewrite u_rstrip_cons.
  destruct r as [|d r'].
  - cbn in He |- *. now rewrite He.
  - rewrite (IH He). reflexivity.
Qed.

Lemma u_rstrip_single_spaced (t : list Z) : single_spaced t → single_spaced (u_rstrip t).
Proof.
  induction t as [|c r IH]; [auto|]. intros [Hc Hr]. rewrite u_rstrip_cons.
  destruct (u_rstrip r) as [|d k] eqn:Hk.
  - destruct (py_isspace c) eqn:Hsp; [exact I|]. cbn [single_spaced].
    split; [rewrite Hsp; discriminate|exact I].
  - cbn [single_spaced]. split; [|apply IH, Hr]. intros Hsp. destruct (Hc Hsp) as [-> Hnext].
    split; [reflexivity|]. apply u_rstrip_head in Hk as [r' ->]. exact Hnext.
Qed.

Lemma u_strip_id (t : list Z) : starts_solid t → ends_solid t → u_strip t = t.
Proof.
  intros Hs He. unfold u_strip. rewrite (u_lstrip_id t Hs). now apply u_rstrip_id.
Qed.

Lemma u_strip_ends (t : list Z) : starts_solid (u_strip t) ∧ ends_solid (u_strip t).
Proof.
  unfold u_strip. split.
  - apply u_rstrip_starts_solid, u_lstrip_starts_solid.
  - apply u_rstrip_ends_solid.
Qed.

(** **** The characters that are not white space *)

Lemma solid_chars_app (t u : list Z) :
  solid_chars (t ++ u) = solid_chars t ++ solid_chars u.
Proof. unfold solid_chars. apply Stdlib.Lists.List.filter_app. Qed.

Lemma solid_chars_lstrip (t : list Z) : solid_chars (u_lstrip t) = solid_chars t.
Proof.
  induction t as [|c r IH]; [reflexivity|]. cbn [u_lstrip].
  destruct (py_isspace c) eqn:Hc; [|reflexivity].
  rewrite IH. unfold solid_chars. cbn [List.filter]. now rewrite Hc.
Qed.

Lemma solid_chars_rstrip (t : list Z) : solid_chars (u_rstrip t) = solid_chars t.
Proof.
  induction t as [|c r IH]; [reflexivity|]. rewrite u_rstrip_cons.
  unfold solid_chars in *. cbn [List.filter]. rewrite <- IH.
  destruct (u_rstrip r) as [|d k]; [|reflexivity].
  destruct (py_isspace c) eqn:Hc; cbn [List.filter negb]; now rewrite ?Hc.
Qed.

Lemma solid_chars_strip (t : list Z) : solid_chars (u_strip t) = solid_chars t.
Proof. unfold u_strip. now rewrite solid_chars_rstrip, solid_chars_lstrip. Qed.

(** A text that does not begin with white space and has no other
    characters is empty. *)
Lemma starts_solid_no_chars (t : list Z) :
  starts_solid t → solid_chars t = [] → t = [].
Proof.
  destruct t as [|c r]; [reflexivity|]. cbn. intros ->. discriminate.
Qed.

(** **** Collapsing runs of white space *)

Lemma collapse_starts_solid (t : list Z) : starts_solid (collapse_spaces t true).
Proof.
  induction t as [|c r IH]; [exact I|]. cbn [collapse_spaces].
  destruct (py_isspace c) eqn:Hc; [exact IH|exact Hc].
Qed.

Lemma collapse_single_spaced (t : list Z) :
  ∀ b, single_spaced (collapse_spaces t b).
Proof.
  induction t as [|c r IH]; intros b; [exact I|]. cbn [collapse_spaces].
  destruct (py_isspace c) eqn:Hc.
  - destruct b; [apply IH|]. split; [|apply IH]. intros _. split; [reflexivity|].
    pose proof (collapse_starts_solid r) as Hs.
    now destruct (collapse_spaces r true).
  - split; [|apply IH]. rewrite Hc. discriminate.
Qed.

Lemma collapse_id (t : list Z) :
  ∀ b, single_spaced t → (b = true → starts_solid t) → collapse_spaces t b = t.
Proof.
  induction t as [|c r IH]; intros b Hs Hb; [reflexivity|].
  destruct Hs as [Hc Hr].
  cbn [collapse_spaces]. destruct (py_isspace c) eqn:Hsp.
  - destruct b; [specialize (Hb eq_refl); cbn in Hb; congruence|].
    destruct (Hc eq_refl) as [-> Hnext]. f_equal. apply IH; [exact Hr|].
    intros _. now destruct r.
  - f_equal. apply IH; [exact Hr|discriminate].
Qed.

Lemma solid_chars_collapse (t : list Z) :
  ∀ b, solid_chars (collapse_spaces t b) = solid_chars t.
Proof.
  induction t as [|c r IH]; intros b; [reflexivity|]. cbn [collapse_spaces].
  unfold solid_chars in *. cbn [List.filter].
  destruct (py_isspace c) eqn:Hc; cbn [negb].
  - destruct b; [apply IH|]. cbn [List.filter]. rewrite space_32. cbn [negb]. apply IH.
  - cbn [List.filter]. rewrite Hc. cbn [negb]. f_equal. apply IH.
Qed.

Lemma single_spaced_spaces (t : list Z) :
  single_spaced t → Forall (λ c, py_isspace c = true → c = 32) t.
Proof.
  induction t as [|c r IH]; [constructor|]. intros [Hc Hr].
  constructor; [|apply IH, Hr]. intros Hsp. now destruct (Hc Hsp).
Qed.

(** A text in the shape [clean_text] aims at is left as it is. *)
Lemma clean_text_fixed (t : list Z) :
  single_spaced t → starts_solid t → ends_solid t → clean_text t = t.
Proof.
  intros Hs Hb He. unfold clean_text.
  rewrite (collapse_id t false Hs) by discriminate. now apply u_strip_id.
Qed.

Lemma clean_text_shaped (t : list Z) :
  single_spaced (clean_text t) ∧ starts_solid (clean_text t)
  ∧ ends_solid (clean_text t).
Proof.
  unfold clean_text. split; [|apply u_strip_ends].
  unfold u_strip. apply u_rstrip_single_spaced, u_lstrip_single_spaced,
    collapse_single_spaced.
Qed.

(** X14. [clean_text] brings a text into one shape: the only white space
    left is the single space, never two in a row, never first or last.  It
    changes nothing but white space (the other characters are kept, in
    order), and a text already in that shape is returned as it is, so
    cleaning twice is cleaning once. *)
Theorem clean_text_normal_form (t : list Z) :
  (single_spaced (clean_text t) ∧ starts_solid (clean_text t)
   ∧ ends_solid (clean_text t))
  ∧ solid_chars (clean_text t) = solid_chars t
  ∧ clean_text (clean_text t) = clean_text t
  ∧ (single_spaced t → starts_solid t → ends_solid t → clean_text t = t).
Proof.
  pose proof (clean_text_shaped t) as Hshape.
  split; [exact Hshape|]. split; [|split; [|apply clean_text_fixed]].
  - unfold clean_text. now rewrite solid_chars_strip, solid_chars_collapse.
  - destruct Hshape as (Hs & Hb & He). now apply clean_text_fixed.
Qed.

(** *** [extract_text_from_html] *)

Lemma clean_text_no_line_feed (t : list Z) : ¬ In 10 (clean_text t).
Proof.
  destruct (clean_text_shaped t) as (Hs & _ & _).
  apply single_spaced_spaces in Hs. rewrite List.Forall_forall in Hs.
  intros Hin. specialize (Hs 10 Hin line_feed_is_space). discriminate.
Qed.

(** Without a line feed there is nothing to split at. *)
Lemma re_split_go_no_line_feed (t : list Z) :
  ∀ cur, ¬ In 10 t → re_split_go t 0 cur = [cur ++ t].
Proof.
  induction t as [|c r IH]; intros cur Hno.
  - cbn. now rewrite app_nil_r.
  - cbn [re_split_go blank_line_match].
    destruct (Z.eqb_spec c 10) as [->|_]; [exfalso; apply Hno; now left|].
    rewrite IH by (intros ?; apply Hno; now right).
    now rewrite <- app_assoc.
Qed.

(** X15. What [extract_text_from_html] makes of a parsed page.  The blocks
    are the cleaned element texts of at least [min_text_length] characters,
    joined by blank lines.  When there is none, the fallback cleans the text
    of the whole page first, and a cleaned text has no line feed left for
    [re.split] to find: the result is the whole cleaned page when it is
    long enough and the empty text otherwise, never several blocks.  The
    title is trimmed; a title tag without a string makes the method raise
    [AttributeError]. *)
Theorem extract_text_from_soup_blocks (min_length : Z) (soup : Soup) :
  let blocks :=
    List.filter (λ t, min_length <=? u_len t) (map clean_text (soup_elements soup)) in
  let page := clean_text (soup_text soup) in
  let body :=
    match blocks with
    | [] => if min_length <=? u_len page then page else []
    | _ => u_join line_feeds blocks
    end in
  extract_text_from_soup min_length soup
  = match soup_title soup with
    | NoTitle => Ok (body, [])
    | TitleString s => Ok (body, u_strip s)
    | TitleWithoutString =>
        Raise (Exn "AttributeError" "'NoneType' object has no attribute 'strip'")
    end
  ∧ Forall (λ b, min_length ≤ u_len b ∧ clean_text b = b) blocks.
Proof.
  intros blocks page body. split.
  - unfold extract_text_from_soup. fold blocks. fold page.
    assert (match blocks with
            | [] => map u_strip
                      (List.filter (λ block, min_length <=? u_len (u_strip block))
                                   (re_split_blank_lines page))
            | _ => blocks
            end
            = match blocks with
              | [] => if min_length <=? u_len page then [page] else []
              | _ => blocks
              end) as Hfall.
    { destruct blocks; [|reflexivity].
      unfold re_split_blank_lines.
      rewrite re_split_go_no_line_feed by apply clean_text_no_line_feed.
      cbn [app List.filter].
      destruct (clean_text_shaped (soup_text soup)) as (_ & Hb & He).
      fold page in Hb, He. rewrite (u_strip_id page Hb He).
      destruct (min_length <=? u_len page); [|reflexivity].
      cbn [map]. now rewrite (u_strip_id page Hb He). }
    assert (u_join line_feeds
              (if negb (truthy_list blocks)
               then map u_strip
                      (List.filter (λ block, min_length <=? u_len (u_strip block))
                                   (re_split_blank_lines page))
               else blocks) = body) as ->.
    { unfold body. destruct blocks as [|b bs]; cbn [truthy_list negb].
      - cbn [truthy_list negb] in Hfall. rewrite Hfall.
        now destruct (min_length <=? u_len page).
      - reflexivity. }
    reflexivity.
  - unfold blocks. apply List.Forall_forall. intros b Hin.
    apply filter_In in Hin as [Hin Hlen]. apply Z.leb_le in Hlen.
    apply in_map_iff in Hin as (e & <- & _). split; [exact Hlen|].
    destruct (clean_text_shaped e) as (Hs & Hb & He). now apply clean_text_fixed.
Qed.

(** *** [_normalize_text] *)

Lemma u_join_cons (sep p : list Z) (ps : list (list Z)) :
  ps ≠ [] → u_join sep (p :: ps) = p ++ sep ++ u_join sep ps.
Proof. now destruct ps. Qed.

Lemma solid_chars_join (sep : list Z) (parts : list (list Z)) :
  solid_chars sep = [] →
  solid_chars (u_join sep parts) = concat (map solid_chars parts).
Proof.
  intros Hsep. induction parts as [|p ps IH]; [reflexivity|].
  destruct ps as [|q ps].
  - cbn. now rewrite app_nil_r.
  - rewrite u_join_cons by discriminate.
    rewrite !solid_chars_app, Hsep, IH. reflexivity.
Qed.

Lemma ends_solid_app (t u : list Z) : u ≠ [] → ends_solid u → ends_solid (t ++ u).
Proof.
  intros Hne He. induction t as [|c r IH]; [exact He|].
  cbn [app ends_solid]. destruct (r ++ u) eqn:Hru; [|exact IH].
  apply app_eq_nil in Hru as [_ ->]. contradiction.
Qed.

(** A join of solid lines by a separator without line boundary is solid. *)
Lemma solid_join (sep : list Z) (parts : list (list Z)) :
  Forall (λ c, py_islinebreak c = false) sep →
  parts ≠ [] → Forall solid parts → solid (u_join sep parts).
Proof.
  intros Hsep Hne Hall. induction parts as [|p ps IH]; [contradiction|].
  apply Forall_cons in Hall as [Hp Hps]. destruct ps as [|q ps]; [exact Hp|].
  rewrite u_join_cons by discriminate.
  destruct (IH ltac:(discriminate) Hps) as (Hjne & _ & Hje & Hjlb).
  destruct Hp as (Hpne & Hps' & _ & Hplb).
  repeat split.
  - destruct p; [contradiction|discriminate].
  - destruct p; [contradiction|exact Hps'].
  - apply ends_solid_app.
    + intros Heq. apply app_eq_nil in Heq as [_ Heq]. contradiction.
    + apply ends_solid_app; assumption.
  - repeat (apply Forall_app; split); assumption.
Qed.

(** Trimming a line that is not blank gives a solid line. *)
Lemma solid_strip (line : list Z) :
  Forall (λ c, py_islinebreak c = false) line →
  u_strip line ≠ [] → solid (u_strip line).
Proof.
  intros Hlb Hne. destruct (u_strip_ends line) as [Hs He].
  repeat split; try assumption.
  apply List.Forall_forall. intros c Hin.
  rewrite List.Forall_forall in Hlb. apply Hlb.
  assert (∀ u, In c (u_rstrip u) → In c u) as Hr.
  { induction u as [|d r IH]; [auto|]. rewrite u_rstrip_cons.
    destruct (u_rstrip r) as [|d' k].
    - destruct (py_isspace d); [intros []|]. intros [->|[]]. now left.
    - intros [->|Hin']; [now left|right; now apply IH]. }
  assert (∀ u, In c (u_lstrip u) → In c u) as Hl.
  { induction u as [|d r IH]; [auto|]. cbn [u_lstrip].
    destruct (py_isspace d); [intros Hin'; right; now apply IH|auto]. }
  apply Hl, Hr, Hin.
Qed.

Lemma solid_strip_id (p : list Z) : solid p → u_strip p = p.
Proof. intros (_ & Hs & He & _). now apply u_strip_id. Qed.

(** **** [splitlines] *)

Lemma splitlines_go_solid_prefix (p : list Z) :
  Forall (λ c, py_islinebreak c = false) p →
  ∀ t cur, splitlines_go (p ++ t) cur = splitlines_go t (cur ++ p).
Proof.
  induction 1 as [|c p Hc Hp IH]; intros t cur.
  - now rewrite app_nil_r.
  - cbn [app splitlines_go]. rewrite Hc, IH. now rewrite <- app_assoc.
Qed.

(** Lines hold no line boundary, and the characters that are not white
    space are those of the text. *)
Lemma splitlines_go_lines (n : nat) :
  ∀ t cur, (length t ≤ n)%nat →
    Forall (λ c, py_islinebreak c = false) cur →
    Forall (Forall (λ c, py_islinebreak c = false)) (splitlines_go t cur)
    ∧ concat (map solid_chars (splitlines_go t cur))
      = solid_chars cur ++ solid_chars t.
Proof.
  induction n as [|n IH]; intros t cur Hlen Hcur.
  - destruct t; [|cbn in Hlen; lia]. cbn [splitlines_go].
    destruct cur; cbn; rewrite ?app_nil_r; split; auto.
  - destruct t as [|c r].
    + cbn [splitlines_go]. destruct cur; cbn; rewrite ?app_nil_r; split; auto.
    + cbn [length] in Hlen. cbn [splitlines_go].
      destruct (py_islinebreak c) eqn:Hc.
      * assert (solid_chars (c :: r) = solid_chars r) as Hcr.
        { unfold solid_chars. cbn [List.filter].
          now rewrite (linebreak_is_space c Hc). }
        rewrite Hcr.
        assert (∀ rest, (length rest ≤ n)%nat → solid_chars rest = solid_chars r →
                  Forall (Forall (λ c0, py_islinebreak c0 = false))
                         (cur :: splitlines_go rest [])
                  ∧ concat (map solid_chars (cur :: splitlines_go rest []))
                    = solid_chars cur ++ solid_chars r) as Hrest.
        { intros rest Hl Hsame.
          destruct (IH rest [] Hl ltac:(constructor)) as [H1 H2].
          split; [now constructor|]. cbn [map concat]. now rewrite H2, Hsame. }
        destruct r as [|d r'].
        -- apply (Hrest []); [cbn; lia|reflexivity].
        -- destruct ((c =? 13) && (d =? 10)) eqn:Hcrlf.
           ++ apply Hrest; [cbn [length] in Hlen; lia|].
              apply andb_true_iff in Hcrlf as [_ Hd]. apply Z.eqb_eq in Hd. subst d.
              unfold solid_chars. cbn [List.filter]. now rewrite line_feed_is_space.
           ++ apply Hrest; [lia|reflexivity].
      * destruct (IH r (cur ++ [c]) ltac:(lia)) as [H1 H2].
        { apply Forall_app. split; [exact Hcur|]. now repeat constructor. }
        split; [exact H1|]. rewrite H2, solid_chars_app, <- app_assoc.
        change (c :: r) with ([c] ++ r). now rewrite (solid_chars_app [c] r).
Qed.

Lemma u_splitlines_lines (t : list Z) :
  Forall (Forall (λ c, py_islinebreak c = false)) (u_splitlines t)
  ∧ concat (map solid_chars (u_splitlines t)) = solid_chars t.
Proof.
  exact (splitlines_go_lines (length t) t [] (le_n _) ltac:(constructor)).
Qed.

Lemma splitlines_go_line_feed (r cur : list Z) :
  splitlines_go (10 :: r) cur = cur :: splitlines_go r [].
Proof. now destruct r. Qed.

(** The lines of solid paragraphs joined by blank lines. *)
Lemma u_splitlines_join (paragraphs : list (list Z)) :
  Forall solid paragraphs →
  u_splitlines (u_join line_feeds paragraphs) = with_blank_lines paragraphs.
Proof.
  unfold u_splitlines. induction 1 as [|p ps Hp Hps IH]; [reflexivity|].
  destruct Hp as (Hne & _ & _ & Hlb). destruct ps as [|q ps].
  - cbn [u_join with_blank_lines].
    rewrite <- (app_nil_r p) at 1. rewrite splitlines_go_solid_prefix by assumption.
    cbn. now destruct p.
  - rewrite u_join_cons by discriminate.
    rewrite splitlines_go_solid_prefix by assumption.
    change (line_feeds ++ u_join line_feeds (q :: ps))
      with (10 :: 10 :: u_join line_feeds (q :: ps)).
    rewrite !splitlines_go_line_feed, IH. reflexivity.
Qed.

(** **** The loop over the lines *)

Lemma join_trimmed (sep : list Z) (parts : list (list Z)) :
  parts ≠ [] → Forall solid parts →
  u_join sep parts ≠ [] ∧ starts_solid (u_join sep parts) ∧ ends_solid (u_join sep parts).
Proof.
  intros Hne Hall. induction parts as [|p ps IH]; [contradiction|].
  apply Forall_cons in Hall as [Hp Hps]. destruct Hp as (Hpne & Hps' & Hpe & _).
  destruct ps as [|q ps]; [now repeat split|].
  rewrite u_join_cons by discriminate.
  destruct (IH ltac:(discriminate) Hps) as (Hjne & _ & Hje).
  repeat split.
  - destruct p; [contradiction|discriminate].
  - destruct p; [contradiction|exact Hps'].
  - apply ends_solid_app.
    + intros Heq. apply app_eq_nil in Heq as [_ Heq]. contradiction.
    + apply ends_solid_app; assumption.
Qed.

Lemma normalize_line_keeps (st : list (list Z) * list (list Z)) (line : list Z) :
  Forall (λ c, py_islinebreak c = false) line →
  Forall solid (fst st) → Forall solid (snd st) →
  let st' := normalize_line st line in
  Forall solid (fst st') ∧ Forall solid (snd st')
  ∧ concat (map solid_chars (fst st')) ++ concat (map solid_chars (snd st'))
    = (concat (map solid_chars (fst st)) ++ concat (map solid_chars (snd st)))
      ++ solid_chars line.
Proof.
  destruct st as [ps cur]. cbn [fst snd]. intros Hline Hps Hcur.
  unfold normalize_line.
  pose proof (solid_chars_strip line) as Hchars.
  pose proof (solid_strip line Hline) as Hsolid.
  destruct (u_strip line) as [|c r] eqn:Hstrip.
  - cbn in Hchars. rewrite <- Hchars, app_nil_r.
    destruct cur as [|l ls]; cbn [fst snd]; [now repeat split|].
    repeat split; [|constructor|].
    + apply Forall_app. split; [exact Hps|]. constructor; [|constructor].
      apply solid_join; [now repeat constructor|discriminate|exact Hcur].
    + rewrite map_app, concat_app. cbn [map concat].
      rewrite (solid_chars_join [32] (l :: ls) eq_refl), !app_nil_r. reflexivity.
  - cbn [fst snd]. repeat split; [exact Hps| |].
    + apply Forall_app. split; [exact Hcur|]. constructor; [|constructor].
      now apply Hsolid.
    + rewrite map_app, concat_app. cbn [map concat].
      rewrite app_nil_r, Hchars, <- app_assoc. reflexivity.
Qed.

Lemma normalize_fold_keeps (lines : list (list Z)) :
  Forall (Forall (λ c, py_islinebreak c = false)) lines →
  ∀ st, Forall solid (fst st) → Forall solid (snd st) →
    let st' := fold_left normalize_line lines st in
    Forall solid (fst st') ∧ Forall solid (snd st')
    ∧ concat (map solid_chars (fst st')) ++ concat (map solid_chars (snd st'))
      = (concat (map solid_chars (fst st)) ++ concat (map solid_chars (snd st)))
        ++ concat (map solid_chars lines).
Proof.
  induction 1 as [|line lines Hline Hlines IH]; intros st Hps Hcur.
  - cbn. now rewrite app_nil_r.
  - cbn [fold_left map concat].
    destruct (normalize_line_keeps st line Hline Hps Hcur) as (H1 & H2 & H3).
    destruct (IH _ H1 H2) as (H4 & H5 & H6).
    repeat split; [exact H4|exact H5|]. rewrite H6, H3, <- !app_assoc. reflexivity.
Qed.

Lemma closed_paragraphs_keeps (st : list (list Z) * list (list Z)) :
  Forall solid (fst st) → Forall solid (snd st) →
  Forall solid (closed_paragraphs st)
  ∧ concat (map solid_chars (closed_paragraphs st))
    = concat (map solid_chars (fst st)) ++ concat (map solid_chars (snd st)).
Proof.
  destruct st as [ps cur]. unfold closed_paragraphs. cbn [fst snd].
  intros Hps Hcur. destruct cur as [|l ls].
  - cbn. now rewrite app_nil_r.
  - split.
    + apply Forall_app. split; [exact Hps|]. constructor; [|constructor].
      apply solid_join; [now repeat constructor|discriminate|exact Hcur].
    + rewrite map_app, concat_app. cbn [map concat].
      rewrite (solid_chars_join [32] (l :: ls) eq_refl), !app_nil_r. reflexivity.
Qed.

Lemma _normalize_text_closed (raw_text : list Z) :
  _normalize_text raw_text
  = u_join line_feeds
      (closed_paragraphs (fold_left normalize_line (u_splitlines raw_text) ([], []))).
Proof.
  unfold _normalize_text, closed_paragraphs.
  now destruct (fold_left normalize_line (u_splitlines raw_text) ([], [])) as [ps [|l ls]].
Qed.

(** The paragraphs of the result are solid and hold the text's characters. *)
Lemma _normalize_text_paragraphs (raw_text : list Z) :
  ∃ paragraphs,
    _normalize_text raw_text = u_join line_feeds paragraphs
    ∧ Forall solid paragraphs
    ∧ concat (map solid_chars paragraphs) = solid_chars raw_text.
Proof.
  rewrite _normalize_text_closed.
  destruct (u_splitlines_lines raw_text) as [Hlines Hchars].
  destruct (normalize_fold_keeps _ Hlines ([], []) ltac:(constructor) ltac:(constructor))
    as (H1 & H2 & H3).
  destruct (closed_paragraphs_keeps _ H1 H2) as [H4 H5].
  eexists. split; [reflexivity|]. split; [exact H4|].
  rewrite H5, H3, Hchars. reflexivity.
Qed.

(** Lines that are paragraphs with blank lines between them are collected
    as they are. *)
Lemma normalize_fold_paragraphs (paragraphs : list (list Z)) :
  Forall solid paragraphs →
  ∀ acc, closed_paragraphs
           (fold_left normalize_line (with_blank_lines paragraphs) (acc, []))
         = acc ++ paragraphs.
Proof.
  induction 1 as [|p ps Hp Hps IH]; intros acc.
  - cbn. now rewrite app_nil_r.
  - pose proof (solid_strip_id p Hp) as Hid. destruct Hp as (Hne & _).
    assert (normalize_line (acc, []) p = (acc, [p])) as Hstep.
    { unfold normalize_line. rewrite Hid. now destruct p. }
    destruct ps as [|q ps].
    + cbn [with_blank_lines fold_left]. rewrite Hstep. reflexivity.
    + change (with_blank_lines (p :: q :: ps))
        with (p :: [] :: with_blank_lines (q :: ps)).
      cbn [fold_left]. rewrite Hstep.
      change (normalize_line (acc, [p]) []) with (acc ++ [p], @nil (list Z)).
      rewrite IH, <- app_assoc. reflexivity.
Qed.

Lemma _normalize_text_of_paragraphs (paragraphs : list (list Z)) :
  Forall solid paragraphs →
  _normalize_text (u_join line_feeds paragraphs) = u_join line_feeds paragraphs.
Proof.
  intros Hall. rewrite _normalize_text_closed, (u_splitlines_join _ Hall).
  now rewrite (normalize_fold_paragraphs _ Hall []).
Qed.

Lemma _normalize_text_trimmed (raw_text : list Z) :
  starts_solid (_normalize_text raw_text) ∧ ends_solid (_normalize_text raw_text).
Proof.
  destruct (_normalize_text_paragraphs raw_text) as (ps & -> & Hall & _).
  destruct ps as [|p ps]; [now split|].
  now destruct (join_trimmed line_feeds (p :: ps) ltac:(discriminate) Hall) as (_ & ? & ?).
Qed.

Lemma _normalize_text_chars (raw_text : list Z) :
  solid_chars (_normalize_text raw_text) = solid_chars raw_text.
Proof.
  destruct (_normalize_text_paragraphs raw_text) as (ps & -> & _ & <-).
  now apply solid_chars_join.
Qed.

(** X16. [_normalize_text] changes white space only: the characters that
    are not white space stay, in order.  Its result is a sequence of
    paragraphs put together by one blank line each, no paragraph empty,
    beginning or ending with white space, or holding a line boundary; so
    the result has no white space at either end, is empty exactly for a
    blank text, and normalising it again changes nothing. *)
Theorem _normalize_text_normal_form (raw_text : list Z) :
  let text := _normalize_text raw_text in
  solid_chars text = solid_chars raw_text
  ∧ (∃ paragraphs, text = u_join line_feeds paragraphs ∧ Forall solid paragraphs)
  ∧ u_strip text = text
  ∧ (text = [] ↔ solid_chars raw_text = [])
  ∧ _normalize_text text = text.
Proof.
  cbn zeta. destruct (_normalize_text_trimmed raw_text) as [Hs He].
  split; [apply _normalize_text_chars|].
  split.
  { destruct (_normalize_text_paragraphs raw_text) as (ps & Heq & Hall & _). eauto. }
  split; [now apply u_strip_id|].
  split.
  - split.
    + intros Hnil. now rewrite <- _normalize_text_chars, Hnil.
    + intros Hblank. apply starts_solid_no_chars; [exact Hs|].
      now rewrite _normalize_text_chars.
  - destruct (_normalize_text_paragraphs raw_text) as (ps & -> & Hall & _).
    now apply _normalize_text_of_paragraphs.
Qed.

(** *** [PDFTextExtractor.extract_text] *)

Lemma extract_pages_chars (pages : list (option (list Z))) :
  ∀ text,
    solid_chars (fold_left (λ text page,
                              text ++ _normalize_text (default [] page) ++ line_feeds)
                           pages text)
    = solid_chars text ++ concat (map (λ page, solid_chars (default [] page)) pages).
Proof.
  induction pages as [|page pages IH]; intros text.
  - cbn. now rewrite app_nil_r.
  - cbn [fold_left map concat]. rewrite IH, !solid_chars_app, _normalize_text_chars.
    change (solid_chars line_feeds) with (@nil Z).
    rewrite app_nil_r, <- app_assoc. reflexivity.
Qed.

Lemma concat_nil_Forall {A} (ls : list (list A)) :
  concat ls = [] ↔ Forall (λ l, l = []) ls.
Proof.
  induction ls as [|l ls IH]; cbn [concat].
  - split; [constructor|reflexivity].
  - split.
    + intros Heq. apply app_eq_nil in Heq as [-> Hls]. constructor; [reflexivity|].
      now apply IH.
    + intros Hall. apply Forall_cons in Hall as [-> Hls]. now apply IH.
Qed.

(** X17. The text [extract_text] returns for the pages of a document: the
    characters of the pages that are not white space, page after page (a
    page without text gives none), with no white space at either end; it
    is empty exactly when no page has such a character.  An exception of
    loading or of a page comes out as a plain [Exception]. *)
Theorem extract_text_pages_text (pages : list (option (list Z))) :
  let text := extract_text_pages pages in
  PDFTextExtractor_extract_text (Ok pages) = Ok text
  ∧ solid_chars text = concat (map (λ page, solid_chars (default [] page)) pages)
  ∧ u_strip text = text
  ∧ (text = [] ↔ Forall (λ page, solid_chars (default [] page) = []) pages)
  ∧ ∀ cls msg, ∃ msg',
      PDFTextExtractor_extract_text (Raise (Exn cls msg)) = Raise (Exn "Exception" msg').
Proof.
  cbn zeta. split; [reflexivity|].
  assert (solid_chars (extract_text_pages pages)
          = concat (map (λ page, solid_chars (default [] page)) pages)) as Hchars.
  { unfold extract_text_pages. now rewrite solid_chars_strip, extract_pages_chars. }
  destruct (u_strip_ends (fold_left (λ text page,
              text ++ _normalize_text (default [] page) ++ line_feeds) pages []))
    as [Hs He].
  fold (extract_text_pages pages) in Hs, He.
  split; [exact Hchars|]. split; [now apply u_strip_id|]. split.
  - rewrite <- (Forall_map (λ page, solid_chars (default [] page)) (λ l, l = [])).
    rewrite <- concat_nil_Forall, <- Hchars. split.
    + now intros ->.
    + now apply starts_solid_no_chars.
  - intros cls msg. eexists. reflexivity.
Qed.

(** *** The context builders *)

Section BuilderFacts.
Context `{Env}.

Lemma scrape_invalid (self : WebScraper) (url : string) (s : St) :
  validate_url url = false →
  scrape self url s
  = (Ok (mkScrapeContent false "" {[ "error" := PyStr "Invalid URL format" ]}), s).
Proof. intros Hv. unfold scrape, fetch_html. now rewrite Hv. Qed.

Lemma scrape_unfetched (self : WebScraper) (url : string) (s : St)
    (cls msg : string) (w1 : World) :
  validate_url url = true →
  browser_fetch url (timeout self) (fst s) = (Raise (Exn cls msg), w1) →
  scrape self url s
  = (Ok (mkScrapeContent false "" {[ "error" := PyStr msg ]}),
     (w1, snd s ++ [EvFetch url])).
Proof.
  intros Hv Hf. unfold scrape, fetch_html. rewrite Hv. cbn [negb].
  unfold bind at 1, try_except, bind at 1, call. now rewrite Hf.
Qed.

Lemma scrape_fetched (self : WebScraper) (url : string) (s : St)
    (html : Html) (meta : gmap string PyVal) (t title : string) (w1 w2 : World) :
  validate_url url = true →
  browser_fetch url (timeout self) (fst s) = (Ok (html, meta), w1) →
  soup_extract html (skip_tags self) (min_text_length self) w1 = (Ok (t, title), w2) →
  scrape self url s
  = (Ok (mkScrapeContent true t (<[ "title" := PyStr title ]> meta)),
     (w2, snd s ++ [EvFetch url; EvSoup html])).
Proof.
  intros Hv Hf Hs. unfold scrape, fetch_html. rewrite Hv. cbn [negb].
  unfold bind at 1, try_except, bind at 1, call at 1. rewrite Hf.
  unfold ret at 1. cbn [fst snd]. unfold extract_text_from_html.
  rewrite (bind_Ok _ _ _ _ _ (call_Ok _ _ _ _ _ _ Hs)).
  unfold ret. cbn [fst snd]. now rewrite <- app_assoc.
Qed.

(** X18. [WebContextBuilder.build_context] touches the store only for a
    page with text that is not blank.  A URL that does not validate, or a
    fetch that fails, ends in [None] with the store untouched, and so does
    a page whose text is blank.  Otherwise the text goes to [add_documents]
    as one document whose only metadata is the URL (the title and what
    the fetch reported are dropped), and the ids, or the exception, of
    [add_documents] are the result. *)
Theorem WebContextBuilder_build_context_cases (web_scraper : WebScraper)
    (vectorizer : DocumentVectorizer) (url : string) (s : St) :
  let build := WebContextBuilder_build_context web_scraper vectorizer url in
  (validate_url url = false → build s = (Ok None, s))
  ∧ (validate_url url = true →
       ∀ cls msg w1,
         browser_fetch url (timeout web_scraper) (fst s) = (Raise (Exn cls msg), w1) →
         build s = (Ok None, (w1, snd s ++ [EvFetch url])))
  ∧ (validate_url url = true →
       ∀ html meta t title w1 w2,
         browser_fetch url (timeout web_scraper) (fst s) = (Ok (html, meta), w1) →
         soup_extract html (skip_tags web_scraper) (min_text_length web_scraper) w1
         = (Ok (t, title), w2) →
         let s2 := (w2, snd s ++ [EvFetch url; EvSoup html]) in
         build s
         = if str_blank t then (Ok None, s2)
           else match add_documents vectorizer
                        [mkDocument t {[ "url" := PyStr url ]}] s2 with
                | (Ok ids, s3) => (Ok (Some ids), s3)
                | (Raise e, s3) => (Raise e, s3)
                end).
Proof.
  cbn zeta. unfold WebContextBuilder_build_context. repeat split.
  - intros Hv. now rewrite (bind_Ok _ _ _ _ _ (scrape_invalid _ _ _ Hv)).
  - intros Hv cls msg w1 Hf.
    now rewrite (bind_Ok _ _ _ _ _ (scrape_unfetched _ _ _ _ _ _ Hv Hf)).
  - intros Hv html meta t title w1 w2 Hf Hs.
    rewrite (bind_Ok _ _ _ _ _ (scrape_fetched _ _ _ _ _ _ _ _ _ Hv Hf Hs)).
    cbn [text]. destruct (str_blank t); [reflexivity|].
    cbn [app]. unfold bind.
    now destruct (add_documents vectorizer _ _) as [[ids|e] s3].
Qed.

(** X19. [PDFContextBuilder.build_context] never gets to the PDF or to the
    store: it hands [extract_text] the path, a method that takes no
    argument, so every call ends in that [TypeError], in the state it
    started in. *)
Theorem PDFContextBuilder_build_context_raises (source : string)
    (vectorizer : DocumentVectorizer) (pdf_path : string) (s : St) :
  PDFContextBuilder_build_context source vectorizer pdf_path s
  = (Raise (Exn "TypeError"
       "PDFTextExtractor.extract_text() takes 1 positional argument but 2 were given"),
     s).
Proof. reflexivity. Qed.

(** **** The loop of [ContextBuilder.ingest] *)

Variable llm : string → World → result string * World.

Lemma ingest_step_cases (path content : string) (documents : list Document) (s : St) :
  ∃ s1, snd s1 = snd s
    ∧ (ingest_step llm (path, content) documents s = (Ok documents, s1)
       ∧ (str_blank content = true ∨ ∃ e, llm content (fst s) = (Raise e, fst s1))
       ∨ ∃ summary,
           str_blank content = false
           ∧ llm content (fst s) = (Ok summary, fst s1)
           ∧ ingest_step llm (path, content) documents s
             = (Ok (documents
                    ++ [mkDocument content
                          (<[ "summary" := PyStr summary ]>
                             {[ "file_path" := PyStr path ]})]), s1)).
Proof.
  unfold ingest_step. destruct (str_blank content) eqn:Hb.
  - exists s. split; [reflexivity|]. left. split; [reflexivity|now left].
  - unfold try_except, bind, run_callable, ret.
    destruct (llm content (fst s)) as [[summary|e] w1] eqn:Hl.
    + exists (w1, snd s). split; [reflexivity|]. right. exists summary. auto.
    + exists (w1, snd s). split; [reflexivity|]. left. split; [reflexivity|].
      right. eauto.
Qed.

Lemma ingest_loop (file_map : list (string * string)) :
  ∀ (acc : list Document) (s : St),
    ∃ kept s1,
      for_each file_map acc (ingest_step llm) s = (Ok (acc ++ kept), s1)
      ∧ snd s1 = snd s
      ∧ Forall (summarized file_map) kept
      ∧ sublist (map page_content kept) (map snd file_map)
      ∧ ((∀ content w, ∃ summary w', llm content w = (Ok summary, w')) →
           map page_content kept
           = List.filter (λ content, negb (str_blank content)) (map snd file_map))
      ∧ ((∀ content w, ∃ e w', llm content w = (Raise e, w')) → kept = []).
Proof.
  induction file_map as [|[path content] rest IH]; intros acc s.
  - exists [], s. cbn. rewrite app_nil_r. repeat split; auto; constructor.
  - cbn [for_each].
    destruct (ingest_step_cases path content acc s) as (s1 & Htr & Hcase).
    assert (∀ kept, Forall (summarized rest) kept →
              Forall (summarized ((path, content) :: rest)) kept) as Hweaken.
    { intros kept Hk. eapply Forall_impl; [exact Hk|]. intros d (p & sm & Hin & Hd).
      exists p, sm. split; [now right|exact Hd]. }
    destruct Hcase as [[Hstep Hwhy]|(summary & Hb & Hl & Hstep)].
    + destruct (IH acc s1) as (kept & s2 & Hrun & Htr2 & Hall & Hsub & Hfull & Hnone).
      exists kept, s2. rewrite (bind_Ok _ _ _ _ _ Hstep).
      split; [exact Hrun|]. split; [congruence|]. split; [now apply Hweaken|].
      split; [now apply sublist_cons_r; left|]. split; [|exact Hnone].
      intros Hok. cbn [map snd List.filter].
      destruct Hwhy as [Hb|[e He]].
      * rewrite Hb. cbn [negb]. now apply Hfull.
      * destruct (Hok content (fst s)) as (sm & w' & Hsm). congruence.
    + destruct (IH (acc ++ [mkDocument content
                   (<[ "summary" := PyStr summary ]> {[ "file_path" := PyStr path ]})]) s1)
        as (kept & s2 & Hrun & Htr2 & Hall & Hsub & Hfull & Hnone).
      eexists (_ :: kept), s2. rewrite (bind_Ok _ _ _ _ _ Hstep).
      split; [rewrite Hrun, <- app_assoc; reflexivity|]. split; [congruence|].
      split.
      { constructor; [|now apply Hweaken]. exists path, summary.
        cbn [page_content metadata]. split; [now left|auto]. }
      split; [cbn [map snd page_content]; now apply sublist_skip|].
      split.
      * intros Hok. cbn [map snd page_content List.filter]. rewrite Hb. cbn [negb].
        f_equal. now apply Hfull.
      * intros Hbad. destruct (Hbad content (fst s)) as (e & w' & He). congruence.
Qed.

(** X20. The loop of [ContextBuilder.ingest] never raises and calls none
    of the program's collaborators; whatever the summarizer does, the
    documents it hands to [add_documents] come from files whose text is not
    blank, in the order of the file map and at most one per file, each
    with the file's text as it is and the two metadata entries
    ["file_path"] and ["summary"].  With a summarizer that never fails,
    these are all the files that are not blank; with one that always
    fails, [add_documents] is called with no document at all. *)
Theorem ContextBuilder_ingest_documents (file_map : list (string * string))
    (vectorizer : DocumentVectorizer) (s : St) :
  ∃ documents s1,
    for_each file_map [] (ingest_step llm) s = (Ok documents, s1)
    ∧ ContextBuilder_ingest file_map llm vectorizer s
      = add_documents vectorizer documents s1
    ∧ snd s1 = snd s
    ∧ Forall (summarized file_map) documents
    ∧ sublist (map page_content documents) (map snd file_map)
    ∧ ((∀ content w, ∃ summary w', llm content w = (Ok summary, w')) →
         map page_content documents
         = List.filter (λ content, negb (str_blank content)) (map snd file_map))
    ∧ ((∀ content w, ∃ e w', llm content w = (Raise e, w')) → documents = []).
Proof.
  destruct (ingest_loop file_map [] s) as (kept & s1 & Hrun & Hrest).
  exists kept, s1. split; [exact Hrun|]. split; [|exact Hrest].
  unfold ContextBuilder_ingest. now rewrite (bind_Ok _ _ _ _ _ Hrun).
Qed.
End BuilderFacts.

(** *** [extract_text] and [extract_text_by_page] *)

Lemma u_rstrip_spaces (ws : list Z) :
  Forall (λ c, py_isspace c = true) ws → u_rstrip ws = [].
Proof.
  induction 1 as [|c r Hc Hr IH]; [reflexivity|].
  rewrite u_rstrip_cons, IH. now rewrite Hc.
Qed.

Lemma u_rstrip_app_spaces (t ws : list Z) :
  Forall (λ c, py_isspace c = true) ws → u_rstrip (t ++ ws) = u_rstrip t.
Proof.
  intros Hws. induction t as [|c r IH]; [now apply u_rstrip_spaces|].
  cbn [app]. now rewrite !u_rstrip_cons, IH.
Qed.

Lemma u_lstrip_spaces (ws : list Z) :
  Forall (λ c, py_isspace c = true) ws → u_lstrip ws = [].
Proof.
  induction 1 as [|c r Hc Hr IH]; [reflexivity|]. cbn [u_lstrip]. now rewrite Hc.
Qed.

(** White space at the end does not show after [strip]. *)
Lemma u_strip_app_spaces (t ws : list Z) :
  Forall (λ c, py_isspace c = true) ws → u_strip (t ++ ws) = u_strip t.
Proof.
  intros Hws. unfold u_strip. induction t as [|c r IH].
  - cbn [app]. now rewrite (u_lstrip_spaces ws Hws).
  - cbn [app u_lstrip]. destruct (py_isspace c); [exact IH|].
    now apply (u_rstrip_app_spaces (c :: r)).
Qed.

Lemma extract_text_by_page_map (pages : list (option (list Z))) :
  ∀ acc,
    fold_left (λ pages_text page, pages_text ++ [_normalize_text (default [] page)])
              pages acc
    = acc ++ map (λ page, _normalize_text (default [] page)) pages.
Proof.
  induction pages as [|page pages IH]; intros acc; cbn [fold_left map].
  - now rewrite app_nil_r.
  - now rewrite IH, <- app_assoc.
Qed.

Lemma extract_text_fold (pages : list (option (list Z))) :
  ∀ text,
    fold_left (λ text page, text ++ _normalize_text (default [] page) ++ line_feeds)
              pages text
    = text ++ concat (map (λ page, _normalize_text (default [] page) ++ line_feeds) pages).
Proof.
  induction pages as [|page pages IH]; intros text; cbn [fold_left map concat].
  - now rewrite app_nil_r.
  - now rewrite IH, <- !app_assoc.
Qed.

Lemma concat_with_sep (sep : list Z) (parts : list (list Z)) :
  parts ≠ [] →
  concat (map (λ p, p ++ sep) parts) = u_join sep parts ++ sep.
Proof.
  induction parts as [|p ps IH]; [contradiction|]. intros _.
  destruct ps as [|q ps]; [cbn; now rewrite app_nil_r|].
  rewrite u_join_cons by discriminate.
  rewrite (map_cons (λ p0, p0 ++ sep) p (q :: ps)), concat_cons.
  rewrite IH by discriminate. now rewrite <- !app_assoc.
Qed.

(** X21. [extract_text_by_page] gives one text per page, in order, each
    in the normal form of [_normalize_text] (an empty text for a page
    without text), and [extract_text] returns these page texts put
    together by blank lines, without the white space at the two ends. *)
Theorem extract_text_joins_pages (pages : list (option (list Z))) :
  let pages_text := extract_text_by_page_pages pages in
  PDFTextExtractor_extract_text_by_page (Ok pages) = Ok pages_text
  ∧ length pages_text = length pages
  ∧ (∀ i page, pages !! i = Some page →
        pages_text !! i = Some (_normalize_text (default [] page)))
  ∧ Forall (λ t, _normalize_text t = t) pages_text
  ∧ extract_text_pages pages = u_strip (u_join line_feeds pages_text).
Proof.
  cbn zeta. split; [reflexivity|].
  assert (extract_text_by_page_pages pages
          = map (λ page, _normalize_text (default [] page)) pages) as ->
    by exact (extract_text_by_page_map pages []).
  split; [now rewrite length_map|]. split; [|split].
  - intros i page Hi. now rewrite list_lookup_fmap, Hi.
  - apply List.Forall_forall. intros t Hin. apply in_map_iff in Hin as (page & <- & _).
    destruct (_normalize_text_paragraphs (default [] page)) as (ps & -> & Hall & _).
    now apply _normalize_text_of_paragraphs.
  - unfold extract_text_pages. rewrite (extract_text_fold pages []). cbn [app].
    destruct pages as [|page pages]; [reflexivity|].
    rewrite <- (map_map (λ page, _normalize_text (default [] page)) (λ p, p ++ line_feeds)).
    rewrite concat_with_sep by discriminate.
    apply u_strip_app_spaces. now repeat constructor.
Qed.

(** *** Examples on the in-memory store *)

(** Two documents and batches of five: one call with both. *)
Lemma add_documents_in_batches_single_witness :
  let self := mem_vectorizer "db" 500 200 5 in
  let documents := map Mem.doc ["a"; "b"] in
  let w := Mem.empty_world 10 in
  _add_documents_in_batches self documents (w, [])
  = (Ok ["doc-0"; "doc-1"],
     (Mem.mkWorld ∅ {[ "db" := documents ]} 8 ∅ ∅ ∅,
      [EvAddDocuments "db" documents])).
Proof.
  intros self documents w.
  exact (add_documents_in_batches_single self documents w [] ltac:(vm_compute; discriminate)).
Defined.

(** A batch size of zero: the empty list goes through, one document does
    not. *)
Lemma add_documents_in_batches_nonpositive_witness :
  let self := mem_vectorizer "db" 500 200 0 in
  let s : @St mem_env := (Mem.empty_world 10, []) in
  _add_documents_in_batches self [Mem.doc "a"] s = (Raise ZeroDivisionError, s).
Proof.
  intros self s.
  exact (proj1 (add_documents_in_batches_nonpositive self [Mem.doc "a"] s)
           eq_refl ltac:(discriminate)).
Defined.

(** Five documents in batches of two, into a store with room for ten. *)
Lemma add_documents_flushes_once_witness :
  let self := mem_vectorizer "db" 500 200 2 in
  let documents := map Mem.doc ["a"; "b"; "c"; "d"; "e"] in
  let w := Mem.empty_world 10 in
  let w2 := Mem.mkWorld {[ "db" := ["chroma.sqlite3"] ]} {[ "db" := documents ]} 5 ∅ ∅ ∅ in
  add_documents self documents (w, [])
  = (Ok ["doc-0"; "doc-1"; "doc-2"; "doc-3"; "doc-4"],
     (w2, [EvSplit documents;
           EvAddDocuments "db" (map Mem.doc ["a"; "b"]);
           EvAddDocuments "db" (map Mem.doc ["c"; "d"]);
           EvAddDocuments "db" (map Mem.doc ["e"]);
           EvPersist "db"])).
Proof.
  intros self documents w w2.
  pose (w1 := Mem.mkWorld ∅ {[ "db" := documents ]} 5 ∅ ∅ ∅).
  pose (plan := batch_plan self
                  (splitter_split_documents (chunk_size self) (chunk_overlap self)
                     documents)).
  assert (plan = [map Mem.doc ["a"; "b"]; map Mem.doc ["c"; "d"]; map Mem.doc ["e"]])
    as Hplan by (vm_compute; reflexivity).
  assert (store_accepts "db" w plan
            [["doc-0"; "doc-1"]; ["doc-2"; "doc-3"]; ["doc-4"]] w1) as Hacc.
  { rewrite Hplan.
    apply (@accepts_cons mem_env "db" w
             (Mem.mkWorld ∅ {[ "db" := map Mem.doc ["a"; "b"] ]} 8 ∅ ∅ ∅) w1
             _ _ ["doc-0"; "doc-1"] _); [vm_compute; reflexivity|].
    apply (@accepts_cons mem_env "db" _
             (Mem.mkWorld ∅ {[ "db" := map Mem.doc ["a"; "b"; "c"; "d"] ]} 6 ∅ ∅ ∅) w1
             _ _ ["doc-2"; "doc-3"] _); [vm_compute; reflexivity|].
    apply (@accepts_cons mem_env "db" _ w1 w1 _ _ ["doc-4"] []);
      [vm_compute; reflexivity|apply accepts_nil]. }
  assert (chroma_persist "db" w1 = (Ok tt, w2)) as Hp by (vm_compute; reflexivity).
  etransitivity.
  - exact (proj1 (@add_documents_flushes_once mem_env self documents w []
                    ltac:(reflexivity)) _ w1 w2 Hacc Hp).
  - vm_compute. reflexivity.
Defined.

(** A table that does not exist. *)
Lemma ingest_from_sqlite_query_fails_witness :
  let self :=
    {| embedding_model_name := "mxbai-embed-large:latest";
       db_path := "./xoibit_chroma";
       collection_name := "document_collection";
       chunk_size := 1000; chunk_overlap := 200; batch_size := 5000;
       db := "./xoibit_chroma";
       sqlite_path := Some "xoibit.db";
       content_column := Some "content";
       metadata_columns := ["directory"] |} in
  let w := Mem.empty_world 10 in
  ingest_from_sqlite self "files" (w, [])
  = (Raise (Exn "OperationalError" "no such table"),
     (w, [EvSqliteConnect "xoibit.db";
          EvSqliteFetchall "xoibit.db" "SELECT content, directory FROM files"])).
Proof.
  intros self w.
  exact (ingest_from_sqlite_query_fails self "files" "xoibit.db" w w w []
           (Exn "OperationalError" "no such table")
           eq_refl eq_refl eq_refl eq_refl eq_refl).
Defined.

(** Two columns, two cells. *)
Lemma dict_of_zip_lookup_witness :
  dict_of_zip ["directory"; "id"] [PyStr "src/a"; PyInt 7] ∅ !! "id" = Some (PyInt 7)
  ∧ dict_of_zip ["directory"; "id"] [PyStr "src/a"; PyInt 7] ∅ !! "content" = None.
Proof.
  assert (List.NoDup ["directory"; "id"]) as Hnd.
  { constructor; [intros [Heq|[]]; discriminate|].
    constructor; [intros []|constructor]. }
  split.
  - exact (proj1 (dict_of_zip_lookup ["directory"; "id"] [PyStr "src/a"; PyInt 7] Hnd)
             1%nat "id" eq_refl).
  - refine (proj2 (dict_of_zip_lookup ["directory"; "id"] [PyStr "src/a"; PyInt 7] Hnd)
              "content" _).
    intros [Heq|[Heq|[]]]; discriminate.
Defined.

(** A first construction for a page of one sentence. *)
Lemma WebContext_init_ingests_witness :
  let url := "https://example.com/" in
  let page := "Apps must follow the review guidelines." in
  let path := cache_dir "web_chroma_dbs" url in
  let w0 := Mem.mkWorld ∅ ∅ 10 {[ url := page ]} ∅ ∅ in
  let w2 := Mem.mkWorld {[ path := [] ]} ∅ 10 {[ url := page ]} ∅ ∅ in
  let w6 := Mem.mkWorld {[ path := [] ]} {[ path := [Mem.doc page] ]} 9
                        {[ url := page ]} ∅ ∅ in
  let w7 := Mem.mkWorld {[ path := ["chroma.sqlite3"] ]} {[ path := [Mem.doc page] ]} 9
                        {[ url := page ]} ∅ ∅ in
  let doc := mkDocument page ∅ in
  let chunks := Chunker.split_documents 500 200 [doc] in
  let rechunked := Chunker.split_documents 500 200 chunks in
  let plan := batch_plan (default_vectorizer path) rechunked in
  WebContext_init url "qwen2.5-coder:7b" "web_chroma_dbs" false (w0, [])
  = (Ok (mkWebContext url "qwen2.5-coder:7b" WebScraper_default (db_hash_of url) path
           (default_vectorizer path)
           (Some (mkScrapeContent true page
                    (<[ "title" := PyStr "" ]> {[ "url" := PyStr url ]})))),
     (w7, [EvPathExists path]
          ++ [EvMakedirs path; EvChromaOpen path "document_collection";
              EvFetch url; EvSoup page; EvSplit [doc]; EvSplit chunks]
          ++ map (EvAddDocuments path) plan ++ [EvPersist path])).
Proof.
  intros url page path w0 w2 w6 w7 doc chunks rechunked plan.
  assert (plan = [[Mem.doc page]]) as Hplan by (vm_compute; reflexivity).
  assert (store_accepts path w2 plan [["doc-0"]] w6) as Hacc.
  { rewrite Hplan.
    apply (@accepts_cons mem_env path w2 w6 w6 [Mem.doc page] [] ["doc-0"] []);
      [vm_compute; reflexivity|apply accepts_nil]. }
  assert (db_exists_check path (w0, []) = (Ok false, (w0, [EvPathExists path]))) as Hex
    by (vm_compute; reflexivity).
  assert (os_makedirs path w0 = (Ok tt, w2)) as Hmk by (vm_compute; reflexivity).
  assert (browser_fetch url 30000 w2 = (Ok (page, {[ "url" := PyStr url ]}), w2)) as Hf
    by (vm_compute; reflexivity).
  assert (chroma_persist path w6 = (Ok tt, w7)) as Hp by (vm_compute; reflexivity).
  exact (WebContext_init_ingests url "qwen2.5-coder:7b" "web_chroma_dbs" false false
           (w0, []) (w0, [EvPathExists path]) w2 w2 w2 w2 w6 w7
           page {[ "url" := PyStr url ]} page "" [["doc-0"]]
           Hex eq_refl Hmk eq_refl eq_refl Hf eq_refl eq_refl Hacc Hp).
Defined.

(** A string that is no URL. *)
Lemma WebContext_init_invalid_url_witness :
  let url := "example" in
  let path := cache_dir "web_chroma_dbs" url in
  let w0 := Mem.empty_world 10 in
  let w2 := Mem.mkWorld {[ path := [] ]} ∅ 10 ∅ ∅ ∅ in
  WebContext_init url "qwen2.5-coder:7b" "web_chroma_dbs" false (w0, [])
  = (Raise (ValueError "No content available to vectorize."),
     (w2, [EvPathExists path]
          ++ [EvMakedirs path; EvChromaOpen path "document_collection"])).
Proof.
  intros url path w0 w2.
  assert (db_exists_check path (w0, []) = (Ok false, (w0, [EvPathExists path]))) as Hex
    by (vm_compute; reflexivity).
  assert (os_makedirs path w0 = (Ok tt, w2)) as Hmk by (vm_compute; reflexivity).
  exact (WebContext_init_invalid_url url "qwen2.5-coder:7b" "web_chroma_dbs" false false
           (w0, []) (w0, [EvPathExists path]) w2 w2 Hex eq_refl Hmk eq_refl eq_refl).
Defined.


(** A page with text, a page that cannot be fetched, and a string that is
    no URL. *)
Lemma WebContextBuilder_build_context_cases_witness :
  let url := "https://example.com/" in
  let page := "Apps must follow the review guidelines." in
  let vs := mem_vectorizer "db" 500 200 5000 in
  let w := Mem.mkWorld ∅ ∅ 10 {[ url := page ]} ∅ ∅ in
  let s : @St mem_env := (w, []) in
  WebContextBuilder_build_context WebScraper_default vs "example" s = (Ok None, s)
  ∧ WebContextBuilder_build_context WebScraper_default vs "https://example.org/" s
    = (Ok None, (w, [EvFetch "https://example.org/"]))
  ∧ WebContextBuilder_build_context WebScraper_default vs url s
    = (Ok (Some ["doc-0"]),
       (Mem.mkWorld {[ "db" := ["chroma.sqlite3"] ]}
                    {[ "db" := [mkDocument page {[ "url" := PyStr url ]}] ]}
                    9 {[ url := page ]} ∅ ∅,
        [EvFetch url; EvSoup page;
         EvSplit [mkDocument page {[ "url" := PyStr url ]}];
         EvAddDocuments "db" [mkDocument page {[ "url" := PyStr url ]}];
         EvPersist "db"])).
Proof.
  intros url page vs w s.
  pose proof (WebContextBuilder_build_context_cases WebScraper_default vs "example" s)
    as (Hbad & _ & _).
  pose proof (WebContextBuilder_build_context_cases WebScraper_default vs
                "https://example.org/" s) as (_ & Hdown & _).
  pose proof (WebContextBuilder_build_context_cases WebScraper_default vs url s)
    as (_ & _ & Hpage).
  split; [exact (Hbad eq_refl)|]. split.
  - exact (Hdown eq_refl "TimeoutError" "page did not load" w eq_refl).
  - rewrite (Hpage eq_refl page {[ "url" := PyStr url ]} page "" w w eq_refl eq_refl).
    vm_compute. reflexivity.
Defined.

(** Three files, one of them blank, and a summarizer that fails on the
    file whose text begins with an x. *)
Lemma ContextBuilder_ingest_documents_witness :
  let llm := λ (content : string) (w : Mem.world),
    if String.prefix "x" content
    then (Raise (Exn "RuntimeError" "model not available"), w)
    else (Ok ("summary of " +:+ content), w) in
  let file_map := [("a.py", "print(1)"); ("b.py", "  "); ("c.py", "x = 1")] in
  let s : @St mem_env := (Mem.empty_world 10, []) in
  for_each file_map [] (ingest_step llm) s
  = (Ok [mkDocument "print(1)"
           (<[ "summary" := PyStr "summary of print(1)" ]>
              {[ "file_path" := PyStr "a.py" ]})], s)
  ∧ ∃ documents s1,
      for_each file_map [] (ingest_step llm) s = (Ok documents, s1)
      ∧ sublist (map page_content documents) (map snd file_map).
Proof.
  intros llm file_map s. split; [vm_compute; reflexivity|].
  destruct (@ContextBuilder_ingest_documents mem_env llm file_map
              (mem_vectorizer "db" 500 200 5000) s)
    as (documents & s1 & Hrun & _ & _ & _ & Hsub & _).
  exists documents, s1. split; [exact Hrun|exact Hsub].
Defined.
